(** * Texas critical-infrastructure POI extractor

    A shallow embedding of [extract_texas_infrastructure.py] and the
    properties of its extract / normalize / clean / aggregate / verify
    pipeline.

    Modelling conventions.
    - A pandas (Geo)DataFrame is a record of its column labels, the names
      of its index levels and its rows.  A row is a finite map from label
      to cell value; a label that is absent from the map is a null cell
      (pandas [NaN] / [None]), so [notna] is [is_Some] of the lookup.
      The values of the index levels are kept in the row under the level
      names, which is where [reset_index] finds them.
    - A number is the rational its float stands for, and a float [NaN]
      is a null cell.  The program compares numbers and prints them, which
      is exact; the one computation on them, the mean of a column, is done
      by the library in binary64 and is a field of the [World].
    - shapely geometries are given by what the program observes of them:
      whether they are empty, and their centroid.
    - The Overpass client, the file system and the arithmetic of the
      library are external.  They are the fields of a [World] record about
      which nothing is assumed; the program state threads the client
      settings (the global [ox.settings]), the log of external calls and
      the files on disk.
    - Console output ([print]) is not modelled. *)

From Stdlib Require Import QArith Qabs Ascii Lqa.
From Stdlib Require Floats Uint63.
From stdpp Require Import gmap strings list pretty.
Close Scope Q_scope.
Open Scope string_scope.

(** ** Cell values *)

Module Geometry.

(** A shapely geometry.  [Shape] stands for any non-empty line, polygon
    or multi-part geometry and carries the centroid GEOS computes for
    it; [Empty] is an empty geometry such as [POLYGON EMPTY] or
    [POINT EMPTY]. *)
Inductive t :=
| Empty
| Point (x y : Q)
| Shape (kind : string) (centroid_x centroid_y : Q).

(** [geom.centroid] *)
Definition centroid (g : t) : t :=
  match g with
  | Empty => Empty
  | Point x y => Point x y
  | Shape _ cx cy => Point cx cy
  end.

(** [GeoSeries.x] and [GeoSeries.y] on one entry: NaN (null) for an
    empty point. *)
Definition x (g : t) : option Q :=
  match g with
  | Point x _ => Some x
  | _ => None
  end.

Definition y (g : t) : option Q :=
  match g with
  | Point _ y => Some y
  | _ => None
  end.

Definition eqb (g h : t) : bool :=
  match g, h with
  | Empty, Empty => true
  | Point x1 y1, Point x2 y2 => Qeq_bool x1 x2 && Qeq_bool y1 y2
  | Shape k1 x1 y1, Shape k2 x2 y2 =>
      bool_decide (k1 = k2) && Qeq_bool x1 x2 && Qeq_bool y1 y2
  | _, _ => false
  end.

End Geometry.

Inductive value :=
| VStr (s : string)
| VNum (q : Q)
| VGeom (g : Geometry.t).

(** Equality of two non-null cells, as the pandas hash tables see it:
    numbers by numeric value. *)
Definition value_eqb (v w : value) : bool :=
  match v, w with
  | VStr s, VStr t => bool_decide (s = t)
  | VNum p, VNum q => Qeq_bool p q
  | VGeom g, VGeom h => Geometry.eqb g h
  | _, _ => false
  end.

(** Equality of two cells; two nulls are equal (pandas groups NaN with
    NaN when it looks for duplicates). *)
Definition cell_eqb (c d : option value) : bool :=
  match c, d with
  | None, None => true
  | Some v, Some w => value_eqb v w
  | _, _ => false
  end.

Definition as_num (c : option value) : option Q :=
  match c with
  | Some (VNum q) => Some q
  | _ => None
  end.

Definition as_geom (c : option value) : option Geometry.t :=
  match c with
  | Some (VGeom g) => Some g
  | _ => None
  end.

(** ** Data frames *)

Record DataFrame := mkDF {
  crs : option string;
  index_names : list string;
  columns : list string;
  rows : list (gmap string value)
}.

Definition len (df : DataFrame) : nat := length (rows df).

(** [col in df.columns] *)
Definition has_column (col : string) (df : DataFrame) : bool :=
  bool_decide (col ∈ columns df).

(** [df[col] = ...], one cell per row computed from the row; a null
    result leaves the cell null.  A new label is appended to the
    columns. *)
Definition set_cell (col : string) (c : option value)
    (r : gmap string value) : gmap string value :=
  match c with
  | Some v => <[col := v]> r
  | None => delete col r
  end.

Definition assign (col : string) (f : gmap string value → option value)
    (df : DataFrame) : DataFrame :=
  mkDF (crs df) (index_names df)
       (if has_column col df then columns df else columns df ++ [col])
       (map (λ r, set_cell col (f r) r) (rows df)).

(** [df.reset_index()]: the index levels become the leading columns.  The
    default (unnamed, positional) index becomes a column [index] of
    positions, or [level_0] when [index] is taken.  The library raises
    [ValueError] when the label of a new column is one of the columns
    already; this is the value on the frames on which it does not. *)
Fixpoint number_rows (col : string) (i : Z) (rs : list (gmap string value))
    : list (gmap string value) :=
  match rs with
  | [] => []
  | r :: rs' => <[col := VNum (inject_Z i)]> r :: number_rows col (i + 1) rs'
  end.

Definition reset_index (df : DataFrame) : DataFrame :=
  match index_names df with
  | [] =>
      let col := if has_column "index" df then "level_0" else "index" in
      mkDF (crs df) [] (col :: columns df) (number_rows col 0 (rows df))
  | names => mkDF (crs df) [] (names ++ columns df) (rows df)
  end.

(** [df[cols].notna().any(axis=1)] on one row *)
Definition any_notna (cols : list string) (r : gmap string value) : bool :=
  existsb (λ col, bool_decide (is_Some (r !! col))) cols.

(** [df[mask]] for a mask computed row by row *)
Definition select_rows (mask : gmap string value → bool) (df : DataFrame)
    : DataFrame :=
  mkDF (crs df) (index_names df) (columns df) (List.filter mask (rows df)).

(** [df[cols]]: projection on a list of labels.  Without the geometry
    column the result is a plain frame, which has no CRS. *)
Definition restrict (cols : list string) (r : gmap string value)
    : gmap string value :=
  filter (λ kv : string * value, kv.1 ∈ cols) r.

Definition select_columns (cols : list string) (df : DataFrame) : DataFrame :=
  mkDF (if bool_decide ("geometry" ∈ cols) then crs df else None)
       (index_names df) cols
       (map (λ r, restrict (index_names df ++ cols) r) (rows df)).

(** [pd.concat(frames, ignore_index=True)]: rows in order, columns in
    order of first appearance, the index replaced by the positional
    one. *)
Definition union_columns (cs ds : list string) : list string :=
  cs ++ List.filter (λ d, negb (bool_decide (d ∈ cs))) ds.

Definition concat (frames : list DataFrame) : DataFrame :=
  let cols := foldl union_columns [] (map columns frames) in
  mkDF None [] cols
       (flat_map (λ df, map (restrict (columns df)) (rows df)) frames).

(** [df.drop_duplicates(subset=..., keep='first')] *)
Definition row_key (subset : list string) (r : gmap string value)
    : list (option value) :=
  map (λ col, r !! col) subset.

Fixpoint key_eqb (k1 k2 : list (option value)) : bool :=
  match k1, k2 with
  | [], [] => true
  | c :: k1', d :: k2' => cell_eqb c d && key_eqb k1' k2'
  | _, _ => false
  end.

Definition seen_key (seen : list (list (option value)))
    (k : list (option value)) : bool :=
  existsb (key_eqb k) seen.

Fixpoint drop_duplicates_from (subset : list string)
    (seen : list (list (option value))) (rs : list (gmap string value))
    : list (gmap string value) :=
  match rs with
  | [] => []
  | r :: rs' =>
      let k := row_key subset r in
      if seen_key seen k then drop_duplicates_from subset seen rs'
      else r :: drop_duplicates_from subset (k :: seen) rs'
  end.

Definition drop_duplicates (subset : list string) (df : DataFrame)
    : DataFrame :=
  mkDF (crs df) (index_names df) (columns df)
       (drop_duplicates_from subset [] (rows df)).

(** [df[col].notna().sum()] *)
Definition count_notna (col : string) (df : DataFrame) : nat :=
  length (List.filter (λ r : gmap string value, bool_decide (is_Some (r !! col)))
                      (rows df)).

(** The non-null entries of a numeric column, and their arithmetic mean in
    exact arithmetic: null when there is no entry, otherwise the sum over
    the count, in lowest terms. *)
Definition numeric_column (col : string) (df : DataFrame) : list Q :=
  omap (λ r : gmap string value, as_num (r !! col)) (rows df).

Definition Qsum (qs : list Q) : Q := foldr Qplus 0%Q qs.

Definition arithmetic_mean (col : string) (df : DataFrame) : option Q :=
  match numeric_column col df with
  | [] => None
  | qs => Some (Qred (Qsum qs / inject_Z (Z.of_nat (length qs))))
  end.

(** ** Configuration *)

Definition HISTORICAL_DATE : string := "2022-06-01T00:00:00Z".

Definition LOCATIONS : list string :=
  ["Houston, Texas, USA"; "Dallas, Texas, USA"].

(** The value of a tag in the configuration: a list of subtypes, or one
    subtype alone. *)
Inductive tag_values :=
| Several (vs : list string)
| Single (v : string).

Definition INFRASTRUCTURE_TAGS : list (string * tag_values) :=
  [ ("power", Several ["plant"; "generator"; "substation"]);
    ("amenity", Several ["hospital"; "fire_station"; "police"]);
    ("telecom", Several ["data_center"]);
    ("man_made", Several ["water_works"; "wastewater_plant"]);
    ("aeroway", Several ["aerodrome"]) ].

Definition OUTPUT_FILE : string := "texas_critical_infra_points_2022.csv".
Definition OUTPUT_GEOJSON : string :=
  "texas_critical_infra_points_2022.geojson".

Definition HOUSTON_DALLAS_LAT_BOUNDS : Q * Q := (29.0%Q, 33.5%Q).
Definition HOUSTON_DALLAS_LON_BOUNDS : Q * Q := ((-97.5)%Q, (-94.5)%Q).

Definition KEEP_COLUMNS : list string :=
  [ "name"; "power"; "amenity"; "man_made"; "telecom"; "aeroway";
    "generator:source"; "addr:full"; "addr:street"; "addr:city";
    "operator"; "capacity"; "voltage"; "lat"; "lon"; "city_source" ].

(** ** The external world and the program state *)

Record Settings := mkSettings {
  overpass_settings : string;
  timeout : Z;
  log_console : bool
}.

Inductive File :=
| CsvFile (df : DataFrame)
| GeoJSONFile (gdf : DataFrame)
| OtherFile (content : string).

(** Calls made to the external collaborators, oldest first. *)
Inductive Call :=
| FeaturesFromPlace (s : Settings) (place : string)
| ToCsv (path : string) (df : DataFrame)
| ToFile (path : string) (gdf : DataFrame).

(** The outcome of a call that may raise; an exception is given by its
    message.  Only exceptions derived from Python's [Exception] are
    modelled. *)
Inductive Result (A : Type) :=
| Ok (a : A)
| Raised (e : string).
Arguments Ok {A} a.
Arguments Raised {A} e.

Record World := mkWorld {
  (** [ox.features_from_place(place, tags=tags)] under the given settings;
      the answer may depend on the calls made before. *)
  features_from_place :
    list Call → Settings → string → list (string * list string)
    → Result (option DataFrame);
  (** [df.to_csv(path, index=False, encoding='utf-8')]: the outcome and the
      files on disk afterwards. *)
  to_csv :
    gmap string File → DataFrame → string → Result () * gmap string File;
  (** [gdf.to_file(path, driver='GeoJSON')] *)
  to_file :
    gmap string File → DataFrame → string → Result () * gmap string File;
  (** [os.getcwd()] *)
  getcwd : string;
  (** [Series.mean()] of a float column, given the entries in order, a null
      for a NaN.  The library computes it in binary64 floating point and in
      a summation order of its own: the result is near the arithmetic mean
      of the non-null entries and need not be equal to it.  A null result
      is a NaN. *)
  series_mean : list (option Q) → option Q
}.

Record State := mkState {
  settings : Settings;
  calls : list Call;
  files : gmap string File
}.

(** ** A state and exception monad for the program *)

Definition M (A : Type) : Type := State → Result A * State.

#[global] Instance M_ret : MRet M := λ A (a : A) st, (Ok a, st).

#[global] Instance M_bind : MBind M := λ A B (f : A → M B) (m : M A) st,
  match m st with
  | (Ok a, st') => f a st'
  | (Raised e, st') => (Raised e, st')
  end.

(** [try: body except Exception as e: handler(str(e))] *)
Definition try_except {A} (body : M A) (handler : string → M A) : M A :=
  λ st,
    match body st with
    | (Ok a, st') => (Ok a, st')
    | (Raised e, st') => handler e st'
    end.

Definition raise {A} (e : string) : M A := λ st, (Raised e, st).

Definition set_settings (s : Settings) : M () :=
  λ st, (Ok (), mkState s (calls st) (files st)).

Definition ox_features_from_place (w : World) (place : string)
    (tags : list (string * list string)) : M (option DataFrame) :=
  λ st,
    (features_from_place w (calls st) (settings st) place tags,
     mkState (settings st)
             (calls st ++ [FeaturesFromPlace (settings st) place])
             (files st)).

Definition df_to_csv (w : World) (df : DataFrame) (path : string) : M () :=
  λ st,
    let '(r, fs) := to_csv w (files st) df path in
    (r, mkState (settings st) (calls st ++ [ToCsv path df]) fs).

Definition gdf_to_file (w : World) (gdf : DataFrame) (path : string) : M () :=
  λ st,
    let '(r, fs) := to_file w (files st) gdf path in
    (r, mkState (settings st) (calls st ++ [ToFile path gdf]) fs).

(** [os.path.exists(path)] *)
Definition os_path_exists (path : string) : M bool :=
  λ st, (Ok (bool_decide (is_Some (files st !! path))), st).

(** [os.path.join(a, b)] for a relative [b] *)
Fixpoint ends_with_slash (s : string) : bool :=
  match s with
  | EmptyString => false
  | String c EmptyString => Ascii.eqb c "/"%char
  | String _ s' => ends_with_slash s'
  end.

Definition os_path_join (a b : string) : string :=
  match a with
  | EmptyString => b
  | _ => if ends_with_slash a then a ++ b else a ++ "/" ++ b
  end.

(** ** Helper functions of the program *)

Definition double_quote : string := String (ascii_of_nat 34) EmptyString.

(** The client settings of the two temporal modes. *)
Definition historical_settings : Settings :=
  mkSettings
    ("[out:json][timeout:180][date:" ++ double_quote ++ HISTORICAL_DATE
       ++ double_quote ++ "]")
    180 false.

Definition current_settings : Settings :=
  mkSettings "[out:json][timeout:180]" 180 false.

Definition configure_osmnx_historical : M () :=
  set_settings historical_settings.

Definition configure_osmnx_current : M () :=
  set_settings current_settings.

Definition build_tags_dict : list (string * list string) :=
  map (λ kv : string * tag_values,
         match kv.2 with
         | Several values => (kv.1, values)
         | Single value => (kv.1, [value])
         end)
      INFRASTRUCTURE_TAGS.

Definition fetch_infrastructure_data (w : World) (location : string)
    (tags : list (string * list string)) (use_historical : bool)
    : M (option DataFrame) :=
  try_except
    (gdf ← ox_features_from_place w location tags;
     match gdf with
     | None => mret None
     | Some g => if (len g =? 0)%nat then mret None else mret (Some g)
     end)
    (λ e, mret None).

Definition convert_to_centroids (gdf : option DataFrame) : option DataFrame :=
  match gdf with
  | None => None
  | Some gdf =>
      if (len gdf =? 0)%nat then None
      else
        let gdf :=
          match crs gdf with
          | None => mkDF (Some "EPSG:4326") (index_names gdf) (columns gdf)
                         (rows gdf)
          | Some _ => gdf
          end in
        let gdf :=
          assign "geometry"
                 (λ r, VGeom <$> (Geometry.centroid <$> as_geom (r !! "geometry")))
                 gdf in
        let gdf :=
          assign "lon"
                 (λ r, VNum <$> (as_geom (r !! "geometry") ≫= Geometry.x)) gdf in
        let gdf :=
          assign "lat"
                 (λ r, VNum <$> (as_geom (r !! "geometry") ≫= Geometry.y)) gdf in
        Some gdf
  end.

Definition tag_columns : list string :=
  ["power"; "amenity"; "man_made"; "telecom"; "aeroway"].

Definition clean_and_filter (gdf : option DataFrame) (city_name : string)
    : option DataFrame :=
  match gdf with
  | None => None
  | Some gdf =>
      if (len gdf =? 0)%nat then None
      else
        let gdf := assign "city_source" (λ _, Some (VStr city_name)) gdf in
        let gdf := reset_index gdf in
        let existing_tag_cols :=
          List.filter (λ col, has_column col gdf) tag_columns in
        let gdf :=
          match existing_tag_cols with
          | [] => gdf
          | _ => select_rows (any_notna existing_tag_cols) gdf
          end in
        let available_cols :=
          List.filter (λ col, has_column col gdf) KEEP_COLUMNS in
        let available_cols :=
          if has_column "osmid" gdf then "osmid" :: available_cols
          else available_cols in
        let available_cols :=
          if has_column "element_type" gdf then "element_type" :: available_cols
          else available_cols in
        Some (select_columns available_cols gdf)
  end.

(** ** Verification report *)

Record Report := mkReport {
  check_volume : bool;
  check_coordinates : bool;
  check_location_sanity : bool;
  check_file : bool;
  total_records : nat;
  errors : list string
}.

Definition set_check_volume (b : bool) (r : Report) : Report :=
  mkReport b (check_coordinates r) (check_location_sanity r) (check_file r)
           (total_records r) (errors r).

Definition set_check_coordinates (b : bool) (r : Report) : Report :=
  mkReport (check_volume r) b (check_location_sanity r) (check_file r)
           (total_records r) (errors r).

Definition set_check_location_sanity (b : bool) (r : Report) : Report :=
  mkReport (check_volume r) (check_coordinates r) b (check_file r)
           (total_records r) (errors r).

Definition set_check_file (b : bool) (r : Report) : Report :=
  mkReport (check_volume r) (check_coordinates r) (check_location_sanity r) b
           (total_records r) (errors r).

Definition set_total_records (n : nat) (r : Report) : Report :=
  mkReport (check_volume r) (check_coordinates r) (check_location_sanity r)
           (check_file r) n (errors r).

(** [report["errors"].append(msg)] *)
Definition append_error (msg : string) (r : Report) : Report :=
  mkReport (check_volume r) (check_coordinates r) (check_location_sanity r)
           (check_file r) (total_records r) (errors r ++ [msg]).

(** The format specification [.4f]: four decimals, rounded to nearest with
    ties to even, [nan] for a NaN. *)
Definition round_half_even (q : Q) : Z :=
  let n := Qnum q in
  let d := Z.pos (Qden q) in
  let fl := (n `div` d)%Z in
  let twice_rest := (2 * (n `mod` d))%Z in
  if (twice_rest <? d)%Z then fl
  else if (d <? twice_rest)%Z then (fl + 1)%Z
  else if Z.even fl then fl else (fl + 1)%Z.

Definition zero_pad (width : nat) (s : string) : string :=
  String.concat EmptyString (replicate (width - String.length s) "0") ++ s.

Definition format_4f (x : option Q) : string :=
  match x with
  | None => "nan"
  | Some q =>
      let scaled := round_half_even (Qabs q * 10000)%Q in
      (if Qle_bool 0 q then EmptyString else "-")
        ++ pretty (scaled `div` 10000)%Z ++ "."
        ++ zero_pad 4 (pretty (scaled `mod` 10000)%Z)
  end.

(** [df[col].mean()]: a NaN when the column has no non-null entry,
    otherwise what the library computes from the column.  The result is
    kept in lowest terms. *)
Definition column_values (col : string) (df : DataFrame) : list (option Q) :=
  map (λ r : gmap string value, as_num (r !! col)) (rows df).

Definition mean (w : World) (col : string) (df : DataFrame) : option Q :=
  match numeric_column col df with
  | [] => None
  | _ => Qred <$> series_mean w (column_values col df)
  end.

(** [lo <= x <= hi] on floats: false for a NaN *)
Definition within (bounds : Q * Q) (x : option Q) : bool :=
  match x with
  | None => false
  | Some q => Qle_bool bounds.1 q && Qle_bool q bounds.2
  end.

Definition verify_data (w : World) (df : option DataFrame) : bool * Report :=
  let report := mkReport false false false false 0 [] in
  match df with
  | None => (false, append_error "DataFrame is empty or None" report)
  | Some df =>
      if (len df =? 0)%nat
      then (false, append_error "DataFrame is empty or None" report)
      else
        let report := set_total_records (len df) report in
        (* Check 1: volume *)
        let report :=
          if (100 <? len df)%nat then set_check_volume true report
          else append_error
                 ("Volume check failed: only " ++ pretty (len df) ++ " records")
                 report in
        (* Check 2: coordinate columns exist and hold values *)
        let report :=
          if has_column "lat" df && has_column "lon" df then
            let lat_valid := count_notna "lat" df in
            let lon_valid := count_notna "lon" df in
            if (0 <? lat_valid)%nat && (0 <? lon_valid)%nat
            then set_check_coordinates true report
            else append_error "No valid coordinates found" report
          else append_error "lat/lon columns missing" report in
        (* Check 3: location sanity *)
        let report :=
          if has_column "lat" df && has_column "lon" df then
            let mean_lat := mean w "lat" df in
            let mean_lon := mean w "lon" df in
            let lat_ok := within HOUSTON_DALLAS_LAT_BOUNDS mean_lat in
            let lon_ok := within HOUSTON_DALLAS_LON_BOUNDS mean_lon in
            if lat_ok && lon_ok then set_check_location_sanity true report
            else append_error
                   ("Mean coords (" ++ format_4f mean_lat ++ ", "
                      ++ format_4f mean_lon ++ ") outside expected bounds")
                   report
          else report in
        let success :=
          check_volume report && check_coordinates report
            && check_location_sanity report in
        (success, report)
  end.

(** [gpd.points_from_xy(df['lon'], df['lat'])] on one row.  Of a NaN
    coordinate the library makes a point with NaN coordinates, which is not
    the empty point; [Geometry.Empty] stands for that point here. *)
Definition point_from_xy (r : gmap string value) : Geometry.t :=
  match as_num (r !! "lon"), as_num (r !! "lat") with
  | Some x, Some y => Geometry.Point x y
  | _, _ => Geometry.Empty
  end.

(** [gpd.GeoDataFrame(df, geometry=gpd.points_from_xy(df['lon'], df['lat']),
    crs="EPSG:4326")] *)
Definition GeoDataFrame_from_xy (df : DataFrame) : DataFrame :=
  mkDF (Some "EPSG:4326") (index_names df)
       (if has_column "geometry" df then columns df
        else (columns df ++ ["geometry"])%list)
       (map (λ r, <["geometry" := VGeom (point_from_xy r)]> r) (rows df)).

(** Whether [save_output] goes on to write the GeoJSON file, and where:
    the condition [geojson_path and 'lat' in df.columns and 'lon' in
    df.columns]. *)
Definition geojson_target (df : DataFrame) (geojson_path : option string)
    : option string :=
  match geojson_path with
  | Some path =>
      if negb (bool_decide (path = EmptyString))
         && has_column "lat" df && has_column "lon" df
      then Some path else None
  | None => None
  end.

Definition save_output (w : World) (df : DataFrame) (csv_path : string)
    (geojson_path : option string) : M bool :=
  try_except
    (_ ← df_to_csv w df csv_path;
     found ← os_path_exists csv_path;
     if found : bool then
       _ ← match geojson_target df geojson_path with
           | Some path => gdf_to_file w (GeoDataFrame_from_xy df) path
           | None => (mret () : M ())
           end;
       (mret true : M bool)
     else (mret false : M bool))
    (λ e, mret false).

(** ** Main execution *)

(** [location.split(",")[0]] *)
Fixpoint before_comma (s : string) : string :=
  match s with
  | EmptyString => EmptyString
  | String c s' =>
      if Ascii.eqb c ","%char then EmptyString else String c (before_comma s')
  end.

(** The loop over the locations, which the program runs once per temporal
    mode: fetch, normalize and clean each region and collect the
    non-empty results. *)
Fixpoint fetch_all (w : World) (tags : list (string * list string))
    (use_historical : bool) (locations : list string)
    (all_data : list DataFrame) : M (list DataFrame) :=
  match locations with
  | [] => mret all_data
  | location :: locations' =>
      gdf ← fetch_infrastructure_data w location tags use_historical;
      let all_data :=
        match gdf with
        | Some _ =>
            let gdf := convert_to_centroids gdf in
            let city_name := before_comma location in
            let gdf := clean_and_filter gdf city_name in
            match gdf with
            | Some g => if (0 <? len g)%nat then (all_data ++ [g])%list else all_data
            | None => all_data
            end
        | None => all_data
        end in
      fetch_all w tags use_historical locations' all_data
  end.

Definition total_yield (all_data : list DataFrame) : nat :=
  match all_data with
  | [] => 0
  | _ => foldr Nat.add 0 (map len all_data)
  end.

(** What a run of [main] leaves behind: its return value, the temporal
    mode it ended in, and the data set and report when there are any. *)
Record Outcome := mkOutcome {
  overall_success : bool;
  used_historical : bool;
  final_df : option DataFrame;
  final_report : option Report
}.

Definition main (w : World) : M Outcome :=
  let tags := build_tags_dict in
  _ ← configure_osmnx_historical;
  all_data ← fetch_all w tags true LOCATIONS [];
  let total_historical := total_yield all_data in
  '(use_historical, all_data) ←
    (if (total_historical <? 50)%nat then
       _ ← configure_osmnx_current;
       all_data ← fetch_all w tags false LOCATIONS [];
       mret (false, all_data)
     else mret (true, all_data));
  match all_data with
  | [] => mret (mkOutcome false use_historical None None)
  | _ =>
      let final_df := concat all_data in
      if negb (has_column "lat" final_df && has_column "lon" final_df)
      then raise "KeyError"
      else
        let final_df := drop_duplicates ["lat"; "lon"] final_df in
        let '(success, report) := verify_data w (Some final_df) in
        let output_csv := os_path_join (getcwd w) OUTPUT_FILE in
        let output_geojson := os_path_join (getcwd w) OUTPUT_GEOJSON in
        file_saved ← save_output w final_df output_csv (Some output_geojson);
        let report := set_check_file file_saved report in
        let report :=
          if file_saved then report
          else append_error "File creation failed" report in
        let overall_success := success && file_saved in
        mret (mkOutcome overall_success use_historical (Some final_df)
                        (Some report))
  end.

(** ** The script's entry point *)

(** The block under [if __name__ == "__main__":], as the exit status of the
    script.  [sys.exit] raises [SystemExit], which is no [Exception], so
    the status it carries passes the handlers.  An interrupt from the
    keyboard (status 130) is no part of the world modelled here. *)
Definition script (w : World) : State → Z * State :=
  λ st,
    match main w st with
    | (Ok success, st') =>
        ((if overall_success success then 0 else 1)%Z, st')
    | (Raised e, st') => (1%Z, st')
    end.

(** * Vocabulary of the properties

    The definitions below are not part of the program.  They name what the
    program computes on the way (the row transformation of the Normalizer,
    the data of one pass, the state before the save, ...), so that the
    properties can be stated, and they give the worlds and data sets of the
    examples. *)

(** ** Parts of the helper functions *)

(** What [convert_to_centroids] does to one row. *)
Definition centroid_row (r : gmap string value) : gmap string value :=
  let r1 :=
    set_cell "geometry"
             (VGeom <$> (Geometry.centroid <$> as_geom (r !! "geometry"))) r in
  let r2 :=
    set_cell "lon" (VNum <$> (as_geom (r1 !! "geometry") ≫= Geometry.x)) r1 in
  set_cell "lat" (VNum <$> (as_geom (r2 !! "geometry") ≫= Geometry.y)) r2.

(** The frame the filter of [clean_and_filter] looks at: the input with
    the source city and with the index as columns. *)
Definition stamped (gdf : DataFrame) (city_name : string) : DataFrame :=
  reset_index (assign "city_source" (λ _, Some (VStr city_name)) gdf).

(** The columns [clean_and_filter] keeps, given the frame after the row
    filter. *)
Definition available_columns (gdf : DataFrame) : list string :=
  let available_cols := List.filter (λ col, has_column col gdf) KEEP_COLUMNS in
  let available_cols :=
    if has_column "osmid" gdf then "osmid" :: available_cols
    else available_cols in
  if has_column "element_type" gdf then "element_type" :: available_cols
  else available_cols.

(** The keys seen after a run of [drop_duplicates_from] over [X] are those
    seen before and those of [X]. *)
Definition seen_in (subset : list string) (seen : list (list (option value)))
    (X : list (gmap string value)) (k : list (option value)) : bool :=
  seen_key seen k || existsb (λ r, key_eqb k (row_key subset r)) X.

(** Two records have the same coordinates: the same latitude and the same
    longitude, each compared exactly. *)
Definition same_coordinates (r r' : gmap string value) : bool :=
  cell_eqb (r !! "lat") (r' !! "lat") && cell_eqb (r !! "lon") (r' !! "lon").

(** The diagnostics of checks 1 and 3, as [verify_data] writes them. *)
Definition volume_diagnostic (df : DataFrame) : string :=
  "Volume check failed: only " ++ pretty (len df) ++ " records".

Definition location_diagnostic (w : World) (df : DataFrame) : string :=
  "Mean coords (" ++ format_4f (mean w "lat" df) ++ ", "
    ++ format_4f (mean w "lon" df) ++ ") outside expected bounds".

(** The number of checks a report records as failed. *)
Definition failed_checks (report : Report) : nat :=
  length (List.filter negb
            [check_volume report; check_coordinates report;
             check_location_sanity report; check_file report]).

(** The removal of duplicates in the words of the specification: going
    through the records in order, a record is removed when the coordinates
    of a record before it, removed or not, are its own; the others stay. *)
Fixpoint keep_first_from (earlier X : list (gmap string value))
    : list (gmap string value) :=
  match X with
  | [] => []
  | r :: X' =>
      ((if existsb (same_coordinates r) earlier then [] else [r])
         ++ keep_first_from (earlier ++ [r]) X')%list
  end.

(** ** States and calls *)

Definition is_ok {A} (r : Result A) : bool :=
  match r with
  | Ok _ => true
  | Raised _ => false
  end.

Definition is_client_call (c : Call) : bool :=
  match c with
  | FeaturesFromPlace _ _ => true
  | _ => false
  end.

(** The state after the call of [to_csv] in [save_output]. *)
Definition after_to_csv (w : World) (df : DataFrame) (csv_path : string)
    (st : State) : State :=
  mkState (settings st) (calls st ++ [ToCsv csv_path df])
          (to_csv w (files st) df csv_path).2.

(** The state after the call of [to_file] that follows it. *)
Definition after_to_file (w : World) (df : DataFrame)
    (csv_path path : string) (st : State) : State :=
  let st1 := after_to_csv w df csv_path st in
  mkState (settings st1)
          (calls st1 ++ [ToFile path (GeoDataFrame_from_xy df)])
          (to_file w (files st1) (GeoDataFrame_from_xy df) path).2.

(** The state after one call of the client. *)
Definition logged (st : State) (place : string) : State :=
  mkState (settings st) (calls st ++ [FeaturesFromPlace (settings st) place])
          (files st).

(** ** One pass over the regions *)

(** What one turn of the loop adds to [all_data], given the client's
    answer: nothing unless the answer is a non-empty feature set whose
    cleaned records are not empty. *)
Definition region_result (answer : Result (option DataFrame))
    (location : string) : option DataFrame :=
  match answer with
  | Ok (Some gdf) =>
      if (len gdf =? 0)%nat then None
      else
        match clean_and_filter (convert_to_centroids (Some gdf))
                               (before_comma location) with
        | Some g => if (0 <? len g)%nat then Some g else None
        | None => None
        end
  | _ => None
  end.

(** The calls and the data of one pass over the regions, from the
    history of calls at its start. *)
Definition pass_calls (s : Settings) (locations : list string) : list Call :=
  map (FeaturesFromPlace s) locations.

Fixpoint pass_data (w : World) (tags : list (string * list string))
    (s : Settings) (history : list Call) (locations : list string)
    : list DataFrame :=
  match locations with
  | [] => []
  | location :: locations' =>
      (option_list
         (region_result (features_from_place w history s location tags)
                        location)
         ++ pass_data w tags s (history ++ [FeaturesFromPlace s location])
                      locations')%list
  end.

(** ** One run of [main] *)

(** The data of the HISTORICAL pass, which [main] always runs. *)
Definition historical_data (w : World) (st : State) : list DataFrame :=
  pass_data w build_tags_dict historical_settings (calls st) LOCATIONS.

(** The test [total_historical < 50]. *)
Definition fallback (w : World) (st : State) : bool :=
  (total_yield (historical_data w st) <? 50)%nat.

Definition calls_after_historical (st : State) : list Call :=
  (calls st ++ pass_calls historical_settings LOCATIONS)%list.

(** The data of the CURRENT pass, when it runs after the HISTORICAL
    one. *)
Definition current_data (w : World) (st : State) : list DataFrame :=
  pass_data w build_tags_dict current_settings (calls_after_historical st)
            LOCATIONS.

(** The value of [all_data] when the program consolidates. *)
Definition selected_data (w : World) (st : State) : list DataFrame :=
  if fallback w st then current_data w st else historical_data w st.

Definition state_before_save (w : World) (st : State) : State :=
  if fallback w st then
    mkState current_settings
            (calls_after_historical st ++ pass_calls current_settings LOCATIONS)
            (files st)
  else mkState historical_settings (calls_after_historical st) (files st).

(** The data set: [final_df] after the removal of duplicates. *)
Definition dataset (w : World) (st : State) : DataFrame :=
  drop_duplicates ["lat"; "lon"] (concat (selected_data w st)).

Definition output_csv (w : World) : string :=
  os_path_join (getcwd w) OUTPUT_FILE.

Definition output_geojson (w : World) : string :=
  os_path_join (getcwd w) OUTPUT_GEOJSON.

Definition saving (w : World) (st : State) : Result bool * State :=
  save_output w (dataset w st) (output_csv w) (Some (output_geojson w))
              (state_before_save w st).

Definition file_saved (w : World) (st : State) : bool :=
  match (saving w st).1 with
  | Ok b => b
  | Raised _ => false
  end.

(** The report after check 4. *)
Definition completed_report (w : World) (st : State) : Report :=
  let report :=
    set_check_file (file_saved w st) (verify_data w (Some (dataset w st))).2 in
  if file_saved w st then report
  else append_error "File creation failed" report.

(** Writers that work: each stores what it is given under the path and
    leaves the other files alone. *)
Definition stores_csv (w : World) : Prop :=
  ∀ fs df path, to_csv w fs df path = (Ok (), <[path := CsvFile df]> fs).

Definition stores_geojson (w : World) : Prop :=
  ∀ fs gdf path, to_file w fs gdf path = (Ok (), <[path := GeoJSONFile gdf]> fs).

(** ** Data sets and worlds of the examples *)

(** A data set of [n] records at one coordinate. *)
Definition record_at (lat lon : Q) : gmap string value :=
  <["lat" := VNum lat]> (<["lon" := VNum lon]> (<["power" := VStr "plant"]> ∅)).

Definition dataset_at (n : nat) (lat lon : Q) : DataFrame :=
  mkDF None [] ["power"; "lat"; "lon"] (replicate n (record_at lat lon)).

(** A feature set with one feature whose geometry is empty. *)
Definition empty_geometry_features : DataFrame :=
  mkDF None ["element_type"; "osmid"] ["geometry"; "power"]
       [ <["element_type" := VStr "way"]>
           (<["osmid" := VNum 7]>
              (<["geometry" := VGeom Geometry.Empty]>
                 (<["power" := VStr "plant"]> ∅))) ].

(** A record set in which no feature carries a category column. *)
Definition untagged_features : DataFrame :=
  mkDF (Some "EPSG:4326") ["element_type"; "osmid"]
       ["name"; "geometry"; "lon"; "lat"]
       [ <["element_type" := VStr "node"]>
           (<["osmid" := VNum 11]>
              (<["name" := VStr "Depot"]>
                 (<["geometry" := VGeom (Geometry.Point (-95.37) 29.76)]>
                    (<["lon" := VNum (-95.37)]> (<["lat" := VNum 29.76]> ∅))))) ].

(** A record set with a [power] column, one record tagged and one not. *)
Definition half_tagged_features : DataFrame :=
  mkDF (Some "EPSG:4326") ["element_type"; "osmid"]
       ["name"; "power"; "geometry"; "lon"; "lat"]
       [ <["element_type" := VStr "node"]>
           (<["osmid" := VNum 11]>
              (<["name" := VStr "Depot"]>
                 (<["lon" := VNum (-95.37)]> (<["lat" := VNum 29.76]> ∅))));
         <["element_type" := VStr "node"]>
           (<["osmid" := VNum 12]>
              (<["power" := VStr "substation"]>
                 (<["lon" := VNum (-95.4)]> (<["lat" := VNum 29.7]> ∅)))) ].

(** [n] substations, as the client returns them. *)
Definition substation (i : nat) (lat lon : Q) : gmap string value :=
  <["element_type" := VStr "node"]>
    (<["osmid" := VNum (inject_Z (Z.of_nat i))]>
       (<["power" := VStr "substation"]>
          (<["geometry" :=
               VGeom (Geometry.Point lon
                        (lat + inject_Z (Z.of_nat i) / 1000)%Q)]> ∅))).

Definition substations (n : nat) (lat lon : Q) : DataFrame :=
  mkDF (Some "EPSG:4326") ["element_type"; "osmid"] ["power"; "geometry"]
       (map (λ i, substation i lat lon) (seq 0 n)).

(** A client that finds a given number of substations in each of the two
    regions, whatever the temporal mode. *)
Definition yields (houston dallas : nat)
    : list Call → Settings → string → list (string * list string)
      → Result (option DataFrame) :=
  λ _ _ place _,
    if bool_decide (place = "Houston, Texas, USA")
    then Ok (Some (substations houston 29.76 (-95.37)))
    else Ok (Some (substations dallas 32.78 (-96.80))).

(** A client whose answer depends on the temporal mode: so many
    substations per region under the historical settings, so many under the
    current ones. *)
Definition yields_by_mode (historical current : nat * nat)
    : list Call → Settings → string → list (string * list string)
      → Result (option DataFrame) :=
  λ history s place tags,
    if bool_decide (overpass_settings s = overpass_settings historical_settings)
    then yields historical.1 historical.2 history s place tags
    else yields current.1 current.2 history s place tags.

(** A library with exact arithmetic: the mean of the non-null entries,
    without rounding. *)
Definition exact_series_mean (xs : list (option Q)) : option Q :=
  match omap id xs with
  | [] => None
  | qs => Some (Qsum qs / inject_Z (Z.of_nat (length qs)))%Q
  end.

Definition no_data_client
    : list Call → Settings → string → list (string * list string)
      → Result (option DataFrame) :=
  λ _ _ _ _, Ok None.

(** A world whose writers work: each writer stores what it is given under
    the path. *)
Definition working_writers
    (client : list Call → Settings → string → list (string * list string)
              → Result (option DataFrame)) : World :=
  mkWorld client
          (λ fs df path, (Ok (), <[path := CsvFile df]> fs))
          (λ fs gdf path, (Ok (), <[path := GeoJSONFile gdf]> fs))
          "/data" exact_series_mean.

(** The same world, but the GeoJSON driver fails. *)
Definition failing_geojson
    (client : list Call → Settings → string → list (string * list string)
              → Result (option DataFrame)) : World :=
  mkWorld client
          (λ fs df path, (Ok (), <[path := CsvFile df]> fs))
          (λ fs gdf path, (Raised "GeoJSON driver not available", fs))
          "/data" exact_series_mean.

Definition one_substation_world : World := working_writers (yields 1 0).

(** A world in which the client finds the same two substations for either
    region. *)
Definition shared_sites : World :=
  working_writers (λ _ _ _ _, Ok (Some (substations 2 29.76 (-95.37)))).

(** A world in which the client finds nothing. *)
Definition quiet_world : World := working_writers no_data_client.

(** A data set with one record per coordinate, latitude first. *)
Definition dataset_of (coordinates : list (Q * Q)) : DataFrame :=
  mkDF None [] ["power"; "lat"; "lon"]
       (map (λ c : Q * Q, record_at c.1 c.2) coordinates).

(** ** A library that computes in binary64 *)

(** The binary64 number of an integer below 2^53 in magnitude, and the
    binary64 number nearest to the quotient of two such integers: the
    division of the kernel's floats rounds to nearest, ties to even. *)
Definition float_of_Z (z : Z) : PrimFloat.float :=
  match z with
  | Z0 => PrimFloat.zero
  | Zpos _ => PrimFloat.of_uint63 (Uint63.of_Z z)
  | Zneg p => PrimFloat.opp (PrimFloat.of_uint63 (Uint63.of_Z (Zpos p)))
  end.

Definition float_of_Q (q : Q) : PrimFloat.float :=
  PrimFloat.div (float_of_Z (Qnum q)) (float_of_Z (Zpos (Qden q))).

(** The rational a finite binary64 number stands for; null for a NaN or
    an infinity. *)
Definition Q_of_float (f : PrimFloat.float) : option Q :=
  match FloatOps.Prim2SF f with
  | SpecFloat.S754_zero _ => Some 0%Q
  | SpecFloat.S754_finite s m e =>
      let v :=
        if (0 <=? e)%Z then inject_Z (Zpos m * 2 ^ e)
        else (Zpos m # Pos.shiftl 1 (Z.to_N (- e)))%Q in
      Some (if s then Qopp v else v)
  | _ => None
  end.

(** The mean as a library computes it that adds the non-null entries in
    order, in binary64, and divides the sum by their number. *)
Definition binary64_series_mean (xs : list (option Q)) : option Q :=
  match omap id xs with
  | [] => None
  | qs =>
      Q_of_float
        (PrimFloat.div
           (fold_left PrimFloat.add (map float_of_Q qs) PrimFloat.zero)
           (float_of_Z (Z.of_nat (length qs))))
  end.

Definition binary64_world : World :=
  mkWorld no_data_client
          (λ fs df path, (Ok (), <[path := CsvFile df]> fs))
          (λ fs gdf path, (Ok (), <[path := GeoJSONFile gdf]> fs))
          "/data" binary64_series_mean.

(** Three records at the lower bound of the latitude: 29.0, 29.0 and the
    binary64 number next below 29.0, which is 29 - 2^-48 and which Python
    prints as 28.999999999999996. *)
Definition latitudes_at_the_bound : DataFrame :=
  dataset_of [ (29, -95.5); (29, -95.5);
               (29 - 1 / inject_Z (2 ^ 48), -95.5) ]%Q.

(** Records around Houston and around New York, with the arithmetic means
    (29.76, -95.37) and (40.71, -74.01). *)
Definition around_houston : DataFrame :=
  dataset_of [ (29.70, -95.30); (29.76, -95.37); (29.82, -95.44) ]%Q.

Definition around_new_york : DataFrame :=
  dataset_of [ (40.70, -74.00); (40.71, -74.01); (40.72, -74.02) ]%Q.

(** A world in which the query for Houston fails and Dallas has three
    substations. *)
Definition houston_fails : World :=
  working_writers
    (λ _ _ place _,
       if bool_decide (place = "Houston, Texas, USA")
       then Raised "Connection timed out"
       else Ok (Some (substations 3 32.78 (-96.80)))).

(** A world in which the query for Houston fails, Dallas has three
    substations in the HISTORICAL mode, and the CURRENT mode finds
    nothing. *)
Definition houston_fails_dallas_in_history : World :=
  working_writers
    (λ _ s place _,
       if bool_decide (place = "Houston, Texas, USA")
       then Raised "Connection timed out"
       else if bool_decide (overpass_settings s
                            = overpass_settings historical_settings)
            then Ok (Some (substations 3 32.78 (-96.80)))
            else Ok None).

Definition initial_state : State :=
  mkState (mkSettings "[out:json][timeout:{timeout}]{maxsize}" 180 false) [] ∅.

(** Membership in a list of labels that is given in full. *)
Ltac solve_elem_of := apply (bool_decide_unpack _); vm_compute; exact I.

(** A record set with a [power] column in which no feature has a value
    for it. *)
Definition all_null_features : DataFrame :=
  mkDF (Some "EPSG:4326") ["element_type"; "osmid"]
       ["name"; "power"; "lon"; "lat"]
       [ <["element_type" := VStr "node"]>
           (<["osmid" := VNum 11]>
              (<["name" := VStr "Depot"]>
                 (<["lon" := VNum (-95.37)]> (<["lat" := VNum 29.76]> ∅)))) ].

(** No two records of a list have the same key: no record's key is the key
    of a later one. *)
Fixpoint distinct_keys (subset : list string) (X : list (gmap string value))
    : bool :=
  match X with
  | [] => true
  | r :: X' =>
      negb (existsb (λ r', key_eqb (row_key subset r) (row_key subset r')) X')
      && distinct_keys subset X'
  end.

(** * Properties *)

(** ** The Verifier's three own checks *)

Section Verifier.

Context (w : World).
Implicit Types (df : DataFrame) (r : Report).

Lemma verify_data_check_volume df :
  check_volume (verify_data w (Some df)).2 = (100 <? len df)%nat.
Proof.
  unfold verify_data.
  destruct (len df =? 0)%nat eqn:Hlen.
  - apply Nat.eqb_eq in Hlen. rewrite Hlen. reflexivity.
  - destruct (100 <? len df)%nat;
      destruct (has_column "lat" df && has_column "lon" df);
      repeat (match goal with |- context [if ?b then _ else _] => destruct b end);
      reflexivity.
Qed.

Lemma verify_data_check_coordinates df :
  check_coordinates (verify_data w (Some df)).2
  = has_column "lat" df && has_column "lon" df
    && ((0 <? count_notna "lat" df)%nat && (0 <? count_notna "lon" df)%nat).
Proof.
  unfold verify_data.
  destruct (len df =? 0)%nat eqn:Hlen.
  - apply Nat.eqb_eq in Hlen.
    assert (Hrows : rows df = []) by (by apply length_zero_iff_nil).
    unfold count_notna. rewrite Hrows. simpl.
    by destruct (has_column "lat" df), (has_column "lon" df).
  - destruct (100 <? len df)%nat;
      destruct (has_column "lat" df && has_column "lon" df);
      repeat (match goal with |- context [if ?b then _ else _] => destruct b eqn:? end);
      simpl in *; congruence.
Qed.

Lemma mean_nil col df : rows df = [] → mean w col df = None.
Proof. unfold mean, numeric_column. by intros ->. Qed.

Lemma verify_data_check_location_sanity df :
  check_location_sanity (verify_data w (Some df)).2
  = has_column "lat" df && has_column "lon" df
    && (within HOUSTON_DALLAS_LAT_BOUNDS (mean w "lat" df)
        && within HOUSTON_DALLAS_LON_BOUNDS (mean w "lon" df)).
Proof.
  unfold verify_data.
  destruct (len df =? 0)%nat eqn:Hlen.
  - apply Nat.eqb_eq in Hlen.
    assert (Hrows : rows df = []) by (by apply length_zero_iff_nil).
    rewrite !(mean_nil _ _ Hrows). simpl.
    by destruct (has_column "lat" df), (has_column "lon" df).
  - destruct (100 <? len df)%nat;
      destruct (has_column "lat" df && has_column "lon" df);
      repeat (match goal with |- context [if ?b then _ else _] => destruct b eqn:? end);
      simpl in *; congruence.
Qed.

(** The mean is in lowest terms, so a mean of a given value is that
    value's reduced fraction. *)
Lemma mean_reduced col df m : mean w col df = Some m → Qred m = m.
Proof.
  unfold mean. destruct (numeric_column col df); [done|].
  destruct (series_mean w _) as [x|]; [|done].
  intros [= <-]. apply Qred_complete, Qred_correct.
Qed.

Lemma mean_value col df m (q : Q) :
  mean w col df = Some m → (m == q)%Q → m = Qred q.
Proof.
  intros Hm Heq. rewrite <- (mean_reduced _ _ _ Hm). by apply Qred_complete.
Qed.

Lemma within_iff bounds (x : option Q) :
  within bounds x = true
  ↔ ∃ q, x = Some q ∧ (bounds.1 <= q)%Q ∧ (q <= bounds.2)%Q.
Proof.
  destruct x as [q|]; simpl.
  - rewrite andb_true_iff, !Qle_bool_iff. split.
    + intros [??]. by exists q.
    + by intros (? & [= <-] & ? & ?).
  - split; [done|]. by intros (? & ? & _).
Qed.

Lemma round_half_even_near (q : Q) (k : Z) :
  (inject_Z k - (1 # 2) < q)%Q → (q < inject_Z k + (1 # 2))%Q →
  round_half_even q = k.
Proof.
  destruct q as [n d]. unfold Qlt, round_half_even.
  cbn [Qnum Qden Qminus Qplus Qopp inject_Z].
  intros Hlo Hhi.
  pose proof (Z.div_mod n (Z.pos d) ltac:(lia)) as Hdiv.
  pose proof (Z.mod_pos_bound n (Z.pos d) ltac:(lia)) as Hmod.
  simpl in Hlo, Hhi.
  repeat case_match; try rewrite Z.ltb_lt in *; try rewrite Z.ltb_ge in *;
    nia.
Qed.

(** The four decimals of a number: those of the nearest multiple of
    0.0001. *)
Lemma format_4f_near (q : Q) (k : Z) :
  (Qabs (Qabs q * 10000 - inject_Z k) < 1 # 2)%Q →
  format_4f (Some q)
  = (if Qle_bool 0 q then EmptyString else "-")
      ++ pretty (k `div` 10000)%Z ++ "."
      ++ zero_pad 4 (pretty (k `mod` 10000)%Z).
Proof.
  intros [Hlo Hhi]%Qabs_Qlt_condition. unfold format_4f. cbv zeta.
  rewrite (round_half_even_near _ k); [reflexivity|lra..].
Qed.

Lemma within_bounds (lo hi : Q) (x : Q) :
  within (lo, hi) (Some x) = true ↔ (lo <= x)%Q ∧ (x <= hi)%Q.
Proof.
  unfold within. cbn [fst snd]. by rewrite andb_true_iff, !Qle_bool_iff.
Qed.

(** When check 3 fails on a frame with records and both coordinate
    columns, the report holds the diagnostic that names the mean. *)
Lemma verify_data_location_error df :
  len df ≠ 0 →
  has_column "lat" df = true → has_column "lon" df = true →
  check_location_sanity (verify_data w (Some df)).2 = false →
  location_diagnostic w df ∈ errors (verify_data w (Some df)).2.
Proof.
  intros Hlen Hlat Hlon. unfold verify_data.
  apply Nat.eqb_neq in Hlen. rewrite Hlen, Hlat, Hlon. cbn [andb].
  destruct (100 <? len df)%nat;
    destruct ((0 <? count_notna "lat" df)%nat
              && (0 <? count_notna "lon" df)%nat);
    destruct (within HOUSTON_DALLAS_LAT_BOUNDS (mean w "lat" df)
              && within HOUSTON_DALLAS_LON_BOUNDS (mean w "lon" df));
    cbn [snd check_location_sanity set_check_location_sanity errors
         append_error set_check_volume set_check_coordinates
         set_total_records];
    intros Hcheck; try discriminate Hcheck;
    apply elem_of_app; right; apply list_elem_of_singleton; reflexivity.
Qed.

End Verifier.

(** C8: the volume check passes exactly when the data set has more than
    100 records; 100 records fail it and 101 records pass it. *)
Theorem volume_check_iff_more_than_100 (w : World) (df : DataFrame) :
  (check_volume (verify_data w (Some df)).2 = true ↔ 100 < len df)
  ∧ (len df = 100 → check_volume (verify_data w (Some df)).2 = false)
  ∧ (len df = 101 → check_volume (verify_data w (Some df)).2 = true).
Proof.
  rewrite verify_data_check_volume. split; [|split].
  - apply Nat.ltb_lt.
  - intros ->. reflexivity.
  - intros ->. reflexivity.
Qed.

Lemma volume_check_witness :
  check_volume (verify_data quiet_world (Some (dataset_at 100 29.76 (-95.37)))).2 = false
  ∧ check_volume (verify_data quiet_world (Some (dataset_at 101 29.76 (-95.37)))).2 = true.
Proof.
  split.
  - apply (proj1 (proj2 (volume_check_iff_more_than_100 _ _))).
    vm_compute. reflexivity.
  - apply (proj2 (proj2 (volume_check_iff_more_than_100 _ _))).
    vm_compute. reflexivity.
Defined.

(** C9, as the specification states it, fails at the bounds, because the
    library rounds.  Of the three latitudes 29.0, 29.0 and 29.0 - 2^-48 the
    arithmetic mean is below 29.0; in binary64 their sum is 87.0, the mean
    the check sees is 29.0, and the check passes. *)
Lemma location_sanity_passes_below_the_bound :
  has_column "lat" latitudes_at_the_bound = true
  ∧ has_column "lon" latitudes_at_the_bound = true
  ∧ check_location_sanity
      (verify_data binary64_world (Some latitudes_at_the_bound)).2 = true
  ∧ mean binary64_world "lat" latitudes_at_the_bound = Some 29%Q
  ∧ ∃ a, arithmetic_mean "lat" latitudes_at_the_bound = Some a
         ∧ (a < 29.0)%Q.
Proof.
  split; [reflexivity|]. split; [reflexivity|].
  split; [vm_compute; reflexivity|]. split; [vm_compute; reflexivity|].
  eexists. split; [reflexivity|]. vm_compute. reflexivity.
Qed.

(** C9: for a data set with [lat] and [lon] columns the location-sanity
    check passes exactly when the mean latitude the library computes lies in
    [29.0, 33.5] and the mean longitude it computes in [-97.5, -94.5].  When
    the computed means are within [δ] of the arithmetic means, the check
    passes if the arithmetic means lie in the bounds narrowed by [δ] and
    fails if one lies outside the bounds widened by [δ].  A computed mean of
    (29.76, -95.37) passes; one of (40.71, -74.01) fails, and whenever the
    check fails on a frame with records the report gets the diagnostic that
    names the computed mean to four decimals. *)
Theorem location_sanity_iff_mean_in_bounds (w : World) (df : DataFrame) :
  has_column "lat" df = true →
  has_column "lon" df = true →
  (check_location_sanity (verify_data w (Some df)).2 = true
   ↔ ∃ mean_lat mean_lon,
       mean w "lat" df = Some mean_lat ∧ mean w "lon" df = Some mean_lon
       ∧ (29.0 <= mean_lat)%Q ∧ (mean_lat <= 33.5)%Q
       ∧ (-97.5 <= mean_lon)%Q ∧ (mean_lon <= -94.5)%Q)
  ∧ (∀ δ a_lat a_lon mean_lat mean_lon : Q,
       arithmetic_mean "lat" df = Some a_lat →
       arithmetic_mean "lon" df = Some a_lon →
       mean w "lat" df = Some mean_lat → mean w "lon" df = Some mean_lon →
       (Qabs (mean_lat - a_lat) <= δ)%Q → (Qabs (mean_lon - a_lon) <= δ)%Q →
       ((29.0 + δ <= a_lat)%Q ∧ (a_lat <= 33.5 - δ)%Q
        ∧ (-97.5 + δ <= a_lon)%Q ∧ (a_lon <= -94.5 - δ)%Q →
        check_location_sanity (verify_data w (Some df)).2 = true)
       ∧ ((a_lat < 29.0 - δ)%Q ∨ (33.5 + δ < a_lat)%Q
          ∨ (a_lon < -97.5 - δ)%Q ∨ (-94.5 + δ < a_lon)%Q →
          check_location_sanity (verify_data w (Some df)).2 = false))
  ∧ (∀ mean_lat mean_lon : Q,
       mean w "lat" df = Some mean_lat → mean w "lon" df = Some mean_lon →
       (Qabs (mean_lat - 29.76) < 0.00005)%Q →
       (Qabs (mean_lon - -95.37) < 0.00005)%Q →
       check_location_sanity (verify_data w (Some df)).2 = true)
  ∧ (∀ mean_lat mean_lon : Q,
       mean w "lat" df = Some mean_lat → mean w "lon" df = Some mean_lon →
       (Qabs (mean_lat - 40.71) < 0.00005)%Q →
       (Qabs (mean_lon - -74.01) < 0.00005)%Q →
       check_location_sanity (verify_data w (Some df)).2 = false
       ∧ location_diagnostic w df
         = "Mean coords (40.7100, -74.0100) outside expected bounds")
  ∧ (len df ≠ 0 →
     check_location_sanity (verify_data w (Some df)).2 = false →
     location_diagnostic w df ∈ errors (verify_data w (Some df)).2).
Proof.
  intros Hlat Hlon.
  rewrite verify_data_check_location_sanity, Hlat, Hlon. cbn [andb].
  split; [|split; [|split; [|split]]].
  - rewrite andb_true_iff, !within_iff. simpl. split.
    + intros [(a & Ha & ? & ?) (b & Hb & ? & ?)]. by exists a, b.
    + intros (a & b & Ha & Hb & ? & ? & ? & ?). split; [by exists a|by exists b].
  - intros δ a_lat a_lon mean_lat mean_lon _ _ -> ->
      [??]%Qabs_Qle_condition [??]%Qabs_Qle_condition.
    split.
    + intros (? & ? & ? & ?). apply andb_true_iff.
      split; apply within_bounds; split; lra.
    + intros Hout. apply not_true_iff_false.
      intros [[??]%within_bounds [??]%within_bounds]%andb_true_iff.
      destruct Hout as [?|[?|[?|?]]]; lra.
  - intros mean_lat mean_lon -> -> [??]%Qabs_Qlt_condition
      [??]%Qabs_Qlt_condition.
    apply andb_true_iff. split; apply within_bounds; split; lra.
  - intros mean_lat mean_lon Hmlat Hmlon Hnlat Hnlon.
    pose proof Hnlat as [??]%Qabs_Qlt_condition.
    pose proof Hnlon as [??]%Qabs_Qlt_condition.
    split.
    + rewrite Hmlat. apply andb_false_iff. left. apply not_true_iff_false.
      intros [??]%within_bounds. lra.
    + unfold location_diagnostic. rewrite Hmlat, Hmlon.
      rewrite (format_4f_near mean_lat 407100), (format_4f_near mean_lon 740100).
      * assert (Qle_bool 0 mean_lat = true) as ->
          by (apply Qle_bool_iff; lra).
        assert (Qle_bool 0 mean_lon = false) as ->
          by (apply not_true_iff_false; rewrite Qle_bool_iff; lra).
        vm_compute. reflexivity.
      * apply Qabs_Qlt_condition. change (inject_Z 740100) with 740100%Q.
        rewrite (Qabs_neg mean_lon) by lra. split; lra.
      * apply Qabs_Qlt_condition. change (inject_Z 407100) with 407100%Q.
        rewrite (Qabs_pos mean_lat) by lra. split; lra.
  - intros Hlen Hcheck. apply verify_data_location_error; try done.
    by rewrite verify_data_check_location_sanity, Hlat, Hlon.
Qed.

Lemma location_sanity_witness :
  check_location_sanity
    (verify_data quiet_world (Some around_houston)).2 = true
  ∧ check_location_sanity
      (verify_data quiet_world (Some around_new_york)).2 = false
  ∧ "Mean coords (40.7100, -74.0100) outside expected bounds"
      ∈ errors (verify_data quiet_world (Some around_new_york)).2.
Proof.
  destruct (location_sanity_iff_mean_in_bounds quiet_world around_houston
              eq_refl eq_refl) as (_ & Hnear & _).
  destruct (location_sanity_iff_mean_in_bounds quiet_world around_new_york
              eq_refl eq_refl) as (_ & _ & _ & Hfar & Herror).
  assert (mean quiet_world "lat" around_new_york = Some (Qred 40.71%Q))
    as Hlat by (vm_compute; reflexivity).
  assert (mean quiet_world "lon" around_new_york = Some (Qred (-74.01)%Q))
    as Hlon by (vm_compute; reflexivity).
  destruct (Hfar _ _ Hlat Hlon) as [Hfails Htext];
    [vm_compute; reflexivity..|].
  split; [|split; [exact Hfails|]].
  - apply (Hnear 0%Q (Qred 29.76%Q) (Qred (-95.37)%Q)
                 (Qred 29.76%Q) (Qred (-95.37)%Q)).
    + vm_compute; reflexivity.
    + vm_compute; reflexivity.
    + vm_compute; reflexivity.
    + vm_compute; reflexivity.
    + vm_compute; discriminate.
    + vm_compute; discriminate.
    + repeat split; vm_compute; discriminate.
  - apply Herror; [vm_compute; discriminate|exact Hfails].
Defined.

(** ** Column labels under the frame operations *)

Section Columns.

Implicit Types (df : DataFrame) (col c : string).

Lemma assign_columns_new col f df : col ∈ columns (assign col f df).
Proof.
  unfold assign, has_column. cbn [columns].
  case_bool_decide as Hcol; [exact Hcol|].
  apply elem_of_app. right. apply list_elem_of_here.
Qed.

Lemma assign_columns_old c col f df :
  c ∈ columns df → c ∈ columns (assign col f df).
Proof.
  intros Hc. unfold assign, has_column. cbn [columns].
  case_bool_decide; [exact Hc|]. apply elem_of_app. by left.
Qed.

Lemma reset_index_columns_old c df :
  c ∈ columns df → c ∈ columns (reset_index df).
Proof.
  intros Hc. unfold reset_index.
  destruct (index_names df) as [|n ns]; cbn [columns].
  - by apply list_elem_of_further.
  - apply (elem_of_app (n :: ns)). by right.
Qed.

Lemma reset_index_index_names df : index_names (reset_index df) = [].
Proof. unfold reset_index. by destruct (index_names df). Qed.

Lemma elem_of_filter_list {A} (P : A → bool) (l : list A) (x : A) :
  x ∈ List.filter P l ↔ x ∈ l ∧ P x = true.
Proof. rewrite !list_elem_of_In. apply filter_In. Qed.

Lemma elem_of_map_list {A B} (f : A → B) (l : list A) (y : B) :
  y ∈ map f l ↔ ∃ x, f x = y ∧ x ∈ l.
Proof.
  rewrite list_elem_of_In, in_map_iff.
  by setoid_rewrite list_elem_of_In.
Qed.

End Columns.

(** ** The Geometry Normalizer *)

Section Normalizer.

Implicit Types (gdf out : DataFrame) (r : gmap string value).

Lemma convert_to_centroids_rows gdf out :
  convert_to_centroids (Some gdf) = Some out →
  rows out = map centroid_row (rows gdf).
Proof.
  unfold convert_to_centroids.
  destruct (len gdf =? 0)%nat; [done|].
  intros [= <-]. unfold assign. cbn [rows].
  rewrite !map_map.
  destruct (crs gdf); reflexivity.
Qed.

Lemma convert_to_centroids_columns gdf out :
  convert_to_centroids (Some gdf) = Some out →
  "lat" ∈ columns out ∧ "lon" ∈ columns out.
Proof.
  unfold convert_to_centroids.
  destruct (len gdf =? 0)%nat; [done|].
  intros [= <-]. split.
  - apply assign_columns_new.
  - apply assign_columns_old, assign_columns_new.
Qed.

Lemma centroid_row_coordinates r :
  match as_geom (r !! "geometry") with
  | Some g =>
      centroid_row r !! "lat" = VNum <$> Geometry.y (Geometry.centroid g)
      ∧ centroid_row r !! "lon" = VNum <$> Geometry.x (Geometry.centroid g)
  | None => centroid_row r !! "lat" = None ∧ centroid_row r !! "lon" = None
  end.
Proof.
  unfold centroid_row.
  destruct (r !! "geometry") as [[s|q|[|x y|k x y]]|] eqn:Hg;
    cbn [as_geom fmap option_fmap option_map set_cell mbind option_bind
         Geometry.centroid Geometry.x Geometry.y];
    repeat (first
      [ rewrite lookup_insert_eq
      | rewrite lookup_delete_eq
      | rewrite lookup_insert_ne by done
      | rewrite lookup_delete_ne by done
      | rewrite Hg ];
      cbn [as_geom fmap option_fmap option_map set_cell mbind option_bind
           Geometry.centroid Geometry.x Geometry.y]);
    split; reflexivity.
Qed.

End Normalizer.

(** C7, as the specification states it, fails: the feature with the empty
    geometry is in the Normalizer's output, with a null latitude and a null
    longitude. *)
Lemma convert_to_centroids_keeps_empty_geometry :
  len <$> convert_to_centroids (Some empty_geometry_features) = Some 1
  ∧ (λ out, map (λ r : gmap string value, (r !! "lat", r !! "lon")) (rows out))
      <$> convert_to_centroids (Some empty_geometry_features)
    = Some [(None, None)].
Proof. split; vm_compute; reflexivity. Qed.

(** C7, amended: the Normalizer's output has one record per input feature,
    in the input order.  A feature with a non-empty geometry gets the
    non-null latitude and longitude of its centroid; a feature whose
    geometry is empty or missing is kept, with a null latitude and a null
    longitude. *)
Theorem convert_to_centroids_one_record_per_feature (gdf out : DataFrame) :
  convert_to_centroids (Some gdf) = Some out →
  len out = len gdf
  ∧ Forall2
      (λ (feature record : gmap string value),
         (∀ g, as_geom (feature !! "geometry") = Some g →
               g ≠ Geometry.Empty →
               ∃ x y, Geometry.centroid g = Geometry.Point x y
                      ∧ record !! "lat" = Some (VNum y)
                      ∧ record !! "lon" = Some (VNum x))
         ∧ (as_geom (feature !! "geometry") = None
            ∨ as_geom (feature !! "geometry") = Some Geometry.Empty →
            record !! "lat" = None ∧ record !! "lon" = None))
      (rows gdf) (rows out).
Proof.
  intros Hout. rewrite (convert_to_centroids_rows _ _ Hout).
  split; [unfold len; rewrite (convert_to_centroids_rows _ _ Hout);
          apply length_map|].
  induction (rows gdf) as [|r rs IH]; constructor; [|exact IH].
  pose proof (centroid_row_coordinates r) as Hr.
  split.
  - intros g Hg Hne. rewrite Hg in Hr. destruct Hr as [Hlat Hlon].
    destruct g as [|x y|k x y]; [done| |]; by exists x, y.
  - intros [Hg|Hg]; rewrite Hg in Hr; exact Hr.
Qed.

Lemma convert_to_centroids_witness :
  ∃ out,
    convert_to_centroids (Some empty_geometry_features) = Some out
    ∧ len out = len empty_geometry_features.
Proof.
  eexists. split; [reflexivity|].
  exact (proj1 (convert_to_centroids_one_record_per_feature
                  empty_geometry_features _ eq_refl)).
Defined.

(** ** The Record Cleaner *)

Section Cleaner.

Implicit Types (gdf out : DataFrame) (r : gmap string value) (c : string).

Lemma restrict_lookup_in cols r c :
  c ∈ cols → restrict cols r !! c = r !! c.
Proof.
  intros Hc. unfold restrict.
  destruct (r !! c) as [v|] eqn:Hr.
  - apply map_lookup_filter_Some. by split.
  - apply map_lookup_filter_None. left. exact Hr.
Qed.

Lemma any_notna_true cols r :
  any_notna cols r = true ↔ ∃ c, c ∈ cols ∧ is_Some (r !! c).
Proof.
  unfold any_notna. rewrite existsb_exists. split.
  - intros (c & Hc & Hv). exists c. split; [by apply list_elem_of_In|].
    by apply bool_decide_eq_true in Hv.
  - intros (c & Hc & Hv). exists c. split; [by apply list_elem_of_In|].
    by apply bool_decide_eq_true.
Qed.

Lemma tag_columns_kept c : c ∈ tag_columns → c ∈ KEEP_COLUMNS.
Proof.
  unfold tag_columns. intros Hc.
  repeat (apply elem_of_cons in Hc as [->|Hc];
          [solve_elem_of|]).
  by apply elem_of_nil in Hc.
Qed.

Lemma length_number_rows col i (rs : list (gmap string value)) :
  length (number_rows col i rs) = length rs.
Proof. revert i. induction rs as [|r rs IH]; intros i; simpl; [done|]. by rewrite IH. Qed.

Lemma len_reset_index gdf : len (reset_index gdf) = len gdf.
Proof.
  unfold len, reset_index. destruct (index_names gdf); cbn [rows]; [|done].
  apply length_number_rows.
Qed.

Lemma len_assign col f gdf : len (assign col f gdf) = len gdf.
Proof. unfold len, assign. cbn [rows]. apply length_map. Qed.

Lemma len_select_columns cols gdf : len (select_columns cols gdf) = len gdf.
Proof. unfold len, select_columns. cbn [rows]. apply length_map. Qed.

Lemma stamped_columns_old gdf city_name c :
  c ∈ columns gdf → c ∈ columns (stamped gdf city_name).
Proof. intros Hc. by apply reset_index_columns_old, assign_columns_old. Qed.

Lemma stamped_columns_inv gdf city_name c :
  c ∈ columns (stamped gdf city_name) →
  c ∈ columns gdf ∨ c ∈ index_names gdf
  ∨ c = "city_source" ∨ c = "index" ∨ c = "level_0".
Proof.
  intros Hc.
  assert (∀ c', c' ∈ columns (assign "city_source"
                                     (λ _, Some (VStr city_name)) gdf) →
                c' ∈ columns gdf ∨ c' = "city_source") as Hassign.
  { intros c'. unfold assign. cbn [columns].
    destruct (has_column "city_source" gdf); [by left|].
    intros [Hin|Hin]%elem_of_app; [by left|right].
    by apply list_elem_of_singleton in Hin. }
  unfold stamped, reset_index in Hc. cbn [assign index_names] in Hc.
  destruct (index_names gdf) as [|n ns]; cbn [columns] in Hc.
  - apply elem_of_cons in Hc as [->|Hc].
    + destruct (has_column "index" _); auto.
    + destruct (Hassign _ Hc); auto.
  - apply (elem_of_app (n :: ns)) in Hc as [Hc|Hc]; [auto|].
    destruct (Hassign _ Hc); auto.
Qed.

Lemma available_columns_kept gdf c :
  c ∈ KEEP_COLUMNS → c ∈ columns gdf → c ∈ available_columns gdf.
Proof.
  intros Hkeep Hc.
  assert (c ∈ List.filter (λ col, has_column col gdf) KEEP_COLUMNS) as Hin.
  { apply elem_of_filter_list. split; [done|]. by apply bool_decide_eq_true. }
  unfold available_columns.
  destruct (has_column "osmid" gdf), (has_column "element_type" gdf);
    repeat apply list_elem_of_further; exact Hin.
Qed.

Lemma clean_and_filter_unfold gdf city_name out :
  clean_and_filter (Some gdf) city_name = Some out →
  let g1 := stamped gdf city_name in
  let existing_tag_cols := List.filter (λ col, has_column col g1) tag_columns in
  let g2 :=
    match existing_tag_cols with
    | [] => g1
    | _ => select_rows (any_notna existing_tag_cols) g1
    end in
  out = select_columns (available_columns g2) g2.
Proof.
  unfold clean_and_filter. destruct (len gdf =? 0)%nat; [done|].
  intros Hout. apply (inj Some) in Hout. symmetry. exact Hout.
Qed.

Lemma clean_and_filter_columns gdf city_name out c :
  clean_and_filter (Some gdf) city_name = Some out →
  c ∈ KEEP_COLUMNS → c ∈ columns gdf → c ∈ columns out.
Proof.
  intros Hout Hkeep Hc.
  rewrite (clean_and_filter_unfold _ _ _ Hout). cbn [select_columns columns].
  apply available_columns_kept; [done|].
  pose proof (stamped_columns_old gdf city_name c Hc) as Hs.
  by destruct (List.filter _ tag_columns).
Qed.

Lemma clean_and_filter_index_names gdf city_name out :
  clean_and_filter (Some gdf) city_name = Some out → index_names out = [].
Proof.
  intros Hout.
  rewrite (clean_and_filter_unfold _ _ _ Hout). cbn [select_columns index_names].
  unfold stamped.
  destruct (List.filter _ tag_columns); cbn [select_rows index_names];
    apply reset_index_index_names.
Qed.

End Cleaner.

(** C4, as the specification states it, fails: when the input has none of
    the five category columns the filter is skipped, and the record, all of
    whose category fields are absent, is in the output. *)
Lemma clean_and_filter_keeps_untagged_record :
  (λ out, map (any_notna tag_columns) (rows out))
    <$> clean_and_filter (Some untagged_features) "Houston"
  = Some [false].
Proof. vm_compute. reflexivity. Qed.

(** C4, amended: when the input has at least one of the five category
    columns, every record of the Record Cleaner's output has a non-null
    value in one of the five category fields, so a record whose category
    fields are all null is dropped; when the input has none of the five
    columns, no record is dropped. *)
Theorem clean_and_filter_category_invariant
    (gdf out : DataFrame) (city_name : string) :
  clean_and_filter (Some gdf) city_name = Some out →
  ((∃ c, c ∈ tag_columns ∧ c ∈ columns gdf) →
   ∀ r, r ∈ rows out → any_notna tag_columns r = true)
  ∧ ((∀ c, c ∈ tag_columns → (c ∉ columns gdf) ∧ (c ∉ index_names gdf)) →
     len out = len gdf).
Proof.
  intros Hout. pose proof (clean_and_filter_unfold _ _ _ Hout) as Hunf.
  cbv zeta in Hunf. split.
  - intros (c0 & Htag0 & Hcol0) r Hr.
    assert (c0 ∈ List.filter (λ col, has_column col (stamped gdf city_name))
                             tag_columns) as Hex.
    { apply elem_of_filter_list. split; [done|].
      by apply bool_decide_eq_true, stamped_columns_old. }
    destruct (List.filter (λ col, has_column col (stamped gdf city_name))
                          tag_columns) as [|e es] eqn:Hexisting.
    { by apply elem_of_nil in Hex. }
    rewrite <- Hexisting in Hunf. subst out.
    cbn [select_columns rows select_rows] in Hr.
    apply elem_of_map_list in Hr as (r2 & <- & Hr2).
    apply elem_of_filter_list in Hr2 as [Hr2 Hmask].
    apply any_notna_true in Hmask as (c & Hc & Hv).
    apply elem_of_filter_list in Hc as [Htag Hcol].
    apply bool_decide_eq_true in Hcol.
    apply any_notna_true. exists c. split; [done|].
    rewrite restrict_lookup_in; [done|].
    apply elem_of_app. right.
    apply available_columns_kept; [by apply tag_columns_kept|exact Hcol].
  - intros Hnone.
    assert (List.filter (λ col, has_column col (stamped gdf city_name))
                        tag_columns = []) as Hexisting.
    { destruct (List.filter _ tag_columns) as [|e es] eqn:Hf; [done|].
      assert (e ∈ e :: es) as He by apply list_elem_of_here.
      rewrite <- Hf in He. apply elem_of_filter_list in He as [Htag Hcol].
      apply bool_decide_eq_true in Hcol.
      destruct (Hnone e Htag) as [Hn1 Hn2].
      apply stamped_columns_inv in Hcol.
      destruct Hcol as [Hc|[Hc|[Hc|[Hc|Hc]]]]; [done|done|..]; subst e;
        unfold tag_columns in Htag;
        repeat (apply elem_of_cons in Htag as [Htag|Htag]; [discriminate|]);
        by apply elem_of_nil in Htag. }
    rewrite Hexisting in Hunf. subst out.
    rewrite len_select_columns. unfold stamped.
    by rewrite len_reset_index, len_assign.
Qed.

Lemma clean_and_filter_witness :
  (∃ out,
     clean_and_filter (Some half_tagged_features) "Houston" = Some out
     ∧ len out = 1
     ∧ ∀ r, r ∈ rows out → any_notna tag_columns r = true)
  ∧ ∃ out,
      clean_and_filter (Some untagged_features) "Houston" = Some out
      ∧ len out = len untagged_features.
Proof.
  split.
  - eexists. split; [reflexivity|]. split; [vm_compute; reflexivity|].
    refine (proj1 (clean_and_filter_category_invariant
                     half_tagged_features _ "Houston" eq_refl) _).
    exists "power". split; solve_elem_of.
  - eexists. split; [reflexivity|].
    refine (proj2 (clean_and_filter_category_invariant
                     untagged_features _ "Houston" eq_refl) _).
    intros c Hc. unfold tag_columns in Hc.
    repeat (apply elem_of_cons in Hc as [->|Hc]; [split; solve_elem_of|]).
    by apply elem_of_nil in Hc.
Defined.

(** ** The Aggregator: concatenation and removal of duplicates *)

Section Deduplication.

Implicit Types (k : list (option value)) (r : gmap string value).
Implicit Types (seen : list (list (option value))).
Implicit Types (X Y : list (gmap string value)).

(** Equality of cells is an equivalence. *)
Lemma Qeq_bool_sym (p q : Q) : Qeq_bool p q = Qeq_bool q p.
Proof.
  destruct (Qeq_bool p q) eqn:Hpq, (Qeq_bool q p) eqn:Hqp; try reflexivity.
  - apply Qeq_bool_iff in Hpq. symmetry in Hpq.
    apply Qeq_bool_iff in Hpq. congruence.
  - apply Qeq_bool_iff in Hqp. symmetry in Hqp.
    apply Qeq_bool_iff in Hqp. congruence.
Qed.

Lemma Qeq_bool_trans' (p q s : Q) :
  Qeq_bool p q = true → Qeq_bool q s = true → Qeq_bool p s = true.
Proof. rewrite !Qeq_bool_iff. intros -> ->. reflexivity. Qed.

Lemma geometry_eqb_refl g : Geometry.eqb g g = true.
Proof.
  destruct g; simpl; rewrite ?Qeq_bool_refl, ?bool_decide_eq_true_2; done.
Qed.

Lemma geometry_eqb_sym g h : Geometry.eqb g h = Geometry.eqb h g.
Proof.
  destruct g as [|x1 y1|k1 x1 y1], h as [|x2 y2|k2 x2 y2]; simpl;
    try reflexivity.
  - by rewrite (Qeq_bool_sym x1), (Qeq_bool_sym y1).
  - rewrite (Qeq_bool_sym x1), (Qeq_bool_sym y1).
    by rewrite (bool_decide_ext (k1 = k2) (k2 = k1)).
Qed.

Lemma geometry_eqb_trans g h i :
  Geometry.eqb g h = true → Geometry.eqb h i = true →
  Geometry.eqb g i = true.
Proof.
  destruct g as [|x1 y1|k1 x1 y1], h as [|x2 y2|k2 x2 y2],
           i as [|x3 y3|k3 x3 y3]; simpl; try done;
    rewrite !andb_true_iff, ?bool_decide_eq_true.
  - intros [??] [??]. split; eapply Qeq_bool_trans'; eauto.
  - intros [[-> ?] ?] [[-> ?] ?].
    repeat split; try done; eapply Qeq_bool_trans'; eauto.
Qed.

Lemma cell_eqb_refl (c : option value) : cell_eqb c c = true.
Proof.
  destruct c as [[s|q|g]|]; simpl; [|apply Qeq_bool_refl| |done].
  - by apply bool_decide_eq_true.
  - apply geometry_eqb_refl.
Qed.

Lemma cell_eqb_sym (c d : option value) : cell_eqb c d = cell_eqb d c.
Proof.
  destruct c as [[s|p|g]|], d as [[t|q|h]|]; simpl; try reflexivity.
  - by rewrite (bool_decide_ext (s = t) (t = s)).
  - apply Qeq_bool_sym.
  - apply geometry_eqb_sym.
Qed.

Lemma cell_eqb_trans (c d e : option value) :
  cell_eqb c d = true → cell_eqb d e = true → cell_eqb c e = true.
Proof.
  destruct c as [[s|p|g]|], d as [[t|q|h]|], e as [[u|v|i]|]; simpl;
    try done.
  - rewrite !bool_decide_eq_true. congruence.
  - apply Qeq_bool_trans'.
  - apply geometry_eqb_trans.
Qed.

Lemma key_eqb_refl k : key_eqb k k = true.
Proof. induction k as [|c k IH]; simpl; [done|]. by rewrite cell_eqb_refl. Qed.

Lemma key_eqb_sym k1 k2 : key_eqb k1 k2 = key_eqb k2 k1.
Proof.
  revert k2. induction k1 as [|c k1 IH]; intros [|d k2]; simpl; try done.
  by rewrite cell_eqb_sym, IH.
Qed.

Lemma key_eqb_trans k1 k2 k3 :
  key_eqb k1 k2 = true → key_eqb k2 k3 = true → key_eqb k1 k3 = true.
Proof.
  revert k2 k3. induction k1 as [|c k1 IH]; intros [|d k2] [|e k3]; simpl;
    try done.
  rewrite !andb_true_iff. intros [??] [??]. split.
  - by eapply cell_eqb_trans.
  - by eapply IH.
Qed.

(** Two keys that are equal are seen together. *)
Lemma seen_key_proper seen k1 k2 :
  key_eqb k1 k2 = true → seen_key seen k1 = seen_key seen k2.
Proof.
  intros Heq. unfold seen_key. induction seen as [|k seen IH]; simpl; [done|].
  rewrite IH. f_equal.
  destruct (key_eqb k1 k) eqn:H1, (key_eqb k2 k) eqn:H2; try done.
  - rewrite key_eqb_sym in Heq.
    by rewrite (key_eqb_trans _ _ _ Heq H1) in H2.
  - by rewrite (key_eqb_trans _ _ _ Heq H2) in H1.
Qed.

Lemma drop_duplicates_from_app subset seen X Y :
  ∃ seen',
    (∀ k, seen_key seen' k = seen_in subset seen X k)
    ∧ drop_duplicates_from subset seen (X ++ Y)
      = (drop_duplicates_from subset seen X
           ++ drop_duplicates_from subset seen' Y)%list.
Proof.
  revert seen. induction X as [|r X IH]; intros seen.
  - exists seen. split; [|done]. intros k. unfold seen_in. simpl.
    by rewrite orb_false_r.
  - simpl. destruct (seen_key seen (row_key subset r)) eqn:Hseen.
    + destruct (IH seen) as (seen' & Hs & Happ). exists seen'. split; [|done].
      intros k. rewrite Hs. unfold seen_in. simpl.
      destruct (key_eqb k (row_key subset r)) eqn:Hk; [|done].
      rewrite (seen_key_proper _ _ _ Hk), Hseen. done.
    + destruct (IH (row_key subset r :: seen)) as (seen' & Hs & Happ).
      exists seen'. split; [|by rewrite Happ].
      intros k. rewrite Hs. unfold seen_in, seen_key. simpl.
      by destruct (key_eqb k (row_key subset r)), (existsb (key_eqb k) seen).
Qed.

Lemma drop_duplicates_from_all_seen subset seen Y :
  (∀ r, r ∈ Y → seen_key seen (row_key subset r) = true) →
  drop_duplicates_from subset seen Y = [].
Proof.
  induction Y as [|r Y IH]; intros Hall; simpl; [done|].
  rewrite (Hall r) by apply list_elem_of_here.
  apply IH. intros r' Hr'. by apply Hall, list_elem_of_further.
Qed.

Lemma drop_duplicates_from_doubled subset X :
  drop_duplicates_from subset [] (X ++ X) = drop_duplicates_from subset [] X.
Proof.
  destruct (drop_duplicates_from_app subset [] X X) as (seen' & Hs & ->).
  rewrite (drop_duplicates_from_all_seen subset seen' X).
  - apply app_nil_r.
  - intros r Hr. rewrite Hs. unfold seen_in. simpl.
    apply existsb_exists. exists r. split; [by apply list_elem_of_In|].
    apply key_eqb_refl.
Qed.

Lemma drop_duplicates_from_snoc subset X r :
  drop_duplicates_from subset [] (X ++ [r])
  = (drop_duplicates_from subset [] X
       ++ if existsb (λ r', key_eqb (row_key subset r) (row_key subset r')) X
          then [] else [r])%list.
Proof.
  destruct (drop_duplicates_from_app subset [] X [r]) as (seen' & Hs & ->).
  f_equal. simpl. rewrite Hs. unfold seen_in. simpl.
  by destruct (existsb _ X).
Qed.

(** Columns and rows of a concatenation. *)
Lemma union_columns_absorb (cs ds : list string) :
  (∀ d, d ∈ ds → d ∈ cs) → union_columns cs ds = cs.
Proof.
  intros Hsub. unfold union_columns.
  replace (List.filter (λ d, negb (bool_decide (d ∈ cs))) ds) with (@nil string);
    [apply app_nil_r|].
  induction ds as [|d ds IH]; simpl; [done|].
  rewrite bool_decide_eq_true_2 by apply Hsub, list_elem_of_here.
  simpl. apply IH. intros d' Hd'. by apply Hsub, list_elem_of_further.
Qed.

Lemma union_columns_left (cs ds : list string) c :
  c ∈ cs → c ∈ union_columns cs ds.
Proof. intros Hc. unfold union_columns. apply elem_of_app. by left. Qed.

Lemma union_columns_right (cs ds : list string) c :
  c ∈ ds → c ∈ union_columns cs ds.
Proof.
  intros Hc. unfold union_columns. apply elem_of_app.
  destruct (decide (c ∈ cs)) as [Hin|Hout]; [by left|right].
  apply elem_of_filter_list. split; [done|].
  by rewrite bool_decide_eq_false_2.
Qed.

Lemma foldl_union_columns_acc (cs : list string) (dss : list (list string)) c :
  c ∈ cs → c ∈ foldl union_columns cs dss.
Proof.
  revert cs. induction dss as [|ds dss IH]; intros cs Hc; simpl; [done|].
  by apply IH, union_columns_left.
Qed.

Lemma foldl_union_columns_elem (cs : list string) (dss : list (list string))
    ds c :
  ds ∈ dss → c ∈ ds → c ∈ foldl union_columns cs dss.
Proof.
  revert cs. induction dss as [|ds' dss IH]; intros cs Hds Hc; simpl.
  - by apply elem_of_nil in Hds.
  - apply elem_of_cons in Hds as [->|Hds].
    + by apply foldl_union_columns_acc, union_columns_right.
    + by apply IH.
Qed.

Lemma foldl_union_columns_absorb (cs : list string) (dss : list (list string)) :
  (∀ ds d, ds ∈ dss → d ∈ ds → d ∈ cs) →
  foldl union_columns cs dss = cs.
Proof.
  induction dss as [|ds dss IH]; intros Hsub; simpl; [done|].
  rewrite union_columns_absorb.
  - apply IH. intros ds' d Hds'. apply Hsub. by apply list_elem_of_further.
  - intros d. apply Hsub. apply list_elem_of_here.
Qed.

Lemma concat_columns_elem (frames : list DataFrame) df c :
  df ∈ frames → c ∈ columns df → c ∈ columns (concat frames).
Proof.
  intros Hdf Hc. unfold concat. cbn [columns].
  apply (foldl_union_columns_elem _ _ (columns df)); [|done].
  apply elem_of_map_list. by exists df.
Qed.

Lemma concat_doubled (frames : list DataFrame) :
  columns (concat (frames ++ frames)) = columns (concat frames)
  ∧ rows (concat (frames ++ frames))
    = (rows (concat frames) ++ rows (concat frames))%list.
Proof.
  unfold concat. cbn [columns rows]. split.
  - rewrite map_app, foldl_app.
    apply foldl_union_columns_absorb.
    intros ds d Hds Hd. by apply (foldl_union_columns_elem _ _ ds).
  - apply flat_map_app.
Qed.

Lemma same_coordinates_key r r' :
  same_coordinates r r'
  = key_eqb (row_key ["lat"; "lon"] r) (row_key ["lat"; "lon"] r').
Proof. unfold same_coordinates. simpl. by rewrite andb_true_r. Qed.

(** The keys seen so far stand for the records met so far: then the
    removal of duplicates is the removal of every record whose coordinates
    are those of an earlier record. *)
Lemma drop_duplicates_from_keep_first seen (earlier : list (gmap string value)) X :
  (∀ r, seen_key seen (row_key ["lat"; "lon"] r)
        = existsb (same_coordinates r) earlier) →
  drop_duplicates_from ["lat"; "lon"] seen X = keep_first_from earlier X.
Proof.
  revert seen earlier. induction X as [|x X IH]; intros seen earlier Hseen;
    [done|].
  cbn [drop_duplicates_from keep_first_from]. cbv zeta.
  rewrite <- (Hseen x).
  destruct (seen_key seen (row_key ["lat"; "lon"] x)) eqn:Hx; cbn [app].
  - apply IH. intros r. rewrite existsb_app, <- Hseen. cbn [existsb].
    rewrite orb_false_r, same_coordinates_key.
    destruct (key_eqb (row_key ["lat"; "lon"] r) (row_key ["lat"; "lon"] x))
      eqn:Hk; [|by rewrite orb_false_r].
    rewrite (seen_key_proper _ _ _ Hk), Hx. done.
  - f_equal. apply IH. intros r. rewrite existsb_app, <- Hseen.
    unfold seen_key. cbn [existsb].
    rewrite orb_false_r, same_coordinates_key. apply orb_comm.
Qed.

Lemma concat_app_rows (A B : list DataFrame) :
  rows (concat (A ++ B)) = (rows (concat A) ++ rows (concat B))%list.
Proof. unfold concat. cbn [rows]. apply flat_map_app. Qed.

End Deduplication.

(** ** The Output Writer *)

Section Writer.

Context (w : World).
Implicit Types (df : DataFrame) (st : State).

(** [save_output] case by case: it never raises, and it calls [to_file]
    only after the CSV file has been found on disk. *)
Lemma save_output_cases df csv_path geojson_path st :
  save_output w df csv_path geojson_path st
  = let st1 := after_to_csv w df csv_path st in
    if is_ok (to_csv w (files st) df csv_path).1
       && bool_decide (is_Some (files st1 !! csv_path))
    then
      match geojson_target df geojson_path with
      | Some path =>
          (Ok (is_ok (to_file w (files st1) (GeoDataFrame_from_xy df) path).1),
           after_to_file w df csv_path path st)
      | None => (Ok true, st1)
      end
    else (Ok false, st1).
Proof.
  unfold save_output, try_except, df_to_csv, os_path_exists, gdf_to_file,
    after_to_file, after_to_csv, mbind, M_bind, mret, M_ret.
  destruct (to_csv w (files st) df csv_path) as [[[]|e] fs1]; cbn;
    [|reflexivity].
  destruct (bool_decide (is_Some (fs1 !! csv_path))); cbn; [|reflexivity].
  destruct (geojson_target df geojson_path) as [path|]; cbn; [|reflexivity].
  destruct (to_file w fs1 (GeoDataFrame_from_xy df) path) as [[[]|e] fs2];
    reflexivity.
Qed.

Lemma save_output_returns df csv_path geojson_path st :
  ∃ file_saved, (save_output w df csv_path geojson_path st).1 = Ok file_saved.
Proof.
  rewrite save_output_cases. cbv zeta.
  destruct (_ && _); [|by eexists].
  destruct (geojson_target df geojson_path); by eexists.
Qed.

End Writer.

(** C6, as the specification states it, fails: with a GeoJSON driver that
    raises, the CSV file is written and found on disk and yet the Output
    Writer returns failure, while the same call with a working GeoJSON
    writer returns success. *)
Lemma save_output_geojson_failure_changes_result :
  (save_output (failing_geojson no_data_client) (dataset_at 2 29.76 (-95.37))
               "/data/out.csv" (Some "/data/out.geojson") initial_state).1
  = Ok false
  ∧ files (save_output (failing_geojson no_data_client)
                       (dataset_at 2 29.76 (-95.37))
                       "/data/out.csv" (Some "/data/out.geojson")
                       initial_state).2 !! "/data/out.csv"
    = Some (CsvFile (dataset_at 2 29.76 (-95.37)))
  ∧ (save_output (working_writers no_data_client) (dataset_at 2 29.76 (-95.37))
                 "/data/out.csv" (Some "/data/out.geojson") initial_state).1
    = Ok true.
Proof. repeat split; vm_compute; reflexivity. Qed.

(** C6, amended: the Output Writer never raises, and it returns success
    exactly when the CSV write completes without an exception, the CSV file
    is then found on the file system, and the GeoJSON write, which is
    attempted when a GeoJSON path is given and the data set has [lat] and
    [lon] columns, completes without an exception.  So success still
    implies that the CSV file was confirmed to exist. *)
Theorem save_output_success_iff
    (w : World) (df : DataFrame) (csv_path : string)
    (geojson_path : option string) (st : State) :
  (∃ file_saved,
     (save_output w df csv_path geojson_path st).1 = Ok file_saved)
  ∧ ((save_output w df csv_path geojson_path st).1 = Ok true
     ↔ (to_csv w (files st) df csv_path).1 = Ok ()
       ∧ is_Some ((to_csv w (files st) df csv_path).2 !! csv_path)
       ∧ ∀ path, geojson_target df geojson_path = Some path →
                 (to_file w (to_csv w (files st) df csv_path).2
                          (GeoDataFrame_from_xy df) path).1 = Ok ()).
Proof.
  split; [apply save_output_returns|].
  rewrite save_output_cases. cbv zeta. unfold after_to_csv. cbn [files].
  destruct (to_csv w (files st) df csv_path) as [[[]|e] fs1]; cbn [fst snd is_ok andb].
  - case_bool_decide as Hfound.
    + destruct (geojson_target df geojson_path) as [path|]; cbn [fst].
      * destruct (to_file w fs1 (GeoDataFrame_from_xy df) path)
          as [[[]|e] fs2] eqn:Hfile; cbn [fst is_ok].
        -- split; [|done]. intros _. repeat split; [done|].
           intros path' [= <-]. by rewrite Hfile.
        -- split; [done|]. intros (_ & _ & Hraises).
           specialize (Hraises path eq_refl). by rewrite Hfile in Hraises.
      * split; [|done]. intros _. repeat split; done.
    + cbn [fst]. split; [done|]. by intros (_ & ? & _).
  - split; [done|]. by intros [? _].
Qed.

Lemma save_output_success_witness :
  (save_output (working_writers no_data_client) (dataset_at 2 29.76 (-95.37))
               "/data/out.csv" (Some "/data/out.geojson") initial_state).1
  = Ok true.
Proof.
  apply (proj2 (save_output_success_iff
                  (working_writers no_data_client) (dataset_at 2 29.76 (-95.37))
                  "/data/out.csv" (Some "/data/out.geojson") initial_state)).
  split; [reflexivity|]. split.
  - exists (CsvFile (dataset_at 2 29.76 (-95.37))). vm_compute. reflexivity.
  - intros path _. reflexivity.
Defined.

(** ** The loop over the regions *)

Section Regions.

Context (w : World) (tags : list (string * list string)).
Implicit Types (st : State) (s : Settings) (history : list Call).
Implicit Types (locations : list string) (all_data : list DataFrame).

(** The Region Fetcher never raises: an exception of the client and an
    empty answer both become [None]. *)
Lemma fetch_infrastructure_data_cases (location : string)
    (use_historical : bool) st :
  fetch_infrastructure_data w location tags use_historical st
  = (Ok match features_from_place w (calls st) (settings st) location tags with
        | Ok (Some gdf) => if (len gdf =? 0)%nat then None else Some gdf
        | _ => None
        end,
     logged st location).
Proof.
  unfold fetch_infrastructure_data, try_except, ox_features_from_place,
    mbind, M_bind, mret, M_ret, logged.
  destruct (features_from_place w (calls st) (settings st) location tags)
    as [[gdf|]|e]; cbn; try reflexivity.
  destruct (len gdf =? 0)%nat; reflexivity.
Qed.

Lemma fetch_all_step (location : string) locations all_data
    (use_historical : bool) st :
  fetch_all w tags use_historical (location :: locations) all_data st
  = fetch_all w tags use_historical locations
      (all_data
         ++ option_list
              (region_result
                 (features_from_place w (calls st) (settings st) location tags)
                 location))
      (logged st location).
Proof.
  cbn [fetch_all]. unfold mbind at 1, M_bind at 1.
  rewrite fetch_infrastructure_data_cases. unfold region_result.
  destruct (features_from_place w (calls st) (settings st) location tags)
    as [[gdf|]|e]; cbn [option_list]; rewrite ?app_nil_r; try reflexivity.
  destruct (len gdf =? 0)%nat eqn:Hlen; cbn [option_list];
    rewrite ?app_nil_r; [reflexivity|].
  destruct (clean_and_filter (convert_to_centroids (Some gdf))
                             (before_comma location)) as [g|];
    cbn [option_list]; rewrite ?app_nil_r; [|reflexivity].
  destruct (0 <? len g)%nat; cbn [option_list]; rewrite ?app_nil_r;
    reflexivity.
Qed.

Lemma fetch_all_spec (use_historical : bool) locations all_data st :
  fetch_all w tags use_historical locations all_data st
  = (Ok (all_data ++ pass_data w tags (settings st) (calls st) locations)%list,
     mkState (settings st)
             (calls st ++ pass_calls (settings st) locations)
             (files st)).
Proof.
  revert all_data st.
  induction locations as [|location locations IH]; intros all_data st.
  - cbn. rewrite !app_nil_r. by destruct st.
  - rewrite fetch_all_step, IH. cbn [logged settings calls files pass_data
                                     pass_calls map].
    by rewrite <- !app_assoc.
Qed.

(** Every frame a pass collects has records and the coordinate
    columns, and its index is the positional one. *)
Lemma region_result_frame answer (location : string) (d : DataFrame) :
  region_result answer location = Some d →
  0 < len d ∧ "lat" ∈ columns d ∧ "lon" ∈ columns d.
Proof.
  unfold region_result. destruct answer as [[gdf|]|e]; try done.
  destruct (len gdf =? 0)%nat eqn:Hlen; [done|].
  destruct (convert_to_centroids (Some gdf)) as [g1|] eqn:Hconv; [|done].
  destruct (clean_and_filter (Some g1) (before_comma location)) as [g|]
    eqn:Hclean; [|done].
  destruct (0 <? len g)%nat eqn:Hpos; [|done]. intros [= <-].
  destruct (convert_to_centroids_columns _ _ Hconv) as [Hlat Hlon].
  split; [by apply Nat.ltb_lt|].
  split; (eapply clean_and_filter_columns; [exact Hclean| |done]);
    solve_elem_of.
Qed.

Lemma pass_data_frames s history locations (d : DataFrame) :
  d ∈ pass_data w tags s history locations →
  0 < len d ∧ "lat" ∈ columns d ∧ "lon" ∈ columns d.
Proof.
  revert history. induction locations as [|l locations IH]; intros history Hd.
  - by apply elem_of_nil in Hd.
  - cbn [pass_data] in Hd. apply elem_of_app in Hd as [Hd|Hd]; [|by eapply IH].
    destruct (region_result _ l) as [d'|] eqn:Hres; cbn in Hd.
    + apply list_elem_of_singleton in Hd as ->. by eapply region_result_frame.
    + by apply elem_of_nil in Hd.
Qed.

End Regions.

(** ** The Fallback Controller and the run as a whole *)

Section Controller.

Context (w : World) (st : State).

Lemma bind_ok {A B} (m : M A) (f : A → M B) (st0 st1 : State) (a : A) :
  m st0 = (Ok a, st1) → (m ≫= f) st0 = f a st1.
Proof. intros Hm. unfold mbind, M_bind. by rewrite Hm. Qed.

Lemma selected_data_frames (d : DataFrame) :
  d ∈ selected_data w st → 0 < len d ∧ "lat" ∈ columns d ∧ "lon" ∈ columns d.
Proof.
  unfold selected_data. destruct (fallback w st); apply pass_data_frames.
Qed.

(** One run of [main], from any state and in any world: it returns, and
    it does not raise. *)
Lemma main_spec :
  main w st
  = match selected_data w st with
    | [] => (Ok (mkOutcome false (negb (fallback w st)) None None),
             state_before_save w st)
    | _ => (Ok (mkOutcome
                  ((verify_data w (Some (dataset w st))).1 && file_saved w st)
                  (negb (fallback w st)) (Some (dataset w st))
                  (Some (completed_report w st))),
            (saving w st).2)
    end.
Proof.
  unfold main.
  erewrite bind_ok by reflexivity.
  erewrite bind_ok by apply fetch_all_spec.
  cbn [settings calls files app].
  fold (historical_data w st). fold (fallback w st).
  assert (∀ (uh : bool) all_data st0,
            uh = negb (fallback w st) → all_data = selected_data w st →
            st0 = state_before_save w st →
            (λ pat : bool * list DataFrame,
               match pat with
               | (use_historical, []) =>
                   mret (mkOutcome false use_historical None None)
               | (use_historical, (_ :: _) as all_data) =>
                   if negb (has_column "lat" (concat all_data)
                            && has_column "lon" (concat all_data))
                   then raise "KeyError"
                   else
                     let '(success, report) :=
                       verify_data w
                         (Some (drop_duplicates ["lat"; "lon"]
                                                (concat all_data))) in
                     save_output w
                       (drop_duplicates ["lat"; "lon"] (concat all_data))
                       (os_path_join (getcwd w) OUTPUT_FILE)
                       (Some (os_path_join (getcwd w) OUTPUT_GEOJSON))
                     ≫= λ saved : bool,
                          mret
                            (mkOutcome (success && saved) use_historical
                               (Some (drop_duplicates ["lat"; "lon"]
                                                      (concat all_data)))
                               (Some (if saved
                                      then set_check_file saved report
                                      else append_error "File creation failed"
                                             (set_check_file saved
                                                             report))))
               end) (uh, all_data) st0
            = match selected_data w st with
              | [] => (Ok (mkOutcome false (negb (fallback w st)) None None),
                       state_before_save w st)
              | _ => (Ok (mkOutcome
                            ((verify_data w (Some (dataset w st))).1 && file_saved w st)
                            (negb (fallback w st)) (Some (dataset w st))
                            (Some (completed_report w st))),
                      (saving w st).2)
              end) as Htail.
  { intros uh all_data st0 -> -> ->. cbv beta iota.
    pose proof selected_data_frames as Hframes.
    unfold completed_report, file_saved, saving, dataset, output_csv,
      output_geojson.
    destruct (selected_data w st) as [|d ds]; [reflexivity|].
    destruct (Hframes d) as (_ & Hlat & Hlon); [apply list_elem_of_here|].
    assert (has_column "lat" (concat (d :: ds)) = true) as ->.
    { apply bool_decide_eq_true.
      by eapply concat_columns_elem; [apply list_elem_of_here|]. }
    assert (has_column "lon" (concat (d :: ds)) = true) as ->.
    { apply bool_decide_eq_true.
      by eapply concat_columns_elem; [apply list_elem_of_here|]. }
    cbn [andb negb].
    destruct (verify_data w
                (Some (drop_duplicates ["lat"; "lon"] (concat (d :: ds)))))
      as [success report].
    destruct (save_output_returns w
                (drop_duplicates ["lat"; "lon"] (concat (d :: ds)))
                (os_path_join (getcwd w) OUTPUT_FILE)
                (Some (os_path_join (getcwd w) OUTPUT_GEOJSON))
                (state_before_save w st)) as [b Hb].
    destruct (save_output w _ _ _ (state_before_save w st)) as [r st1] eqn:Hsave.
    cbn [fst snd] in *. subst r.
    erewrite bind_ok by exact Hsave. reflexivity. }
  unfold selected_data, state_before_save in Htail |- *.
  destruct (fallback w st) eqn:Hfb.
  - erewrite bind_ok; cycle 1.
    { erewrite bind_ok by reflexivity.
      erewrite bind_ok by apply fetch_all_spec. reflexivity. }
    apply Htail; reflexivity.
  - erewrite bind_ok by reflexivity.
    apply Htail; reflexivity.
Qed.

End Controller.

(** ** What the report records *)

Section Reports.

Context (w : World).
Implicit Types (df : DataFrame) (report : Report).

Lemma verify_data_success df :
  (verify_data w (Some df)).1
  = check_volume (verify_data w (Some df)).2
    && check_coordinates (verify_data w (Some df)).2
    && check_location_sanity (verify_data w (Some df)).2.
Proof.
  unfold verify_data. destruct (len df =? 0)%nat; reflexivity.
Qed.

(** With records and with both coordinate columns, the report lists one
    diagnostic for each of the three checks that fails, in the order of
    the checks. *)
Lemma verify_data_error_list df :
  0 < len df →
  has_column "lat" df = true → has_column "lon" df = true →
  errors (verify_data w (Some df)).2
  = ((if check_volume (verify_data w (Some df)).2 then []
      else [volume_diagnostic df])
       ++ (if check_coordinates (verify_data w (Some df)).2 then []
           else ["No valid coordinates found"])
       ++ (if check_location_sanity (verify_data w (Some df)).2 then []
           else [location_diagnostic w df]))%list.
Proof.
  intros Hlen Hlat Hlon. unfold verify_data.
  destruct (len df =? 0)%nat eqn:Hzero.
  { apply Nat.eqb_eq in Hzero. lia. }
  rewrite Hlat, Hlon. cbn [andb].
  destruct (100 <? len df)%nat;
    destruct ((0 <? count_notna "lat" df)%nat && (0 <? count_notna "lon" df)%nat);
    destruct (within HOUSTON_DALLAS_LAT_BOUNDS (mean w "lat" df)
              && within HOUSTON_DALLAS_LON_BOUNDS (mean w "lon" df));
    reflexivity.
Qed.

(** With records and with both coordinate columns, each of the three
    checks of [verify_data] that fails leaves one diagnostic. *)
Lemma verify_data_errors df :
  0 < len df →
  has_column "lat" df = true → has_column "lon" df = true →
  length (errors (verify_data w (Some df)).2)
  = length (List.filter negb
              [check_volume (verify_data w (Some df)).2;
               check_coordinates (verify_data w (Some df)).2;
               check_location_sanity (verify_data w (Some df)).2]).
Proof.
  intros Hlen Hlat Hlon. unfold verify_data.
  destruct (len df =? 0)%nat eqn:Hzero.
  { apply Nat.eqb_eq in Hzero. lia. }
  rewrite Hlat, Hlon. cbn [andb].
  repeat (match goal with |- context [if ?b then _ else _] => destruct b end);
    reflexivity.
Qed.

Lemma drop_duplicates_from_first subset (r : gmap string value)
    (X : list (gmap string value)) :
  ∃ rest, drop_duplicates_from subset [] (r :: X) = r :: rest.
Proof. by eexists. Qed.

End Reports.

(** ** Facts about a whole run *)

Section Run.

Context (w : World) (st : State).

Lemma save_output_writes (df : DataFrame) (csv_path : string)
    (geojson_path : option string) (st0 : State) :
  ∃ writes,
    calls (save_output w df csv_path geojson_path st0).2
    = (calls st0 ++ writes)%list
    ∧ Forall (λ c, is_client_call c = false) writes
    ∧ ToCsv csv_path df ∈ writes.
Proof.
  rewrite save_output_cases. cbv zeta.
  destruct (_ && _).
  - destruct (geojson_target df geojson_path) as [path|].
    + exists [ToCsv csv_path df; ToFile path (GeoDataFrame_from_xy df)].
      unfold after_to_file, after_to_csv. cbn [snd calls].
      rewrite <- app_assoc. split; [done|]. split.
      * by repeat constructor.
      * apply list_elem_of_here.
    + exists [ToCsv csv_path df]. split; [done|]. split.
      * by repeat constructor.
      * apply list_elem_of_here.
  - exists [ToCsv csv_path df]. split; [done|]. split.
    + by repeat constructor.
    + apply list_elem_of_here.
Qed.

Lemma calls_state_before_save :
  calls (state_before_save w st)
  = (calls st ++ pass_calls historical_settings LOCATIONS
       ++ if fallback w st then pass_calls current_settings LOCATIONS
          else [])%list.
Proof.
  unfold state_before_save, calls_after_historical.
  destruct (fallback w st); cbn [calls].
  - by rewrite <- app_assoc.
  - by rewrite app_nil_r.
Qed.

Lemma files_state_before_save : files (state_before_save w st) = files st.
Proof. unfold state_before_save. by destruct (fallback w st). Qed.

Lemma dataset_columns (d : DataFrame) :
  d ∈ selected_data w st →
  has_column "lat" (dataset w st) = true
  ∧ has_column "lon" (dataset w st) = true.
Proof.
  intros Hd. destruct (selected_data_frames w st d Hd) as (_ & Hlat & Hlon).
  unfold dataset, drop_duplicates, has_column. cbn [columns].
  split; apply bool_decide_eq_true; by eapply concat_columns_elem.
Qed.

Lemma dataset_not_empty (d : DataFrame) (ds : list DataFrame) :
  selected_data w st = d :: ds → 0 < len (dataset w st).
Proof.
  intros Hsel.
  destruct (selected_data_frames w st d) as (Hlen & _).
  { rewrite Hsel. apply list_elem_of_here. }
  unfold dataset, drop_duplicates, len, concat in *. rewrite Hsel.
  cbn [rows flat_map].
  destruct (rows d) as [|r rs]; [simpl in Hlen; lia|].
  cbn [map app]. destruct (drop_duplicates_from_first ["lat"; "lon"]
                             (restrict (columns d) r)
                             (map (restrict (columns d)) rs
                                ++ flat_map
                                     (λ df, map (restrict (columns df))
                                                (rows df)) ds))
    as [rest ->].
  simpl. lia.
Qed.

End Run.

(** C1: the CURRENT pass runs exactly when the records of the HISTORICAL
    pass, summed over the regions, are fewer than 50.  When it runs, it
    starts from an empty collection and the data set is made of its
    results alone; when it does not run, the data set is made of the
    HISTORICAL results. *)
Theorem fallback_iff_historical_yield_below_50
    (w : World) (st : State) (hist : list DataFrame) (st_h : State) :
  fetch_all w build_tags_dict true LOCATIONS []
            (mkState historical_settings (calls st) (files st))
  = (Ok hist, st_h) →
  ∃ out st',
    main w st = (Ok out, st')
    ∧ (used_historical out = false ↔ (total_yield hist < 50)%nat)
    ∧ ((total_yield hist < 50)%nat →
       ∃ cur st_c writes,
         fetch_all w build_tags_dict false LOCATIONS []
                   (mkState current_settings (calls st_h) (files st_h))
         = (Ok cur, st_c)
         ∧ final_df out
           = match cur with
             | [] => None
             | _ => Some (drop_duplicates ["lat"; "lon"] (concat cur))
             end
         ∧ calls st_c
           = (calls st_h ++ pass_calls current_settings LOCATIONS)%list
         ∧ calls st' = (calls st_c ++ writes)%list
         ∧ Forall (λ c, is_client_call c = false) writes)
    ∧ ((50 ≤ total_yield hist)%nat →
       ∃ writes,
         final_df out = Some (drop_duplicates ["lat"; "lon"] (concat hist))
         ∧ calls st' = (calls st_h ++ writes)%list
         ∧ Forall (λ c, is_client_call c = false) writes).
Proof.
  rewrite fetch_all_spec. cbn [settings calls files]. rewrite app_nil_l.
  intros Hfetch.
  assert (hist = historical_data w st) as -> by (unfold historical_data; congruence).
  assert (st_h = mkState historical_settings
                         (calls st ++ pass_calls historical_settings LOCATIONS)
                         (files st)) as -> by congruence.
  clear Hfetch. cbn [calls files].
  pose proof (main_spec w st) as Hmain.
  pose proof (calls_state_before_save w st) as Hcalls.
  destruct (save_output_writes w (dataset w st) (output_csv w)
              (Some (output_geojson w)) (state_before_save w st))
    as (writes & Hwrites & Honly & _).
  fold (saving w st) in Hwrites.
  unfold dataset, selected_data, current_data, calls_after_historical,
    fallback, historical_data in *.
  destruct (total_yield (pass_data w build_tags_dict historical_settings
                                   (calls st) LOCATIONS) <? 50)%nat eqn:Hfb.
  - apply Nat.ltb_lt in Hfb.
    destruct (pass_data w build_tags_dict current_settings
                (calls st ++ pass_calls historical_settings LOCATIONS) LOCATIONS)
      as [|d ds] eqn:Hcur.
    + eexists _, _. split; [exact Hmain|]. cbn [used_historical negb final_df].
      split; [done|]. split; [|lia]. intros _.
      eexists _, _, []. rewrite fetch_all_spec. cbn [settings calls files].
      rewrite app_nil_l, Hcur. split; [reflexivity|].
      split; [reflexivity|]. split; [reflexivity|].
      cbn [calls]. rewrite Hcalls, app_nil_r, <- ?app_assoc.
      split; [reflexivity|constructor].
    + eexists _, _. split; [exact Hmain|]. cbn [used_historical negb final_df].
      split; [done|]. split; [|lia]. intros _.
      eexists _, _, writes. rewrite fetch_all_spec. cbn [settings calls files].
      rewrite app_nil_l, Hcur. split; [reflexivity|].
      split; [reflexivity|]. split; [reflexivity|].
      cbn [calls]. rewrite Hwrites, Hcalls, <- ?app_assoc.
      split; [reflexivity|exact Honly].
  - apply Nat.ltb_ge in Hfb.
    destruct (pass_data w build_tags_dict historical_settings (calls st)
                        LOCATIONS) as [|d ds] eqn:Hhist.
    { simpl in Hfb. lia. }
    eexists _, _. split; [exact Hmain|]. cbn [used_historical negb final_df].
    split; [split; [done|lia]|]. split; [lia|]. intros _.
    exists writes. split; [reflexivity|].
    cbn [calls]. rewrite Hwrites, Hcalls, app_nil_r, <- ?app_assoc.
    split; [reflexivity|exact Honly].
Qed.

Lemma Ok_pair_inj {A} (a b : A) (s t : State) :
  (Ok a, s) = (Ok b, t) → a = b ∧ s = t.
Proof. intros Heq. split; congruence. Qed.

Lemma fallback_witness :
  ∃ out st',
    main (working_writers (yields_by_mode (30, 25) (60, 60))) initial_state
    = (Ok out, st')
    ∧ (len <$> final_df out) = Some 55
    ∧ ∃ out2 st2,
        main (working_writers (yields_by_mode (10, 30) (60, 60))) initial_state
        = (Ok out2, st2)
        ∧ (len <$> final_df out2) = Some 120.
Proof.
  destruct (fallback_iff_historical_yield_below_50
              (working_writers (yields_by_mode (30, 25) (60, 60)))
              initial_state _ _ (fetch_all_spec _ _ _ _ _ _))
    as (out & st' & Hmain & _ & _ & Hhigh).
  destruct Hhigh as (writes & Hfinal & _).
  { apply Nat.leb_le. vm_compute. reflexivity. }
  exists out, st'. split; [exact Hmain|]. split.
  { rewrite Hfinal. vm_compute. reflexivity. }
  destruct (fallback_iff_historical_yield_below_50
              (working_writers (yields_by_mode (10, 30) (60, 60)))
              initial_state _ _ (fetch_all_spec _ _ _ _ _ _))
    as (out2 & st2 & Hmain2 & _ & Hlow & _).
  destruct Hlow as (cur & st_c & writes2 & Hcur & Hfinal2 & _).
  { apply Nat.ltb_lt. vm_compute. reflexivity. }
  exists out2, st2. split; [exact Hmain2|].
  rewrite Hfinal2. rewrite fetch_all_spec in Hcur.
  apply Ok_pair_inj in Hcur as [<- _]. vm_compute. reflexivity.
Defined.

(** ** The outcome of a run that has a data set *)

Section Outcomes.

Context (w : World) (st : State).

Lemma saving_returns : saving w st = (Ok (file_saved w st), (saving w st).2).
Proof.
  unfold file_saved.
  destruct (save_output_returns w (dataset w st) (output_csv w)
              (Some (output_geojson w)) (state_before_save w st)) as [b Hb].
  fold (saving w st) in Hb. destruct (saving w st) as [r st1].
  cbn [fst snd] in *. by subst r.
Qed.

Lemma completed_report_checks :
  check_volume (completed_report w st)
  = check_volume (verify_data w (Some (dataset w st))).2
  ∧ check_coordinates (completed_report w st)
    = check_coordinates (verify_data w (Some (dataset w st))).2
  ∧ check_location_sanity (completed_report w st)
    = check_location_sanity (verify_data w (Some (dataset w st))).2
  ∧ check_file (completed_report w st) = file_saved w st
  ∧ errors (completed_report w st)
    = (errors (verify_data w (Some (dataset w st))).2
         ++ if file_saved w st then [] else ["File creation failed"])%list.
Proof.
  unfold completed_report, set_check_file, append_error. cbv zeta.
  destruct (file_saved w st);
    cbn [check_volume check_coordinates check_location_sanity check_file
         errors];
    rewrite ?app_nil_r; repeat split; reflexivity.
Qed.

(** A run ends in one of two ways: without data, or with the data set and
    the completed report. *)
Lemma main_outcome (out : Outcome) (st' : State) (ds : DataFrame) :
  main w st = (Ok out, st') → final_df out = Some ds →
  ∃ d rest,
    selected_data w st = d :: rest
    ∧ ds = dataset w st
    ∧ out = mkOutcome ((verify_data w (Some (dataset w st))).1 && file_saved w st)
                      (negb (fallback w st)) (Some (dataset w st))
                      (Some (completed_report w st))
    ∧ st' = (saving w st).2.
Proof.
  rewrite main_spec. intros Hmain Hds.
  destruct (selected_data w st) as [|d rest].
  - apply Ok_pair_inj in Hmain as [<- _]. discriminate Hds.
  - apply Ok_pair_inj in Hmain as [<- <-]. cbn [final_df] in Hds.
    exists d, rest. repeat split; congruence.
Qed.

End Outcomes.

(** C5: for the data set of any run, the overall success is the
    conjunction of the four checks, the report holds one diagnostic for each
    check that failed, and each check is recorded by its own condition
    alone, the file check being the result of the Output Writer, which is
    called whatever the three others found. *)
Theorem overall_success_is_and_of_four_checks
    (w : World) (st : State) (out : Outcome) (st' : State)
    (ds : DataFrame) (report : Report) :
  main w st = (Ok out, st') →
  final_df out = Some ds →
  final_report out = Some report →
  overall_success out
  = check_volume report && check_coordinates report
    && check_location_sanity report && check_file report
  ∧ length (errors report) = failed_checks report
  ∧ errors report
    = ((if check_volume report then [] else [volume_diagnostic ds])
         ++ (if check_coordinates report then []
             else ["No valid coordinates found"])
         ++ (if check_location_sanity report then []
             else [location_diagnostic w ds])
         ++ (if check_file report then [] else ["File creation failed"]))%list
  ∧ check_volume report = (100 <? len ds)%nat
  ∧ check_coordinates report
    = ((0 <? count_notna "lat" ds)%nat && (0 <? count_notna "lon" ds)%nat)
  ∧ check_location_sanity report
    = (within HOUSTON_DALLAS_LAT_BOUNDS (mean w "lat" ds)
       && within HOUSTON_DALLAS_LON_BOUNDS (mean w "lon" ds))
  ∧ ∃ st_f,
      save_output w ds (os_path_join (getcwd w) OUTPUT_FILE)
                  (Some (os_path_join (getcwd w) OUTPUT_GEOJSON)) st_f
      = (Ok (check_file report), st').
Proof.
  intros Hmain Hds Hreport.
  destruct (main_outcome w st out st' ds Hmain Hds)
    as (d & rest & Hsel & -> & -> & ->).
  cbn [final_report overall_success] in *.
  assert (report = completed_report w st) as -> by congruence. clear Hreport.
  destruct (completed_report_checks w st) as (Hv & Hc & Hl & Hf & He).
  destruct (dataset_columns w st d) as [Hlat Hlon].
  { rewrite Hsel. apply list_elem_of_here. }
  pose proof (dataset_not_empty w st d rest Hsel) as Hlen.
  pose proof (verify_data_errors w (dataset w st) Hlen Hlat Hlon) as Herr.
  pose proof (verify_data_error_list w (dataset w st) Hlen Hlat Hlon) as Hlist.
  split; [|split; [|split; [|split; [|split; [|split]]]]].
  - rewrite Hv, Hc, Hl, Hf. by rewrite verify_data_success.
  - unfold failed_checks. rewrite He, length_app, Herr, Hv, Hc, Hl, Hf.
    generalize (check_volume (verify_data w (Some (dataset w st))).2),
      (check_coordinates (verify_data w (Some (dataset w st))).2),
      (check_location_sanity (verify_data w (Some (dataset w st))).2),
      (file_saved w st).
    by intros [] [] [] [].
  - rewrite He, Hlist, Hv, Hc, Hl, Hf. by rewrite <- !app_assoc.
  - rewrite Hv. apply verify_data_check_volume.
  - rewrite Hc, verify_data_check_coordinates, Hlat, Hlon. reflexivity.
  - rewrite Hl, verify_data_check_location_sanity, Hlat, Hlon. reflexivity.
  - exists (state_before_save w st). rewrite Hf. apply saving_returns.
Qed.

Lemma overall_success_witness :
  ∃ out st' ds report,
    main one_substation_world initial_state = (Ok out, st')
    ∧ final_df out = Some ds ∧ final_report out = Some report
    ∧ overall_success out
      = check_volume report && check_coordinates report
        && check_location_sanity report && check_file report
    ∧ length (errors report) = failed_checks report.
Proof.
  pose proof (main_spec one_substation_world initial_state) as Hmain.
  destruct (selected_data one_substation_world initial_state) as [|d rest]
    eqn:Hsel.
  { vm_compute in Hsel. discriminate Hsel. }
  eexists _, _, _, _.
  split; [exact Hmain|]. split; [reflexivity|]. split; [reflexivity|].
  destruct (overall_success_is_and_of_four_checks
              one_substation_world initial_state _ _ _ _ Hmain
              eq_refl eq_refl) as (Hand & Hcount & _).
  split; [exact Hand|exact Hcount].
Defined.

(** ** Persistence *)

Section Paths.

Lemma append_inj_r (a b c : string) : a ++ b = a ++ c → b = c.
Proof.
  induction a as [|ch a IH]; intros Heq; [exact Heq|].
  apply IH. by injection Heq.
Qed.

Lemma os_path_join_inj (a b c : string) :
  os_path_join a b = os_path_join a c → b = c.
Proof.
  unfold os_path_join. destruct a as [|ch a]; [done|].
  destruct (ends_with_slash (String ch a)).
  - apply append_inj_r.
  - intros Heq. apply append_inj_r in Heq.
    apply (append_inj_r "/") in Heq. exact Heq.
Qed.

Lemma os_path_join_not_empty (a b : string) :
  b ≠ EmptyString → os_path_join a b ≠ EmptyString.
Proof.
  unfold os_path_join. destruct a as [|ch a]; [done|].
  intros _. by destruct (ends_with_slash (String ch a)).
Qed.

End Paths.

(** C10: when the run has a data set, the Output Writer is called on it
    whatever the volume, coordinate and location checks found, and the
    overall success is computed from its result; the state the run ends in
    is the state the writer left, so nothing is rolled back.  With writers
    that work, both files are on disk at the end of the run, also when the
    run fails. *)
Theorem output_written_whatever_the_checks
    (w : World) (st : State) (out : Outcome) (st' : State) (ds : DataFrame) :
  main w st = (Ok out, st') →
  final_df out = Some ds →
  let csv := os_path_join (getcwd w) OUTPUT_FILE in
  let geojson := os_path_join (getcwd w) OUTPUT_GEOJSON in
  (∃ st_f file_saved,
     files st_f = files st
     ∧ save_output w ds csv (Some geojson) st_f = (Ok file_saved, st')
     ∧ overall_success out = (verify_data w (Some ds)).1 && file_saved)
  ∧ ToCsv csv ds ∈ calls st'
  ∧ (stores_csv w → ToFile geojson (GeoDataFrame_from_xy ds) ∈ calls st')
  ∧ (stores_csv w → stores_geojson w →
     files st' !! csv = Some (CsvFile ds)
     ∧ files st' !! geojson = Some (GeoJSONFile (GeoDataFrame_from_xy ds))).
Proof.
  intros Hmain Hds csv geojson.
  destruct (main_outcome w st out st' ds Hmain Hds)
    as (d & rest & Hsel & -> & -> & ->).
  cbn [overall_success].
  destruct (dataset_columns w st d) as [Hlat Hlon].
  { rewrite Hsel. apply list_elem_of_here. }
  assert (geojson_target (dataset w st) (Some geojson) = Some geojson)
    as Htarget.
  { unfold geojson_target. rewrite Hlat, Hlon.
    rewrite bool_decide_eq_false_2; [done|].
    by apply os_path_join_not_empty. }
  assert (csv ≠ geojson) as Hpaths.
  { intros Heq. apply os_path_join_inj in Heq. discriminate Heq. }
  pose proof (saving_returns w st) as Hret.
  pose proof (save_output_cases w (dataset w st) csv (Some geojson)
                (state_before_save w st)) as Hcases.
  destruct (save_output_writes w (dataset w st) csv (Some geojson)
              (state_before_save w st)) as (writes & Hcalls & _ & Hin).
  change (save_output w (dataset w st) csv (Some geojson)
                      (state_before_save w st))
    with (saving w st) in Hcases, Hcalls.
  cbv zeta in Hcases. rewrite Htarget in Hcases.
  split; [|split; [|split]].
  - exists (state_before_save w st), (file_saved w st).
    split; [apply files_state_before_save|].
    split; [exact Hret|reflexivity].
  - rewrite Hcalls. apply elem_of_app. by right.
  - intros Hcsv. rewrite Hcases.
    unfold after_to_csv, after_to_file. rewrite !Hcsv. cbn [fst snd is_ok files].
    rewrite lookup_insert_eq.
    rewrite bool_decide_eq_true_2 by (by eexists). cbn [andb snd calls].
    apply elem_of_app. right. apply list_elem_of_here.
  - intros Hcsv Hgeojson. rewrite Hcases.
    unfold after_to_csv, after_to_file. rewrite !Hcsv. cbn [fst snd is_ok files].
    rewrite lookup_insert_eq.
    rewrite bool_decide_eq_true_2 by (by eexists). cbn [andb snd files].
    rewrite !Hgeojson. cbn [snd].
    unfold after_to_csv. cbn [files]. rewrite Hcsv. cbn [snd]. split.
    + rewrite lookup_insert_ne by (by apply not_eq_sym).
      apply lookup_insert_eq.
    + apply lookup_insert_eq.
Qed.

Lemma output_written_witness :
  ∃ out st',
    main one_substation_world initial_state = (Ok out, st')
    ∧ overall_success out = false
    ∧ is_Some (files st' !! "/data/texas_critical_infra_points_2022.csv")
    ∧ is_Some (files st' !! "/data/texas_critical_infra_points_2022.geojson").
Proof.
  pose proof (main_spec one_substation_world initial_state) as Hmain.
  destruct (selected_data one_substation_world initial_state) as [|d rest]
    eqn:Hsel.
  { vm_compute in Hsel. discriminate Hsel. }
  destruct (output_written_whatever_the_checks
              one_substation_world initial_state _ _ _ Hmain eq_refl)
    as (_ & _ & _ & Hfiles).
  destruct Hfiles as [Hcsv Hgeojson]; [by intros ???|by intros ???|].
  eexists _, _. split; [exact Hmain|]. split.
  - cbn [overall_success].
    assert ((verify_data one_substation_world (Some (dataset one_substation_world initial_state))).1
            = false) as ->; [|reflexivity].
    vm_compute. reflexivity.
  - split; eexists; [exact Hcsv|exact Hgeojson].
Defined.

(** ** Isolation of a failing region *)

Section Isolation.

Context (w : World).
Implicit Types (st : State) (r : gmap string value) (d : DataFrame).

Lemma fetch_all_app tags (use_historical : bool)
    (before after : list string) (all_data collected : list DataFrame)
    st st_b :
  fetch_all w tags use_historical before all_data st = (Ok collected, st_b) →
  fetch_all w tags use_historical (before ++ after) all_data st
  = fetch_all w tags use_historical after collected st_b.
Proof.
  revert all_data st.
  induction before as [|l before IH]; intros all_data st Hbefore.
  - apply Ok_pair_inj in Hbefore as [<- <-]. reflexivity.
  - cbn [app]. rewrite fetch_all_step in Hbefore |- *. by apply IH.
Qed.

Lemma restrict_idemp cols r : restrict cols (restrict cols r) = restrict cols r.
Proof.
  apply map_eq. intros c. destruct (decide (c ∈ cols)) as [Hin|Hout].
  - by rewrite restrict_lookup_in.
  - unfold restrict at 1. rewrite (proj2 (map_lookup_filter_None _ _ c)).
    + symmetry. apply map_lookup_filter_None. right. intros v _. exact Hout.
    + right. intros v _. exact Hout.
Qed.

(** The records of a cleaned frame have no cell outside its columns. *)
Lemma region_result_rows answer (location : string) d r :
  region_result answer location = Some d →
  r ∈ rows d → restrict (columns d) r = r.
Proof.
  unfold region_result. destruct answer as [[gdf|]|e]; try done.
  destruct (len gdf =? 0)%nat; [done|].
  destruct (convert_to_centroids (Some gdf)) as [g1|]; [|done].
  destruct (clean_and_filter (Some g1) (before_comma location)) as [g|]
    eqn:Hclean; [|done].
  destruct (0 <? len g)%nat; [|done].
  intros Hd. apply (inj Some) in Hd. subst g.
  pose proof (clean_and_filter_index_names _ _ _ Hclean) as Hindex.
  rewrite (clean_and_filter_unfold _ _ _ Hclean) in Hindex |- *.
  cbv zeta in Hindex |- *. cbn [select_columns index_names rows columns] in *.
  rewrite Hindex. cbn [app].
  intros (r0 & <- & _)%elem_of_map_list. apply restrict_idemp.
Qed.

Lemma pass_data_rows tags s history locations d r :
  d ∈ pass_data w tags s history locations →
  r ∈ rows d → restrict (columns d) r = r.
Proof.
  revert history. induction locations as [|l locations IH]; intros history Hd.
  - by apply elem_of_nil in Hd.
  - cbn [pass_data] in Hd. apply elem_of_app in Hd as [Hd|Hd]; [|by eapply IH].
    destruct (region_result _ l) as [d'|] eqn:Hres; cbn in Hd.
    + apply list_elem_of_singleton in Hd as ->. by eapply region_result_rows.
    + by apply elem_of_nil in Hd.
Qed.

Lemma concat_rows (frames : list DataFrame) :
  (∀ d r, d ∈ frames → r ∈ rows d → restrict (columns d) r = r) →
  rows (concat frames) = flat_map rows frames.
Proof.
  unfold concat. cbn [rows].
  induction frames as [|d frames IH]; intros Hclosed; [done|].
  cbn [flat_map]. rewrite IH.
  - f_equal. rewrite <- (map_id (rows d)) at 2. apply map_ext_in.
    intros r Hr. apply (Hclosed d); [apply list_elem_of_here|].
    by apply list_elem_of_In.
  - intros d' r Hd'. apply Hclosed. by apply list_elem_of_further.
Qed.

(** Every record that goes into the removal of duplicates has a record
    with its key in the result. *)
Lemma drop_duplicates_from_represents subset seen
    (X : list (gmap string value)) r :
  r ∈ X →
  seen_key seen (row_key subset r) = true
  ∨ ∃ r', r' ∈ drop_duplicates_from subset seen X
          ∧ key_eqb (row_key subset r) (row_key subset r') = true.
Proof.
  revert seen. induction X as [|x X IH]; intros seen Hr.
  - by apply elem_of_nil in Hr.
  - cbn [drop_duplicates_from]. cbv zeta.
    apply elem_of_cons in Hr as [->|Hr].
    + destruct (seen_key seen (row_key subset x)) eqn:Hseen; [by left|].
      right. exists x. split; [apply list_elem_of_here|apply key_eqb_refl].
    + destruct (seen_key seen (row_key subset x)) eqn:Hseen.
      * by apply IH.
      * destruct (IH (row_key subset x :: seen) Hr) as [Hs|(r' & Hr' & Hk)].
        -- unfold seen_key in Hs. cbn [existsb] in Hs.
           apply orb_true_iff in Hs as [Hx|Hs]; [|by left].
           right. exists x. split; [apply list_elem_of_here|exact Hx].
        -- right. exists r'. split; [by apply list_elem_of_further|exact Hk].
Qed.

Lemma rows_dataset st :
  rows (dataset w st)
  = drop_duplicates_from ["lat"; "lon"] [] (flat_map rows (selected_data w st)).
Proof.
  unfold dataset, drop_duplicates. cbn [rows]. rewrite concat_rows; [done|].
  unfold selected_data. destruct (fallback w st); intros d r;
    apply pass_data_rows.
Qed.

(** The pass over the regions whose results are final collects the data
    the program consolidates. *)
Lemma final_pass_is_selected st (out : Outcome) (st' : State)
    (all : list DataFrame) (st_e : State) :
  main w st = (Ok out, st') →
  fetch_all w build_tags_dict (used_historical out) LOCATIONS []
            (if used_historical out
             then mkState historical_settings (calls st) (files st)
             else mkState current_settings
                    (calls st ++ pass_calls historical_settings LOCATIONS)
                    (files st))
  = (Ok all, st_e) →
  all = selected_data w st.
Proof.
  intros Hmain Hall. rewrite main_spec in Hmain.
  assert (used_historical out = negb (fallback w st)) as Huh.
  { destruct (selected_data w st); apply Ok_pair_inj in Hmain as [<- _];
      reflexivity. }
  rewrite Huh, fetch_all_spec, app_nil_l in Hall.
  apply Ok_pair_inj in Hall as [Hall _].
  unfold selected_data, current_data, historical_data, calls_after_historical.
  destruct (fallback w st); cbn [negb] in Hall; by rewrite <- Hall.
Qed.

End Isolation.


(** The CURRENT pass of a run, as a call of the loop. *)
Lemma current_pass_spec (w : World) (st : State) :
  fetch_all w build_tags_dict false LOCATIONS []
            (mkState current_settings
                     (calls st ++ pass_calls historical_settings LOCATIONS)
                     (files st))
  = (Ok (current_data w st),
     mkState current_settings
             (calls_after_historical st
                ++ pass_calls current_settings LOCATIONS)
             (files st)).
Proof. rewrite fetch_all_spec. by rewrite app_nil_l. Qed.

(** C2, as the specification states it, fails: the records of a region
    that is fetched after a failure need not reach the final data set.
    Here the query for Houston raises, the HISTORICAL pass goes on and
    collects the three records of Dallas; being fewer than 50 they are
    discarded by the fallback, the CURRENT pass finds nothing, and the run
    ends without a data set. *)
Lemma region_records_discarded_by_the_fallback :
  fetch_infrastructure_data houston_fails_dallas_in_history
    "Houston, Texas, USA" build_tags_dict true
    (mkState historical_settings [] ∅)
  = (Ok None, logged (mkState historical_settings [] ∅) "Houston, Texas, USA")
  ∧ (∃ d st_h,
       fetch_all houston_fails_dallas_in_history build_tags_dict true
                 LOCATIONS [] (mkState historical_settings [] ∅)
       = (Ok [d], st_h)
       ∧ map (λ r : gmap string value, r !! "city_source") (rows d)
         = [Some (VStr "Dallas"); Some (VStr "Dallas"); Some (VStr "Dallas")])
  ∧ ∃ out st',
      main houston_fails_dallas_in_history initial_state = (Ok out, st')
      ∧ final_df out = None ∧ final_report out = None
      ∧ overall_success out = false ∧ files st' = ∅.
Proof.
  split; [|split].
  - rewrite fetch_infrastructure_data_cases. reflexivity.
  - rewrite fetch_all_spec. cbn [settings calls files].
    destruct (pass_data houston_fails_dallas_in_history build_tags_dict
                historical_settings [] LOCATIONS) as [|d [|d' rest]] eqn:Hpass;
      [vm_compute in Hpass; discriminate Hpass| |
       vm_compute in Hpass; discriminate Hpass].
    eexists d, _. split; [reflexivity|].
    assert (Some d
            = head (pass_data houston_fails_dallas_in_history build_tags_dict
                              historical_settings [] LOCATIONS)) as Hd
      by by rewrite Hpass.
    apply (inj Some).
    change (Some (map (λ r : gmap string value, r !! "city_source") (rows d)))
      with ((λ d, map (λ r : gmap string value, r !! "city_source") (rows d))
              <$> Some d).
    rewrite Hd. vm_compute. reflexivity.
  - pose proof (main_spec houston_fails_dallas_in_history initial_state)
      as Hmain.
    assert (selected_data houston_fails_dallas_in_history initial_state = [])
      as Hsel by (vm_compute; reflexivity).
    rewrite Hsel in Hmain.
    eexists _, _. split; [exact Hmain|].
    split; [reflexivity|]. split; [reflexivity|]. split; [reflexivity|].
    unfold state_before_save.
    by destruct (fallback houston_fails_dallas_in_history initial_state).
Qed.

(** C2: when the client raises during the fetch of a region, the Region
    Fetcher returns "no data" for that region and does not raise; the loop
    goes on with the remaining regions from what it has collected so far,
    which it keeps.  Every frame collected by the pass whose results are
    final goes into the data set, where each of its records is present or
    is represented by an earlier record with the same coordinates; what a
    HISTORICAL pass below the threshold collects is discarded. *)
Theorem region_failure_is_isolated (w : World) :
  (∀ tags (use_historical : bool) (before after : list string)
     (failing : string) (all_data collected : list DataFrame)
     (st st_b : State) (e : string),
     fetch_all w tags use_historical before all_data st = (Ok collected, st_b) →
     features_from_place w (calls st_b) (settings st_b) failing tags
     = Raised e →
     fetch_infrastructure_data w failing tags use_historical st_b
     = (Ok None, logged st_b failing)
     ∧ fetch_all w tags use_historical (before ++ failing :: after) all_data st
       = fetch_all w tags use_historical after collected (logged st_b failing)
     ∧ ∃ more st_e,
         fetch_all w tags use_historical after collected (logged st_b failing)
         = (Ok (collected ++ more)%list, st_e))
  ∧ (∀ (st : State) (out : Outcome) (st' : State) (all : list DataFrame)
       (st_e : State) (d : DataFrame),
       main w st = (Ok out, st') →
       fetch_all w build_tags_dict (used_historical out) LOCATIONS []
                 (if used_historical out
                  then mkState historical_settings (calls st) (files st)
                  else mkState current_settings
                         (calls st ++ pass_calls historical_settings LOCATIONS)
                         (files st))
       = (Ok all, st_e) →
       d ∈ all →
       ∃ ds,
         final_df out = Some ds
         ∧ rows ds
           = drop_duplicates_from ["lat"; "lon"] [] (flat_map rows all)
         ∧ ∀ r, r ∈ rows d →
                ∃ r', r' ∈ rows ds ∧ same_coordinates r r' = true).
Proof.
  split.
  - intros tags use_historical before after failing all_data collected
      st st_b e Hbefore Hraises.
    split; [|split].
    + rewrite fetch_infrastructure_data_cases. by rewrite Hraises.
    + rewrite (fetch_all_app w tags use_historical before (failing :: after)
                 all_data collected st st_b Hbefore).
      rewrite fetch_all_step, Hraises. cbn [region_result option_list].
      by rewrite app_nil_r.
    + rewrite fetch_all_spec. by eexists _, _.
  - intros st out st' all st_e d Hmain Hall Hd.
    rewrite main_spec in Hmain.
    assert (used_historical out = negb (fallback w st)) as Huh.
    { destruct (selected_data w st); apply Ok_pair_inj in Hmain as [<- _];
        reflexivity. }
    rewrite Huh, fetch_all_spec, app_nil_l in Hall.
    apply Ok_pair_inj in Hall as [Hall _].
    assert (all = selected_data w st) as ->.
    { unfold selected_data, current_data, historical_data,
        calls_after_historical.
      destruct (fallback w st); cbn [negb] in Hall; by rewrite <- Hall. }
    clear Hall Huh.
    assert (∀ d r, d ∈ selected_data w st → r ∈ rows d →
                   restrict (columns d) r = r) as Hclosed.
    { unfold selected_data. destruct (fallback w st); intros d1 r1;
        apply pass_data_rows. }
    pose proof (concat_rows (selected_data w st) Hclosed) as Hrows.
    assert (rows (dataset w st)
            = drop_duplicates_from ["lat"; "lon"] []
                (flat_map rows (selected_data w st))) as Hds.
    { unfold dataset, drop_duplicates. cbn [rows]. by rewrite Hrows. }
    exists (dataset w st). split; [|split; [exact Hds|]].
    + destruct (selected_data w st) as [|d0 rest].
      * by apply elem_of_nil in Hd.
      * by apply Ok_pair_inj in Hmain as [<- _].
    + intros r Hr. rewrite Hds.
      assert (r ∈ flat_map rows (selected_data w st)) as Hin.
      { apply list_elem_of_In, in_flat_map. exists d.
        split; by apply list_elem_of_In. }
      destruct (drop_duplicates_from_represents ["lat"; "lon"] [] _ r Hin)
        as [Hseen|(r' & Hr' & Hkey)]; [discriminate Hseen|].
      exists r'. split; [exact Hr'|].
      unfold same_coordinates. cbn in Hkey. by rewrite andb_true_r in Hkey.
Qed.

Lemma houston_fails_run :
  ∃ d rest st_e,
    main houston_fails initial_state
    = (Ok (mkOutcome
             ((verify_data houston_fails (Some (dataset houston_fails initial_state))).1
              && file_saved houston_fails initial_state)
             false (Some (dataset houston_fails initial_state))
             (Some (completed_report houston_fails initial_state))),
       (saving houston_fails initial_state).2)
    ∧ fetch_all houston_fails build_tags_dict false LOCATIONS []
        (mkState current_settings
           (calls initial_state ++ pass_calls historical_settings LOCATIONS)
           (files initial_state))
      = (Ok (d :: rest), st_e)
    ∧ len (dataset houston_fails initial_state) = 3.
Proof.
  assert (fallback houston_fails initial_state = true) as Hfb
    by (vm_compute; reflexivity).
  pose proof (main_spec houston_fails initial_state) as Hmain.
  assert (selected_data houston_fails initial_state
          = current_data houston_fails initial_state) as Hsel
    by (unfold selected_data; by rewrite Hfb).
  pose proof (current_pass_spec houston_fails initial_state) as Hall.
  rewrite Hfb, Hsel in Hmain. cbn [negb] in Hmain.
  destruct (current_data houston_fails initial_state) as [|d rest] eqn:Hcur.
  { vm_compute in Hcur. discriminate Hcur. }
  exists d, rest. eexists. split; [exact Hmain|]. split; [exact Hall|].
  vm_compute. reflexivity.
Qed.

Lemma region_failure_witness :
  fetch_infrastructure_data houston_fails "Houston, Texas, USA" build_tags_dict
                            true initial_state
  = (Ok None, logged initial_state "Houston, Texas, USA")
  ∧ fetch_all houston_fails build_tags_dict true LOCATIONS [] initial_state
    = fetch_all houston_fails build_tags_dict true ["Dallas, Texas, USA"] []
                (logged initial_state "Houston, Texas, USA")
  ∧ ∃ out st' ds,
      main houston_fails initial_state = (Ok out, st')
      ∧ final_df out = Some ds
      ∧ len ds = 3.
Proof.
  destruct (region_failure_is_isolated houston_fails) as [Hloop Hrun].
  destruct (Hloop build_tags_dict true [] ["Dallas, Texas, USA"]
                  "Houston, Texas, USA" [] [] initial_state initial_state
                  "Connection timed out" eq_refl eq_refl)
    as (Hnone & Hnext & _).
  split; [exact Hnone|]. split; [exact Hnext|].
  destruct houston_fails_run as (d & rest & st_e & Hmain & Hall & Hlen).
  destruct (Hrun initial_state _ _ _ _ d Hmain Hall)
    as (ds & Hfinal & _); [apply list_elem_of_here|].
  eexists _, _, _. split; [exact Hmain|]. split; [reflexivity|exact Hlen].
Defined.

(** ** The order of the records and the removal of duplicates *)

(** C3: removing duplicates from a doubled input gives the data set of the
    single input.  The removal goes through the records in order and
    removes exactly those whose latitude and longitude are, both and
    exactly, those of an earlier record, so that of the records at one
    coordinate the earliest one stays; the order is that of the
    concatenation, which puts the records of the frames one after the other
    in the order of the frames.  In a run, the frames are those of the
    regions, in the order in which the final pass processed them. *)
Theorem drop_duplicates_idempotent_keeps_first :
  (∀ frames : list DataFrame,
     drop_duplicates ["lat"; "lon"] (concat (frames ++ frames))
     = drop_duplicates ["lat"; "lon"] (concat frames))
  ∧ (∀ df : DataFrame,
       rows (drop_duplicates ["lat"; "lon"] df) = keep_first_from [] (rows df))
  ∧ (∀ A B : list DataFrame,
       rows (concat (A ++ B)) = (rows (concat A) ++ rows (concat B))%list)
  ∧ (∀ X : list (gmap string value),
       drop_duplicates_from ["lat"; "lon"] [] (X ++ X)
       = drop_duplicates_from ["lat"; "lon"] [] X)
  ∧ (∀ (X : list (gmap string value)) (r : gmap string value),
       drop_duplicates_from ["lat"; "lon"] [] (X ++ [r])
       = (drop_duplicates_from ["lat"; "lon"] [] X
            ++ if existsb (same_coordinates r) X then [] else [r])%list)
  ∧ (∀ (w : World) (st : State) (out : Outcome) (st' : State)
       (all : list DataFrame) (st_e : State) (ds : DataFrame),
       main w st = (Ok out, st') →
       fetch_all w build_tags_dict (used_historical out) LOCATIONS []
                 (if used_historical out
                  then mkState historical_settings (calls st) (files st)
                  else mkState current_settings
                         (calls st ++ pass_calls historical_settings LOCATIONS)
                         (files st))
       = (Ok all, st_e) →
       final_df out = Some ds →
       ds = drop_duplicates ["lat"; "lon"] (concat all)
       ∧ rows ds = keep_first_from [] (flat_map rows all)).
Proof.
  split; [|split; [|split; [|split; [|split]]]].
  - intros frames. destruct (concat_doubled frames) as [Hcols Hrows].
    unfold drop_duplicates. rewrite Hcols, Hrows.
    rewrite drop_duplicates_from_doubled. reflexivity.
  - intros df. unfold drop_duplicates. cbn [rows].
    by apply drop_duplicates_from_keep_first.
  - apply concat_app_rows.
  - intros X. apply drop_duplicates_from_doubled.
  - intros X r. rewrite drop_duplicates_from_snoc.
    assert (existsb (λ r', key_eqb (row_key ["lat"; "lon"] r)
                                   (row_key ["lat"; "lon"] r')) X
            = existsb (same_coordinates r) X) as ->; [|reflexivity].
    induction X as [|r' X IH]; [done|].
    cbn [existsb]. rewrite IH. f_equal.
    unfold same_coordinates. simpl. by rewrite andb_true_r.
  - intros w st out st' all st_e ds Hmain Hall Hds.
    rewrite (final_pass_is_selected w st out st' all st_e Hmain Hall).
    destruct (main_outcome w st out st' ds Hmain Hds)
      as (d & rest & _ & -> & _ & _).
    split; [reflexivity|].
    rewrite rows_dataset. by apply drop_duplicates_from_keep_first.
Qed.

Lemma shared_sites_run :
  ∃ all st_e,
    main shared_sites initial_state
    = (Ok (mkOutcome
             ((verify_data shared_sites
                           (Some (dataset shared_sites initial_state))).1
              && file_saved shared_sites initial_state)
             false (Some (dataset shared_sites initial_state))
             (Some (completed_report shared_sites initial_state))),
       (saving shared_sites initial_state).2)
    ∧ fetch_all shared_sites build_tags_dict false LOCATIONS []
        (mkState current_settings
           (calls initial_state ++ pass_calls historical_settings LOCATIONS)
           (files initial_state))
      = (Ok all, st_e)
    ∧ map len all = [2; 2]
    ∧ map (λ r : gmap string value, r !! "city_source")
          (keep_first_from [] (flat_map rows all))
      = [Some (VStr "Houston"); Some (VStr "Houston")].
Proof.
  assert (fallback shared_sites initial_state = true) as Hfb
    by (vm_compute; reflexivity).
  pose proof (main_spec shared_sites initial_state) as Hmain.
  assert (selected_data shared_sites initial_state
          = current_data shared_sites initial_state) as Hsel
    by (unfold selected_data; by rewrite Hfb).
  pose proof (current_pass_spec shared_sites initial_state) as Hall.
  rewrite Hfb, Hsel in Hmain. cbn [negb] in Hmain.
  destruct (current_data shared_sites initial_state) as [|d rest] eqn:Hcur.
  { vm_compute in Hcur. discriminate Hcur. }
  eexists _, _. split; [exact Hmain|]. split; [exact Hall|].
  rewrite <- Hcur. split; vm_compute; reflexivity.
Qed.

Lemma drop_duplicates_keeps_first_witness :
  ∃ out st' ds,
    main shared_sites initial_state = (Ok out, st')
    ∧ final_df out = Some ds
    ∧ map (λ r : gmap string value, r !! "city_source") (rows ds)
      = [Some (VStr "Houston"); Some (VStr "Houston")].
Proof.
  destruct shared_sites_run as (all & st_e & Hmain & Hall & _ & Hcity).
  destruct drop_duplicates_idempotent_keeps_first
    as (_ & _ & _ & _ & _ & Hrun).
  destruct (Hrun shared_sites initial_state _ _ all st_e _ Hmain Hall eq_refl)
    as [_ Hrows].
  eexists _, _, _. split; [exact Hmain|]. split; [reflexivity|].
  rewrite Hrows. exact Hcity.
Defined.

(** * Further properties of the program *)

(** ** The Region Fetcher, alone *)

(** X1: the Region Fetcher never raises.  It returns a frame exactly when
    the client returns one that has records, and then it returns that
    frame unchanged; it makes one call of the client and leaves the
    settings and the files alone; and its [use_historical] argument has no
    effect, the temporal mode being that of the global settings. *)
Theorem fetch_infrastructure_data_outcome
    (w : World) (location : string) (tags : list (string * list string))
    (use_historical : bool) (st : State) :
  ∃ result,
    fetch_infrastructure_data w location tags use_historical st
    = (Ok result,
       mkState (settings st)
               (calls st ++ [FeaturesFromPlace (settings st) location])
               (files st))
    ∧ (∀ gdf,
         result = Some gdf
         ↔ features_from_place w (calls st) (settings st) location tags
           = Ok (Some gdf)
           ∧ 0 < len gdf)
    ∧ fetch_infrastructure_data w location tags (negb use_historical) st
      = fetch_infrastructure_data w location tags use_historical st.
Proof.
  eexists. split; [apply fetch_infrastructure_data_cases|].
  split; [|by rewrite !fetch_infrastructure_data_cases].
  intros gdf.
  destruct (features_from_place w (calls st) (settings st) location tags)
    as [[g|]|e]; [|split; [done|by intros [? _]]..].
  destruct (len g =? 0)%nat eqn:Hlen.
  - apply Nat.eqb_eq in Hlen. split; [done|].
    intros [Hg Hpos]. assert (g = gdf) as -> by congruence. lia.
  - apply Nat.eqb_neq in Hlen. split.
    + intros Hg. assert (g = gdf) as -> by congruence. split; [done|lia].
    + intros [Hg _]. congruence.
Qed.

(** ** The Geometry Normalizer, again *)

Section NormalizerAgain.

Implicit Types (gdf out : DataFrame) (r : gmap string value) (c : string).

Lemma centroid_row_geometry r :
  centroid_row r !! "geometry"
  = VGeom <$> (Geometry.centroid <$> as_geom (r !! "geometry")).
Proof.
  unfold centroid_row.
  destruct (r !! "geometry") as [[s|q|[|x y|k x y]]|] eqn:Hg;
    cbn [as_geom fmap option_fmap option_map set_cell mbind option_bind
         Geometry.centroid Geometry.x Geometry.y];
    repeat (first
      [ rewrite lookup_insert_eq
      | rewrite lookup_delete_eq
      | rewrite lookup_insert_ne by done
      | rewrite lookup_delete_ne by done
      | rewrite Hg ];
      cbn [as_geom fmap option_fmap option_map set_cell mbind option_bind
           Geometry.centroid Geometry.x Geometry.y]);
    reflexivity.
Qed.

Lemma set_cell_lookup_ne c c' (v : option value) r :
  c ≠ c' → set_cell c v r !! c' = r !! c'.
Proof.
  intros Hne. destruct v; cbn [set_cell].
  - by apply lookup_insert_ne.
  - by apply lookup_delete_ne.
Qed.

Lemma set_cell_lookup_eq c (v : option value) r : set_cell c v r !! c = v.
Proof.
  destruct v; cbn [set_cell]; [apply lookup_insert_eq|apply lookup_delete_eq].
Qed.

Lemma centroid_row_other r c :
  c ≠ "geometry" → c ≠ "lon" → c ≠ "lat" → centroid_row r !! c = r !! c.
Proof.
  intros Hg Hlon Hlat. unfold centroid_row. cbv zeta.
  by rewrite !set_cell_lookup_ne.
Qed.

Lemma centroid_idemp g : Geometry.centroid (Geometry.centroid g) = Geometry.centroid g.
Proof. by destruct g. Qed.

Lemma centroid_row_lat_lon r :
  centroid_row r !! "lat"
  = VNum <$> ((Geometry.centroid <$> as_geom (r !! "geometry")) ≫= Geometry.y)
  ∧ centroid_row r !! "lon"
    = VNum <$> ((Geometry.centroid <$> as_geom (r !! "geometry"))
                  ≫= Geometry.x).
Proof.
  pose proof (centroid_row_coordinates r) as Hr.
  destruct (as_geom (r !! "geometry")) as [g|]; exact Hr.
Qed.

Lemma as_geom_fmap (g : option Geometry.t) : as_geom (VGeom <$> g) = g.
Proof. by destruct g. Qed.

Lemma centroid_row_idemp r : centroid_row (centroid_row r) = centroid_row r.
Proof.
  apply map_eq. intros c.
  destruct (centroid_row_lat_lon (centroid_row r)) as [Hlat2 Hlon2].
  destruct (centroid_row_lat_lon r) as [Hlat Hlon].
  pose proof (centroid_row_geometry (centroid_row r)) as Hgeom2.
  rewrite (centroid_row_geometry r), as_geom_fmap in Hgeom2, Hlat2, Hlon2.
  assert (Geometry.centroid <$> (Geometry.centroid <$> as_geom (r !! "geometry"))
          = Geometry.centroid <$> as_geom (r !! "geometry")) as Hcc.
  { destruct (as_geom (r !! "geometry")) as [g|]; [|done].
    cbn. by rewrite centroid_idemp. }
  rewrite Hcc in Hgeom2, Hlat2, Hlon2.
  destruct (decide (c = "geometry")) as [->|Hg].
  { by rewrite Hgeom2, centroid_row_geometry. }
  destruct (decide (c = "lon")) as [->|Hlo]; [by rewrite Hlon2, Hlon|].
  destruct (decide (c = "lat")) as [->|Hla]; [by rewrite Hlat2, Hlat|].
  by rewrite !centroid_row_other.
Qed.

Lemma assign_present_columns c f gdf :
  c ∈ columns gdf → columns (assign c f gdf) = columns gdf.
Proof.
  intros Hc. unfold assign, has_column. cbn [columns].
  by rewrite bool_decide_eq_true_2.
Qed.

Lemma convert_to_centroids_some gdf :
  len gdf ≠ 0 →
  ∃ out, convert_to_centroids (Some gdf) = Some out
         ∧ crs out = Some (default "EPSG:4326" (crs gdf))
         ∧ index_names out = index_names gdf.
Proof.
  intros Hlen. unfold convert_to_centroids.
  apply Nat.eqb_neq in Hlen. rewrite Hlen.
  eexists. split; [reflexivity|].
  destruct gdf as [[c|] idx cols rs]; split; reflexivity.
Qed.

End NormalizerAgain.

(** X2: the Geometry Normalizer is idempotent: normalizing its own output
    changes nothing, because the centroid of a point is the point and the
    coordinate columns are already there. *)
Theorem convert_to_centroids_idempotent (gdf : option DataFrame) :
  convert_to_centroids (convert_to_centroids gdf) = convert_to_centroids gdf.
Proof.
  destruct gdf as [gdf|]; [|reflexivity].
  destruct (decide (len gdf = 0)) as [Hzero|Hlen].
  { assert (convert_to_centroids (Some gdf) = None) as ->; [|reflexivity].
    unfold convert_to_centroids. apply Nat.eqb_eq in Hzero. by rewrite Hzero. }
  destruct (convert_to_centroids_some gdf Hlen) as (out & Hout & Hcrs & Hindex).
  rewrite Hout.
  pose proof (convert_to_centroids_rows _ _ Hout) as Hrows.
  destruct (convert_to_centroids_columns _ _ Hout) as [Hlat Hlon].
  assert ("geometry" ∈ columns out) as Hgeom.
  { unfold convert_to_centroids in Hout.
    destruct (len gdf =? 0)%nat; [done|]. apply (inj Some) in Hout. subst out.
    apply assign_columns_old, assign_columns_old, assign_columns_new. }
  assert (len out ≠ 0) as Hlen'.
  { unfold len in *. rewrite Hrows, length_map. exact Hlen. }
  destruct (convert_to_centroids_some out Hlen') as (out2 & Hout2 & Hcrs2 & Hindex2).
  rewrite Hout2. f_equal.
  pose proof (convert_to_centroids_rows _ _ Hout2) as Hrows2.
  assert (columns out2 = columns out) as Hcols2.
  { unfold convert_to_centroids in Hout2.
    destruct (len out =? 0)%nat; [done|]. rewrite Hcrs in Hout2.
    apply (inj Some) in Hout2. subst out2.
    rewrite (assign_present_columns "lat").
    - rewrite (assign_present_columns "lon").
      + by apply assign_present_columns.
      + by apply assign_columns_old.
    - by apply assign_columns_old, assign_columns_old. }
  destruct out as [crs1 idx1 cols1 rows1], out2 as [crs2 idx2 cols2 rows2].
  cbn [crs index_names columns rows] in *. subst.
  f_equal.
  rewrite map_map. apply map_ext. intros r. apply centroid_row_idemp.
Qed.

(** What [save_output] rebuilds from the coordinates of one normalized
    row. *)
Lemma point_from_xy_centroid_row (r : gmap string value) :
  point_from_xy (centroid_row r)
  = match as_geom (r !! "geometry") with
    | Some g => Geometry.centroid g
    | None => Geometry.Empty
    end.
Proof.
  unfold point_from_xy.
  destruct (centroid_row_lat_lon r) as [-> ->].
  destruct (as_geom (r !! "geometry")) as [[|x y|k x y]|]; reflexivity.
Qed.

(** X3: for a feature whose geometry is not empty, the point that
    [save_output] rebuilds from the [lon] and [lat] of the normalized frame
    is the centroid the Normalizer computed for it. *)
Theorem geometry_rebuilt_from_coordinates (gdf out : DataFrame) :
  convert_to_centroids (Some gdf) = Some out →
  Forall2
    (λ (feature record : gmap string value),
       ∀ g, as_geom (feature !! "geometry") = Some g →
            g ≠ Geometry.Empty →
            record !! "geometry" = Some (VGeom (Geometry.centroid g)))
    (rows gdf) (rows (GeoDataFrame_from_xy out)).
Proof.
  intros Hout. unfold GeoDataFrame_from_xy. cbn [rows].
  rewrite (convert_to_centroids_rows _ _ Hout), map_map.
  induction (rows gdf) as [|r rs IH]; constructor; [|exact IH].
  intros g Hg _.
  by rewrite lookup_insert_eq, point_from_xy_centroid_row, Hg.
Qed.

Lemma geometry_rebuilt_witness :
  ∃ out,
    convert_to_centroids (Some (substations 2 29.76 (-95.37))) = Some out
    ∧ Forall2
        (λ (feature record : gmap string value),
           ∀ g, as_geom (feature !! "geometry") = Some g →
                g ≠ Geometry.Empty →
                record !! "geometry" = Some (VGeom (Geometry.centroid g)))
        (rows (substations 2 29.76 (-95.37)))
        (rows (GeoDataFrame_from_xy out)).
Proof.
  eexists. split; [reflexivity|].
  apply geometry_rebuilt_from_coordinates. reflexivity.
Defined.

Lemma assign_columns_iff (col c : string)
    (f : gmap string value → option value) (df : DataFrame) :
  c ∈ columns (assign col f df) ↔ c ∈ columns df ∨ c = col.
Proof.
  unfold assign, has_column. cbn [columns]. case_bool_decide as Hcol.
  - split; [by left|]. by intros [Hc| ->].
  - rewrite elem_of_app, list_elem_of_singleton. done.
Qed.

(** X4: the Geometry Normalizer returns [None] exactly when its input is
    [None] or has no feature.  Otherwise the output has the CRS of the
    input, or EPSG:4326 when the input has none, the index of the input, and
    the columns of the input with [geometry], [lon] and [lat]; and outside
    these three columns every record is the feature it comes from. *)
Theorem convert_to_centroids_frame (gdf : option DataFrame) :
  (convert_to_centroids gdf = None
   ↔ gdf = None ∨ ∃ g, gdf = Some g ∧ len g = 0)
  ∧ ∀ g out,
      gdf = Some g → convert_to_centroids gdf = Some out →
      crs out = Some (default "EPSG:4326" (crs g))
      ∧ index_names out = index_names g
      ∧ (∀ c, c ∈ columns out
              ↔ c ∈ columns g ∨ c = "geometry" ∨ c = "lon" ∨ c = "lat")
      ∧ Forall2
          (λ (feature record : gmap string value),
             ∀ c, c ≠ "geometry" → c ≠ "lon" → c ≠ "lat" →
                  record !! c = feature !! c)
          (rows g) (rows out).
Proof.
  split.
  - destruct gdf as [g|]; [|split; [by left|done]].
    unfold convert_to_centroids. destruct (len g =? 0)%nat eqn:Hlen.
    + apply Nat.eqb_eq in Hlen. split; [|done]. intros _. right. by exists g.
    + apply Nat.eqb_neq in Hlen. split; [done|].
      intros [Hnone|(g' & Hg' & Hzero)]; [done|]. congruence.
  - intros g out -> Hout.
    pose proof (convert_to_centroids_rows _ _ Hout) as Hrows.
    assert (len g ≠ 0) as Hlen.
    { intros Hzero. unfold convert_to_centroids in Hout.
      apply Nat.eqb_eq in Hzero. by rewrite Hzero in Hout. }
    destruct (convert_to_centroids_some g Hlen) as (out' & Hout' & Hcrs & Hidx).
    assert (out' = out) as -> by congruence.
    split; [exact Hcrs|]. split; [exact Hidx|]. split.
    + intros c. unfold convert_to_centroids in Hout.
      destruct (len g =? 0)%nat; [done|]. apply (inj Some) in Hout. subst out.
      rewrite !assign_columns_iff.
      destruct (crs g); cbn [columns]; tauto.
    + rewrite Hrows. clear.
      induction (rows g) as [|r rs IH]; constructor; [|exact IH].
      intros c Hg Hlon Hlat. by apply centroid_row_other.
Qed.

Lemma convert_to_centroids_frame_witness :
  ∃ out,
    convert_to_centroids (Some (substations 2 29.76 (-95.37))) = Some out
    ∧ crs out = Some "EPSG:4326"
    ∧ index_names out = ["element_type"; "osmid"].
Proof.
  eexists. split; [reflexivity|].
  destruct (proj2 (convert_to_centroids_frame
                     (Some (substations 2 29.76 (-95.37))))
                  _ _ eq_refl eq_refl) as (Hcrs & Hindex & _).
  split; [exact Hcrs|exact Hindex].
Defined.

(** ** The Record Cleaner, again *)

Section CleanerAgain.

Implicit Types (gdf out : DataFrame) (r : gmap string value) (c : string).

Lemma filter_sublist {A} (f : A → bool) (l : list A) : List.filter f l `sublist_of` l.
Proof.
  induction l as [|x l IH]; simpl; [constructor|].
  destruct (f x); by constructor.
Qed.

Lemma available_columns_sublist gdf :
  available_columns gdf `sublist_of` "element_type" :: "osmid" :: KEEP_COLUMNS.
Proof.
  unfold available_columns. cbv zeta.
  pose proof (filter_sublist (λ col, has_column col gdf) KEEP_COLUMNS) as Hsub.
  destruct (has_column "element_type" gdf), (has_column "osmid" gdf);
    repeat (first [apply sublist_skip | exact Hsub | apply sublist_cons]).
Qed.

Lemma number_rows_lookup_ne col c i (rs : list (gmap string value)) r :
  c ≠ col → r ∈ number_rows col i rs → ∃ r0, r0 ∈ rs ∧ r !! c = r0 !! c.
Proof.
  intros Hne. revert i. induction rs as [|r0 rs IH]; intros i Hr.
  - by apply elem_of_nil in Hr.
  - cbn [number_rows] in Hr. apply elem_of_cons in Hr as [->|Hr].
    + exists r0. split; [apply list_elem_of_here|].
      by apply lookup_insert_ne.
    + destruct (IH _ Hr) as (r1 & Hr1 & Heq). exists r1.
      split; [by apply list_elem_of_further|exact Heq].
Qed.

Lemma stamped_rows_city gdf (city_name : string) r :
  r ∈ rows (stamped gdf city_name) →
  r !! "city_source" = Some (VStr city_name).
Proof.
  unfold stamped, reset_index. cbn [assign index_names].
  assert (∀ r0, r0 ∈ rows (assign "city_source"
                                  (λ _, Some (VStr city_name)) gdf) →
                r0 !! "city_source" = Some (VStr city_name)) as Hassign.
  { intros r0 (r1 & <- & _)%elem_of_map_list. apply lookup_insert_eq. }
  destruct (index_names gdf) as [|n ns]; cbn [rows]; [|apply Hassign].
  intros Hr.
  apply (number_rows_lookup_ne _ "city_source") in Hr
    as (r0 & Hr0 & ->); [by apply Hassign|].
  by destruct (has_column "index" _).
Qed.

Lemma clean_and_filter_none gdf (city_name : string) :
  clean_and_filter (Some gdf) city_name = None ↔ len gdf = 0.
Proof.
  unfold clean_and_filter. destruct (len gdf =? 0)%nat eqn:Hlen.
  - apply Nat.eqb_eq in Hlen. done.
  - apply Nat.eqb_neq in Hlen. split; [done|]. intros Hzero. by destruct Hlen.
Qed.

Lemma length_filter_le {A} (f : A → bool) (l : list A) :
  (List.length (List.filter f l) ≤ List.length l)%nat.
Proof.
  induction l as [|x l IH]; simpl; [lia|]. destruct (f x); simpl; lia.
Qed.

Lemma filter_none {A} (f : A → bool) (l : list A) :
  (∀ x, x ∈ l → f x = false) → List.filter f l = [].
Proof.
  induction l as [|x l IH]; intros Hall; [done|]. simpl.
  rewrite (Hall x (list_elem_of_here _ _)).
  apply IH. intros y Hy. by apply Hall, list_elem_of_further.
Qed.

Lemma stamped_rows_tag gdf (city_name : string) r t :
  t ∈ tag_columns → r ∈ rows (stamped gdf city_name) →
  ∃ r0, r0 ∈ rows gdf ∧ r !! t = r0 !! t.
Proof.
  intros Ht.
  assert (t ≠ "city_source" ∧ t ≠ "index" ∧ t ≠ "level_0") as (Hc & Hi & Hl).
  { unfold tag_columns in Ht.
    repeat (apply elem_of_cons in Ht as [->|Ht]; [done|]).
    by apply elem_of_nil in Ht. }
  unfold stamped, reset_index. cbn [assign index_names].
  assert (∀ r1, r1 ∈ rows (assign "city_source"
                                  (λ _, Some (VStr city_name)) gdf) →
                ∃ r0, r0 ∈ rows gdf ∧ r1 !! t = r0 !! t) as Hassign.
  { intros r1 (r0 & <- & Hr0)%elem_of_map_list. exists r0.
    split; [done|]. by apply lookup_insert_ne. }
  destruct (index_names gdf) as [|n ns]; cbn [rows]; [|apply Hassign].
  intros Hr.
  apply (number_rows_lookup_ne _ t) in Hr as (r1 & Hr1 & ->);
    [by apply Hassign|].
  by destruct (has_column "index" _).
Qed.

End CleanerAgain.

(** X5: the Record Cleaner returns [None] exactly when its input is [None]
    or has no record, and its output never has more records than its
    input. *)
Theorem clean_and_filter_none_iff_no_input
    (gdf : option DataFrame) (city_name : string) :
  (clean_and_filter gdf city_name = None
   ↔ gdf = None ∨ ∃ g, gdf = Some g ∧ len g = 0)
  ∧ (∀ g out, gdf = Some g → clean_and_filter gdf city_name = Some out →
              (len out ≤ len g)%nat).
Proof.
  split.
  - destruct gdf as [g|].
    + rewrite clean_and_filter_none. split.
      * intros Hlen. right. by exists g.
      * intros [Hnone|(g' & Hg' & Hlen)]; [done|]. congruence.
    + split; [by left|done].
  - intros g out -> Hout.
    rewrite (clean_and_filter_unfold _ _ _ Hout). cbv zeta.
    rewrite len_select_columns.
    assert (len (stamped g city_name) = len g) as Hlen.
    { unfold stamped. by rewrite len_reset_index, len_assign. }
    destruct (List.filter _ tag_columns); [lia|].
    unfold len, select_rows in *. cbn [rows]. rewrite <- Hlen.
    apply length_filter_le.
Qed.

Lemma clean_and_filter_none_witness :
  ∃ out,
    clean_and_filter (Some half_tagged_features) "Houston" = Some out
    ∧ (len out ≤ len half_tagged_features)%nat.
Proof.
  eexists. split; [reflexivity|].
  exact (proj2 (clean_and_filter_none_iff_no_input
                  (Some half_tagged_features) "Houston")
               _ _ eq_refl eq_refl).
Defined.

(** X6: when the input has one of the five category columns and none of
    its records has a value in any of them, the Record Cleaner returns a
    frame without records, not [None]. *)
Theorem clean_and_filter_can_return_empty_frame
    (gdf : DataFrame) (city_name c : string) :
  len gdf ≠ 0 →
  c ∈ tag_columns → c ∈ columns gdf →
  (∀ r t, r ∈ rows gdf → t ∈ tag_columns → r !! t = None) →
  ∃ out, clean_and_filter (Some gdf) city_name = Some out ∧ len out = 0.
Proof.
  intros Hlen Hc Hcol Hnull.
  destruct (clean_and_filter (Some gdf) city_name) as [out|] eqn:Hout;
    [|by apply clean_and_filter_none in Hout].
  exists out. split; [done|].
  rewrite (clean_and_filter_unfold _ _ _ Hout). cbv zeta.
  rewrite len_select_columns.
  assert (c ∈ List.filter (λ col, has_column col (stamped gdf city_name))
                          tag_columns) as Hin.
  { apply elem_of_filter_list. split; [done|].
    by apply bool_decide_eq_true, stamped_columns_old. }
  assert (∀ r, r ∈ rows (stamped gdf city_name) →
               any_notna
                 (List.filter (λ col, has_column col (stamped gdf city_name))
                              tag_columns) r = false) as Hmask.
  { intros r Hr. apply not_true_is_false.
    intros (t & Ht & Hsome)%any_notna_true.
    apply elem_of_filter_list in Ht as [Ht _].
    destruct (stamped_rows_tag gdf city_name r t Ht Hr) as (r0 & Hr0 & Heq).
    rewrite Heq, (Hnull r0 t Hr0 Ht) in Hsome. by destruct Hsome. }
  destruct (List.filter _ tag_columns) as [|t ts] eqn:Hfilter.
  { by apply elem_of_nil in Hin. }
  unfold len, select_rows. cbn [rows]. by rewrite (filter_none _ _ Hmask).
Qed.

Lemma clean_and_filter_empty_frame_witness :
  ∃ out,
    clean_and_filter (Some all_null_features) "Houston" = Some out
    ∧ len out = 0.
Proof.
  apply (clean_and_filter_can_return_empty_frame all_null_features
           "Houston" "power").
  - vm_compute. discriminate.
  - solve_elem_of.
  - solve_elem_of.
  - intros r t Hr Ht. unfold all_null_features in Hr. cbn [rows] in Hr.
    apply list_elem_of_singleton in Hr as ->.
    unfold tag_columns in Ht.
    repeat (apply elem_of_cons in Ht as [->|Ht]; [reflexivity|]).
    by apply elem_of_nil in Ht.
Defined.

(** The shape of the Record Cleaner's output. *)
Lemma clean_and_filter_output
    (gdf out : DataFrame) (city_name : string) :
  clean_and_filter (Some gdf) city_name = Some out →
  (∀ r, r ∈ rows out → r !! "city_source" = Some (VStr city_name))
  ∧ (∀ r c, r ∈ rows out → is_Some (r !! c) → c ∈ columns out)
  ∧ columns out `sublist_of` "element_type" :: "osmid" :: KEEP_COLUMNS
  ∧ "city_source" ∈ columns out
  ∧ index_names out = [].
Proof.
  intros Hout.
  pose proof (clean_and_filter_index_names _ _ _ Hout) as Hindex.
  pose proof (clean_and_filter_unfold _ _ _ Hout) as Hform. cbv zeta in Hform.
  set (g1 := stamped gdf city_name) in Hform.
  set (g2 := match List.filter (λ col, has_column col g1) tag_columns with
             | [] => g1
             | _ => select_rows
                      (any_notna
                         (List.filter (λ col, has_column col g1) tag_columns))
                      g1
             end) in Hform.
  assert (columns g2 = columns g1 ∧ index_names g2 = []
          ∧ ∀ r, r ∈ rows g2 → r ∈ rows g1) as (Hcols & Hidx & Hrows).
  { subst g2. destruct (List.filter _ tag_columns) as [|t ts].
    - split; [done|]. split; [apply reset_index_index_names|done].
    - split; [done|]. split; [apply reset_index_index_names|].
      cbn [select_rows rows]. intros r Hr.
      by apply elem_of_filter_list in Hr as [Hr _]. }
  assert ("city_source" ∈ available_columns g2) as Hcity.
  { apply available_columns_kept; [solve_elem_of|]. rewrite Hcols.
    apply reset_index_columns_old, assign_columns_new. }
  assert (columns out = available_columns g2) as Hcolumns by by rewrite Hform.
  assert (∀ r, r ∈ rows out →
               ∃ r2, r2 ∈ rows g1 ∧ r = restrict (available_columns g2) r2)
    as Hout_rows.
  { intros r Hr. rewrite Hform in Hr. cbn [select_columns rows] in Hr.
    apply elem_of_map_list in Hr as (r2 & <- & Hr2).
    exists r2. split; [by apply Hrows|]. by rewrite Hidx. }
  split; [|split; [|split; [|split]]].
  - intros r (r2 & Hr2 & ->)%Hout_rows.
    rewrite (restrict_lookup_in _ _ _ Hcity).
    by apply (stamped_rows_city gdf).
  - intros r c (r2 & Hr2 & ->)%Hout_rows [v Hv].
    rewrite Hcolumns. unfold restrict in Hv.
    by apply map_lookup_filter_Some in Hv as [_ Hc].
  - rewrite Hcolumns. apply available_columns_sublist.
  - by rewrite Hcolumns.
  - exact Hindex.
Qed.

(** X7: every record of the Record Cleaner's output carries the city name
    in [city_source] and has no cell outside the output columns; the output
    columns are a sub-sequence of [element_type], [osmid] and the columns to
    keep, in that order, with [city_source] among them; and the index is the
    positional one. *)
Theorem clean_and_filter_schema
    (gdf out : DataFrame) (city_name : string) :
  clean_and_filter (Some gdf) city_name = Some out →
  (∀ r, r ∈ rows out → r !! "city_source" = Some (VStr city_name))
  ∧ (∀ r c, r ∈ rows out → is_Some (r !! c) → c ∈ columns out)
  ∧ columns out `sublist_of` "element_type" :: "osmid" :: KEEP_COLUMNS
  ∧ "city_source" ∈ columns out
  ∧ index_names out = [].
Proof. apply clean_and_filter_output. Qed.

Lemma clean_and_filter_schema_witness :
  ∃ out,
    clean_and_filter (Some half_tagged_features) "Houston" = Some out
    ∧ (∀ r, r ∈ rows out → r !! "city_source" = Some (VStr "Houston"))
    ∧ "city_source" ∈ columns out.
Proof.
  eexists. split; [reflexivity|].
  destruct (clean_and_filter_schema half_tagged_features _ "Houston" eq_refl)
    as (Hcity & _ & _ & Hcol & _).
  split; [exact Hcity|exact Hcol].
Defined.

(** ** The Verifier, again *)

Section VerifierAgain.

Context (w : World).
Implicit Types (df : DataFrame) (r : gmap string value).

Lemma count_notna_pos col df :
  (0 <? count_notna col df)%nat = true
  ↔ ∃ r, r ∈ rows df ∧ is_Some (r !! col).
Proof.
  unfold count_notna. rewrite Nat.ltb_lt.
  induction (rows df) as [|r0 rs IH]; simpl.
  - split; [lia|]. intros (r & Hr & _). by apply elem_of_nil in Hr.
  - case_bool_decide as Hsome; simpl.
    + split; [|lia]. intros _. exists r0. split; [apply list_elem_of_here|done].
    + rewrite IH. split.
      * intros (r & Hr & Hcol). exists r.
        split; [by apply list_elem_of_further|done].
      * intros (r & [->|Hr]%elem_of_cons & Hcol); [done|by exists r].
Qed.

Lemma verify_data_errors_of df :
  (len df =? 0)%nat = false →
  errors (verify_data w (Some df)).2
  = ((if (100 <? len df)%nat then [] else [volume_diagnostic df])
       ++ (if has_column "lat" df && has_column "lon" df
           then (if (0 <? count_notna "lat" df)%nat
                      && (0 <? count_notna "lon" df)%nat
                 then [] else ["No valid coordinates found"])
                  ++ (if within HOUSTON_DALLAS_LAT_BOUNDS (mean w "lat" df)
                           && within HOUSTON_DALLAS_LON_BOUNDS (mean w "lon" df)
                      then [] else [location_diagnostic w df])
           else ["lat/lon columns missing"]))%list.
Proof.
  intros Hlen. unfold verify_data. rewrite Hlen.
  destruct (100 <? len df)%nat;
    destruct (has_column "lat" df && has_column "lon" df);
    [destruct ((0 <? count_notna "lat" df)%nat
               && (0 <? count_notna "lon" df)%nat);
     destruct (within HOUSTON_DALLAS_LAT_BOUNDS (mean w "lat" df)
               && within HOUSTON_DALLAS_LON_BOUNDS (mean w "lon" df))| |
     destruct ((0 <? count_notna "lat" df)%nat
               && (0 <? count_notna "lon" df)%nat);
     destruct (within HOUSTON_DALLAS_LAT_BOUNDS (mean w "lat" df)
               && within HOUSTON_DALLAS_LON_BOUNDS (mean w "lon" df))|];
    reflexivity.
Qed.

Lemma verify_data_total_records df :
  total_records (verify_data w (Some df)).2 = len df.
Proof.
  unfold verify_data. destruct (len df =? 0)%nat eqn:Hlen.
  - apply Nat.eqb_eq in Hlen. by rewrite Hlen.
  - destruct (100 <? len df)%nat;
      destruct (has_column "lat" df && has_column "lon" df);
      repeat (match goal with |- context [if ?b then _ else _] => destruct b end);
      reflexivity.
Qed.

Lemma verify_data_check_file df :
  check_file (verify_data w (Some df)).2 = false.
Proof.
  unfold verify_data. destruct (len df =? 0)%nat eqn:Hlen; [done|].
  destruct (100 <? len df)%nat;
    destruct (has_column "lat" df && has_column "lon" df);
    repeat (match goal with |- context [if ?b then _ else _] => destruct b end);
    reflexivity.
Qed.

Lemma empty_diagnostic_not_volume df :
  "DataFrame is empty or None" ≠ volume_diagnostic df.
Proof. unfold volume_diagnostic. cbn [String.append]. discriminate. Qed.

Lemma empty_diagnostic_not_location df :
  "DataFrame is empty or None" ≠ location_diagnostic w df.
Proof. unfold location_diagnostic. cbn [String.append]. discriminate. Qed.

End VerifierAgain.

(** X8: [verify_data] returns the report of a missing data set -- no check
    passed, no record counted, the one diagnostic "DataFrame is empty or
    None" -- exactly when it is given [None] or a frame without records;
    for every other input the report counts at least one record and does
    not hold that diagnostic. *)
Theorem verify_data_empty_report_iff (w : World) (df : option DataFrame) :
  (verify_data w df
   = (false, mkReport false false false false 0 ["DataFrame is empty or None"])
   ↔ df = None ∨ ∃ g, df = Some g ∧ len g = 0)
  ∧ ("DataFrame is empty or None" ∈ errors (verify_data w df).2
     ↔ total_records (verify_data w df).2 = 0).
Proof.
  destruct df as [g|].
  - destruct (len g =? 0)%nat eqn:Hlen.
    + assert (verify_data w (Some g)
              = (false, mkReport false false false false 0
                                 ["DataFrame is empty or None"])) as Hrun.
      { unfold verify_data. by rewrite Hlen. }
      apply Nat.eqb_eq in Hlen. split.
      * split; [|done]. intros _. right. by exists g.
      * rewrite Hrun. cbn [snd errors total_records].
        split; [done|]. intros _. apply list_elem_of_here.
    + pose proof (verify_data_total_records w g) as Htotal.
      pose proof (verify_data_errors_of w g Hlen) as Herrors.
      apply Nat.eqb_neq in Hlen. split.
      * split.
        -- intros Hrun. rewrite Hrun in Htotal. cbn in Htotal. lia.
        -- intros [Hnone|(g' & Hg' & Hzero)]; [done|]. congruence.
      * rewrite Htotal. split; [|lia]. rewrite Herrors.
        intros Hin. exfalso.
        pose proof (empty_diagnostic_not_volume g) as Hv.
        pose proof (empty_diagnostic_not_location w g) as Hl.
        destruct (100 <? len g)%nat;
          destruct (has_column "lat" g && has_column "lon" g);
          repeat (match type of Hin with
                  | context [if ?b then _ else _] => destruct b
                  end);
          cbn [app] in Hin;
          repeat (apply elem_of_cons in Hin as [Hin|Hin];
                  [first [by apply Hv | by apply Hl | discriminate Hin]|]);
          by apply elem_of_nil in Hin.
  - split.
    + split; [by left|reflexivity].
    + cbn. split; [done|]. intros _. apply list_elem_of_here.
Qed.

(** X9: on a frame with records that lacks the [lat] or the [lon] column,
    checks 2 and 3 both fail and the report holds one diagnostic for the two,
    "lat/lon columns missing", after the one of check 1 if that failed. *)
Theorem verify_data_missing_columns (w : World) (df : DataFrame) :
  len df ≠ 0 →
  has_column "lat" df && has_column "lon" df = false →
  (verify_data w (Some df)).1 = false
  ∧ check_coordinates (verify_data w (Some df)).2 = false
  ∧ check_location_sanity (verify_data w (Some df)).2 = false
  ∧ errors (verify_data w (Some df)).2
    = ((if (100 <? len df)%nat then [] else [volume_diagnostic df])
         ++ ["lat/lon columns missing"])%list.
Proof.
  intros Hlen Hcols. apply Nat.eqb_neq in Hlen.
  rewrite verify_data_success, verify_data_check_coordinates,
    verify_data_check_location_sanity, (verify_data_errors_of _ _ Hlen), Hcols.
  by rewrite andb_false_r.
Qed.

Lemma verify_data_missing_columns_witness :
  errors (verify_data quiet_world (Some (substations 2 29.76 (-95.37)))).2
  = ["Volume check failed: only 2 records"; "lat/lon columns missing"]
  ∧ failed_checks (verify_data quiet_world (Some (substations 2 29.76 (-95.37)))).2 = 4.
Proof.
  destruct (verify_data_missing_columns quiet_world
              (substations 2 29.76 (-95.37)))
    as (_ & _ & _ & Herrors); [vm_compute; discriminate|reflexivity|].
  split; [exact Herrors|reflexivity].
Defined.

(** X10: check 2 passes exactly when the frame has both coordinate columns,
    some record has a latitude and some record, the same or another, has a
    longitude. *)
Theorem check_coordinates_iff (w : World) (df : DataFrame) :
  check_coordinates (verify_data w (Some df)).2 = true
  ↔ "lat" ∈ columns df ∧ "lon" ∈ columns df
    ∧ (∃ r, r ∈ rows df ∧ is_Some (r !! "lat"))
    ∧ (∃ r, r ∈ rows df ∧ is_Some (r !! "lon")).
Proof.
  rewrite verify_data_check_coordinates, !andb_true_iff, !count_notna_pos.
  unfold has_column. rewrite !bool_decide_eq_true. tauto.
Qed.

(** [verify_data] reports success exactly when it records no
    diagnostic. *)
Lemma verify_data_success_no_error (w : World) (df : option DataFrame) :
  (verify_data w df).1 = true ↔ errors (verify_data w df).2 = [].
Proof.
  destruct df as [g|]; [|done].
  destruct (len g =? 0)%nat eqn:Hlen.
  { unfold verify_data. by rewrite Hlen. }
  rewrite verify_data_success, verify_data_check_volume,
    verify_data_check_coordinates, verify_data_check_location_sanity,
    (verify_data_errors_of _ _ Hlen).
  destruct (100 <? len g)%nat;
    destruct (has_column "lat" g && has_column "lon" g);
    destruct ((0 <? count_notna "lat" g)%nat
              && (0 <? count_notna "lon" g)%nat);
    destruct (within HOUSTON_DALLAS_LAT_BOUNDS (mean w "lat" g)
              && within HOUSTON_DALLAS_LON_BOUNDS (mean w "lon" g));
    by split.
Qed.

(** X11: [verify_data] reports success exactly when it records no
    diagnostic; it never sets the file check, and the record count of the
    report is the number of records it was given. *)
Theorem verify_data_success_iff_no_error (w : World) (df : option DataFrame) :
  ((verify_data w df).1 = true ↔ errors (verify_data w df).2 = [])
  ∧ check_file (verify_data w df).2 = false
  ∧ total_records (verify_data w df).2 = from_option len 0 df.
Proof.
  split; [apply verify_data_success_no_error|].
  destruct df as [g|]; [|by split].
  split; [apply verify_data_check_file|apply verify_data_total_records].
Qed.

(** ** The Aggregator, again *)

Section AggregatorAgain.

Implicit Types (k : list (option value)) (r : gmap string value).
Implicit Types (seen : list (list (option value))).
Implicit Types (X : list (gmap string value)).

Lemma drop_duplicates_from_sublist subset seen X :
  drop_duplicates_from subset seen X `sublist_of` X.
Proof.
  revert seen. induction X as [|r X IH]; intros seen; simpl; [constructor|].
  destruct (seen_key seen (row_key subset r)).
  - apply sublist_cons, IH.
  - apply sublist_skip, IH.
Qed.

Lemma drop_duplicates_from_unseen subset seen X r :
  r ∈ drop_duplicates_from subset seen X →
  seen_key seen (row_key subset r) = false.
Proof.
  revert seen. induction X as [|x X IH]; intros seen; simpl.
  - intros Hr. by apply elem_of_nil in Hr.
  - destruct (seen_key seen (row_key subset x)) eqn:Hseen; [apply IH|].
    intros [->|Hr]%elem_of_cons; [exact Hseen|].
    apply IH in Hr. unfold seen_key in Hr. cbn [existsb] in Hr.
    by apply orb_false_iff in Hr as [_ Hr].
Qed.

Lemma drop_duplicates_from_distinct subset seen X :
  distinct_keys subset (drop_duplicates_from subset seen X) = true.
Proof.
  revert seen. induction X as [|x X IH]; intros seen; simpl; [done|].
  destruct (seen_key seen (row_key subset x)) eqn:Hseen; [apply IH|].
  cbn [distinct_keys]. rewrite IH, andb_true_r. apply negb_true_iff.
  apply not_true_is_false. intros (r' & Hr' & Hkey)%existsb_exists.
  apply list_elem_of_In, drop_duplicates_from_unseen in Hr'.
  unfold seen_key in Hr'. cbn [existsb] in Hr'.
  apply orb_false_iff in Hr' as [Hr' _].
  rewrite key_eqb_sym in Hkey. congruence.
Qed.

Lemma drop_duplicates_from_fixed subset seen X :
  (∀ r, r ∈ X → seen_key seen (row_key subset r) = false) →
  distinct_keys subset X = true →
  drop_duplicates_from subset seen X = X.
Proof.
  revert seen. induction X as [|x X IH]; intros seen Hunseen Hdistinct;
    simpl; [done|].
  rewrite (Hunseen x) by apply list_elem_of_here.
  cbn [distinct_keys] in Hdistinct.
  apply andb_true_iff in Hdistinct as [Hx Hdistinct].
  apply negb_true_iff in Hx.
  f_equal. apply IH; [|exact Hdistinct].
  intros r Hr.
  pose proof (Hunseen r (list_elem_of_further _ _ _ Hr)) as Hseen.
  unfold seen_key in Hseen |- *. cbn [existsb].
  rewrite Hseen, orb_false_r. apply not_true_is_false. intros Hkey.
  assert (existsb (λ r', key_eqb (row_key subset x) (row_key subset r')) X
          = true) as Hex; [|congruence].
  apply existsb_exists. exists r. split; [by apply list_elem_of_In|].
  by rewrite key_eqb_sym.
Qed.

Lemma length_concat_rows (frames : list DataFrame) :
  len (concat frames) = foldr Nat.add 0 (map len frames).
Proof.
  unfold concat, len. cbn [rows].
  induction frames as [|d frames IH]; [done|].
  cbn [flat_map map foldr]. by rewrite length_app, length_map, IH.
Qed.

Lemma len_drop_duplicates subset (df : DataFrame) :
  (len (drop_duplicates subset df) ≤ len df)%nat.
Proof.
  unfold drop_duplicates, len. cbn [rows].
  apply sublist_length, drop_duplicates_from_sublist.
Qed.

End AggregatorAgain.

(** X12: [drop_duplicates] keeps a sub-sequence of the records, in their
    order; no two records it keeps have the same key; every record of the
    input has a record with its key in the output; removing duplicates a
    second time changes nothing; and CRS, index and columns are those of
    the input. *)
Theorem drop_duplicates_characterisation
    (subset : list string) (df : DataFrame) :
  rows (drop_duplicates subset df) `sublist_of` rows df
  ∧ distinct_keys subset (rows (drop_duplicates subset df)) = true
  ∧ (∀ r, r ∈ rows df →
          ∃ r', r' ∈ rows (drop_duplicates subset df)
                ∧ key_eqb (row_key subset r) (row_key subset r') = true)
  ∧ drop_duplicates subset (drop_duplicates subset df)
    = drop_duplicates subset df
  ∧ crs (drop_duplicates subset df) = crs df
  ∧ index_names (drop_duplicates subset df) = index_names df
  ∧ columns (drop_duplicates subset df) = columns df.
Proof.
  unfold drop_duplicates. cbn [rows crs index_names columns].
  split; [apply drop_duplicates_from_sublist|].
  split; [apply drop_duplicates_from_distinct|].
  split; [|split; [|done]].
  - intros r Hr.
    by destruct (drop_duplicates_from_represents subset [] (rows df) r Hr)
      as [Hseen|Hex].
  - f_equal. apply drop_duplicates_from_fixed.
    + intros r _. reflexivity.
    + apply drop_duplicates_from_distinct.
Qed.

(** X13: the record count the Fallback Controller tests, [total_yield], is
    the number of records of the concatenated frame, before duplicates are
    removed; the data set after the removal has at most that many. *)
Theorem total_yield_is_length_of_concat
    (subset : list string) (all_data : list DataFrame) :
  total_yield all_data = len (concat all_data)
  ∧ (len (drop_duplicates subset (concat all_data)) ≤ total_yield all_data)%nat.
Proof.
  assert (total_yield all_data = len (concat all_data)) as Heq.
  { rewrite length_concat_rows. by destruct all_data. }
  split; [exact Heq|]. rewrite Heq. apply len_drop_duplicates.
Qed.

(** ** The Output Writer, again *)

Section WriterAgain.

Context (w : World).
Implicit Types (df : DataFrame) (st : State).

Lemma save_output_settings df csv_path geojson_path st :
  settings (save_output w df csv_path geojson_path st).2 = settings st.
Proof.
  rewrite save_output_cases. cbv zeta.
  destruct (_ && _); [|done].
  by destruct (geojson_target df geojson_path).
Qed.

Lemma geojson_target_Some df geojson_path path :
  geojson_target df geojson_path = Some path
  ↔ geojson_path = Some path ∧ path ≠ EmptyString
    ∧ "lat" ∈ columns df ∧ "lon" ∈ columns df.
Proof.
  unfold geojson_target, has_column.
  destruct geojson_path as [p|]; [|split; [done|by intros [? _]]].
  repeat case_bool_decide; cbn [negb andb];
    (split; [intros [= <-]|intros ([= <-] & Hne & Hlat & Hlon)]); done.
Qed.

End WriterAgain.

(** X14: [save_output] calls the CSV writer once, first, with the frame as
    given, and leaves the client settings alone.  It calls the GeoJSON
    writer at most once, after the CSV writer, and exactly when the CSV
    write raised nothing, the CSV file is there, a non-empty GeoJSON path
    was given and the frame has both coordinate columns; the frame it hands
    over then is the one with the points rebuilt from [lon] and [lat]. *)
Theorem save_output_calls
    (w : World) (df : DataFrame) (csv_path : string)
    (geojson_path : option string) (st : State) :
  settings (save_output w df csv_path geojson_path st).2 = settings st
  ∧ ∃ rest,
      calls (save_output w df csv_path geojson_path st).2
      = (calls st ++ ToCsv csv_path df :: rest)%list
      ∧ (length rest ≤ 1)%nat
      ∧ ∀ c, c ∈ rest
             ↔ ∃ path,
                 c = ToFile path (GeoDataFrame_from_xy df)
                 ∧ geojson_path = Some path ∧ path ≠ EmptyString
                 ∧ "lat" ∈ columns df ∧ "lon" ∈ columns df
                 ∧ (to_csv w (files st) df csv_path).1 = Ok ()
                 ∧ is_Some ((to_csv w (files st) df csv_path).2 !! csv_path).
Proof.
  split; [apply save_output_settings|].
  rewrite save_output_cases. cbv zeta.
  unfold after_to_file, after_to_csv. cbn [files].
  destruct (to_csv w (files st) df csv_path) as [[[]|e] fs1]; cbn [fst snd is_ok andb].
  - case_bool_decide as Hfound.
    + destruct (geojson_target df geojson_path) as [path|] eqn:Htarget.
      * exists [ToFile path (GeoDataFrame_from_xy df)]. cbn [snd calls].
        rewrite <- app_assoc. split; [done|]. split; [simpl; lia|].
        apply geojson_target_Some in Htarget as (Hpath & Hne & Hlat & Hlon).
        intros c. rewrite list_elem_of_singleton. split.
        -- intros ->. by exists path.
        -- intros (path' & -> & Hpath' & _). congruence.
      * exists []. cbn [snd calls]. split; [done|]. split; [simpl; lia|].
        intros c. split; [by intros ?%elem_of_nil|].
        intros (path & _ & Hpath & Hne & Hlat & Hlon & _).
        assert (geojson_target df geojson_path = Some path) as Hsome
          by by apply geojson_target_Some.
        congruence.
    + exists []. cbn [snd calls]. split; [done|]. split; [simpl; lia|].
      intros c. split; [by intros ?%elem_of_nil|].
      by intros (path & _ & _ & _ & _ & _ & _ & Hsome).
  - exists []. cbn [snd calls]. split; [done|]. split; [simpl; lia|].
    intros c. split; [by intros ?%elem_of_nil|].
    by intros (path & _ & _ & _ & _ & _ & Hok & _).
Qed.

(** ** The loop over the regions, again *)

Section RegionsAgain.

Context (w : World) (tags : list (string * list string)).
Implicit Types (st : State) (s : Settings) (history : list Call).
Implicit Types (locations : list string) (d : DataFrame).

Lemma length_pass_data s history locations :
  (length (pass_data w tags s history locations) ≤ length locations)%nat.
Proof.
  revert history. induction locations as [|l locations IH]; intros history;
    cbn [pass_data length]; [lia|].
  rewrite length_app. specialize (IH (history ++ [FeaturesFromPlace s l])%list).
  destruct (region_result _ l); simpl; lia.
Qed.

(** Where a frame of a pass comes from: the client's answer for one of the
    regions, normalized and cleaned under the name of the region's city. *)
Lemma region_result_origin answer (location : string) d :
  region_result answer location = Some d →
  ∃ gdf g1,
    answer = Ok (Some gdf)
    ∧ convert_to_centroids (Some gdf) = Some g1
    ∧ clean_and_filter (Some g1) (before_comma location) = Some d.
Proof.
  unfold region_result. destruct answer as [[gdf|]|e]; try done.
  destruct (len gdf =? 0)%nat; [done|].
  destruct (convert_to_centroids (Some gdf)) as [g1|] eqn:Hconv; [|done].
  destruct (clean_and_filter (Some g1) (before_comma location)) as [g|]
    eqn:Hclean; [|done].
  destruct (0 <? len g)%nat; [|done].
  intros Hd. apply (inj Some) in Hd. subst g. by exists gdf, g1.
Qed.

Lemma pass_data_origin s history locations d :
  d ∈ pass_data w tags s history locations →
  ∃ location gdf g1,
    location ∈ locations
    ∧ convert_to_centroids (Some gdf) = Some g1
    ∧ clean_and_filter (Some g1) (before_comma location) = Some d.
Proof.
  revert history. induction locations as [|l locations IH]; intros history Hd.
  - by apply elem_of_nil in Hd.
  - cbn [pass_data] in Hd. apply elem_of_app in Hd as [Hd|Hd].
    + destruct (region_result _ l) as [d'|] eqn:Hres; cbn in Hd;
        [|by apply elem_of_nil in Hd].
      apply list_elem_of_singleton in Hd as ->.
      apply region_result_origin in Hres as (gdf & g1 & _ & Hconv & Hclean).
      exists l, gdf, g1. split; [apply list_elem_of_here|done].
    + destruct (IH _ Hd) as (l' & gdf & g1 & Hl' & Hrest).
      exists l', gdf, g1. split; [by apply list_elem_of_further|done].
Qed.

End RegionsAgain.

(** X15: when the loop over the regions returns, it has queried the
    client once per region, in order and under the settings in force, and
    has touched no file; it has kept what was collected before and added at
    most one frame per region, each with records and both coordinate
    columns.  The [use_historical] flag has no effect on the loop. *)
Theorem fetch_all_outcome
    (w : World) (tags : list (string * list string)) (use_historical : bool)
    (locations : list string) (all_data : list DataFrame) (st : State)
    (result : list DataFrame) (st' : State) :
  fetch_all w tags use_historical locations all_data st = (Ok result, st') →
  st' = mkState (settings st)
                (calls st ++ map (FeaturesFromPlace (settings st)) locations)
                (files st)
  ∧ (∃ more,
       result = (all_data ++ more)%list
       ∧ (length more ≤ length locations)%nat
       ∧ ∀ d, d ∈ more →
              (0 < len d)%nat ∧ "lat" ∈ columns d ∧ "lon" ∈ columns d)
  ∧ fetch_all w tags (negb use_historical) locations all_data st
    = (Ok result, st').
Proof.
  rewrite !fetch_all_spec. intros Hrun.
  apply Ok_pair_inj in Hrun as [<- <-].
  split; [reflexivity|]. split; [|reflexivity].
  exists (pass_data w tags (settings st) (calls st) locations).
  split; [reflexivity|]. split; [apply length_pass_data|].
  intros d. apply pass_data_frames.
Qed.

Lemma fetch_all_outcome_witness :
  ∃ result st' more,
    fetch_all one_substation_world build_tags_dict true LOCATIONS []
              initial_state
    = (Ok result, st')
    ∧ result = more
    ∧ (length more ≤ 2)%nat.
Proof.
  pose proof (fetch_all_spec one_substation_world build_tags_dict true
                LOCATIONS [] initial_state) as Hrun.
  destruct (fetch_all_outcome _ _ _ _ _ _ _ _ Hrun)
    as (_ & (more & Hresult & Hlength & _) & _).
  eexists _, _, more. split; [exact Hrun|]. split; [exact Hresult|].
  exact Hlength.
Defined.

(** ** The run as a whole, again *)

Section RunAgain.

Context (w : World) (st : State).
Implicit Types (d : DataFrame) (r : gmap string value).

Lemma selected_data_origin d :
  d ∈ selected_data w st →
  ∃ location gdf g1,
    location ∈ LOCATIONS
    ∧ convert_to_centroids (Some gdf) = Some g1
    ∧ clean_and_filter (Some g1) (before_comma location) = Some d.
Proof.
  unfold selected_data. destruct (fallback w st); apply pass_data_origin.
Qed.

Lemma dataset_rows_origin r :
  r ∈ rows (dataset w st) → ∃ d, d ∈ selected_data w st ∧ r ∈ rows d.
Proof.
  rewrite rows_dataset. intros Hr.
  eapply elem_of_sublist in Hr; [|apply drop_duplicates_from_sublist].
  apply list_elem_of_In, in_flat_map in Hr as (d & Hd & Hr).
  exists d. split; by apply list_elem_of_In.
Qed.

Lemma foldl_union_columns_inv (cs : list string) (dss : list (list string))
    (c : string) :
  c ∈ foldl union_columns cs dss → c ∈ cs ∨ ∃ ds, ds ∈ dss ∧ c ∈ ds.
Proof.
  revert cs. induction dss as [|ds dss IH]; intros cs Hc; simpl in Hc;
    [by left|].
  apply IH in Hc as [Hc|(ds' & Hds' & Hc)].
  - unfold union_columns in Hc. apply elem_of_app in Hc as [Hc|Hc];
      [by left|right].
    apply elem_of_filter_list in Hc as [Hc _].
    exists ds. split; [apply list_elem_of_here|done].
  - right. exists ds'. split; [by apply list_elem_of_further|done].
Qed.

Lemma dataset_columns_origin (c : string) :
  c ∈ columns (dataset w st) → ∃ d, d ∈ selected_data w st ∧ c ∈ columns d.
Proof.
  unfold dataset, drop_duplicates, concat. cbn [columns].
  intros [Hc|(ds & Hds & Hc)]%foldl_union_columns_inv;
    [by apply elem_of_nil in Hc|].
  apply elem_of_map_list in Hds as (d & <- & Hd). by exists d.
Qed.

Lemma historical_data_not_empty :
  fallback w st = false → historical_data w st ≠ [].
Proof.
  unfold fallback. intros Hfb Hnil. rewrite Hnil in Hfb. done.
Qed.

Lemma settings_state_before_save :
  settings (state_before_save w st)
  = if fallback w st then current_settings else historical_settings.
Proof. unfold state_before_save. by destruct (fallback w st). Qed.

End RunAgain.

(** A run of [main], as the model has it. *)
Lemma main_run (w : World) (st : State) :
  ∃ out st' writes,
    main w st = (Ok out, st')
    ∧ settings st'
      = (if used_historical out then historical_settings else current_settings)
    ∧ calls st'
      = (calls st ++ pass_calls historical_settings LOCATIONS
           ++ (if used_historical out then []
               else pass_calls current_settings LOCATIONS)
           ++ writes)%list
    ∧ Forall (λ c, is_client_call c = false) writes
    ∧ (final_df out = None ↔ final_report out = None)
    ∧ (final_df out = None →
       used_historical out = false ∧ overall_success out = false
       ∧ writes = [] ∧ files st' = files st).
Proof.
  rewrite main_spec.
  pose proof (calls_state_before_save w st) as Hcalls.
  pose proof (settings_state_before_save w st) as Hsettings.
  destruct (selected_data w st) as [|d rest] eqn:Hsel.
  - eexists _, _, []. split; [reflexivity|]. cbn [used_historical final_df
      final_report overall_success].
    assert (fallback w st = true) as Hfb.
    { destruct (fallback w st) eqn:Hfb; [done|].
      unfold selected_data in Hsel. rewrite Hfb in Hsel.
      by apply historical_data_not_empty in Hfb. }
    rewrite Hsettings, Hcalls, Hfb. cbn [negb]. rewrite app_nil_r.
    split; [done|]. split; [done|]. split; [constructor|].
    split; [done|]. intros _.
    split; [done|]. split; [done|]. split; [done|].
    apply files_state_before_save.
  - destruct (save_output_writes w (dataset w st) (output_csv w)
                (Some (output_geojson w)) (state_before_save w st))
      as (writes & Hwrites & Hnone & _).
    eexists _, _, writes. split; [reflexivity|]. cbn [used_historical final_df
      final_report overall_success].
    unfold saving. rewrite save_output_settings, Hwrites, Hsettings, Hcalls.
    destruct (fallback w st); cbn [negb]; rewrite <- ?app_assoc;
      (split; [done|]; split; [done|]; split; [exact Hnone|];
       split; [done|]; done).
Qed.

(** X16: when [main] returns, it leaves the client in the mode it ended
    in.  Its calls are: one pass over the regions under the HISTORICAL
    settings, then, if it fell back, one pass under the CURRENT settings,
    then the calls of the writers.  It has a data set exactly when it has a
    report.  A run without data happens only after the fallback; it reports
    failure, calls no writer and leaves the files as they were. *)
Theorem main_trace (w : World) (st : State) (out : Outcome) (st' : State) :
  main w st = (Ok out, st') →
  settings st'
  = (if used_historical out then historical_settings else current_settings)
  ∧ (∃ writes,
       calls st'
       = (calls st ++ pass_calls historical_settings LOCATIONS
            ++ (if used_historical out then []
                else pass_calls current_settings LOCATIONS)
            ++ writes)%list
       ∧ Forall (λ c, is_client_call c = false) writes
       ∧ (final_df out = None → writes = []))
  ∧ (final_df out = None ↔ final_report out = None)
  ∧ (final_df out = None →
     used_historical out = false ∧ overall_success out = false
     ∧ files st' = files st).
Proof.
  intros Hmain.
  destruct (main_run w st)
    as (out0 & st0 & writes & Hrun & Hsettings & Hcalls & Hwrites
        & Hreport & Hnone).
  rewrite Hmain in Hrun. apply Ok_pair_inj in Hrun as [<- <-].
  split; [exact Hsettings|]. split; [|split; [exact Hreport|]].
  - exists writes. split; [exact Hcalls|]. split; [exact Hwrites|].
    intros Hdf. by destruct (Hnone Hdf) as (_ & _ & ? & _).
  - intros Hdf. by destruct (Hnone Hdf) as (? & ? & _ & ?).
Qed.

Lemma main_trace_witness :
  ∃ out st',
    main quiet_world initial_state = (Ok out, st')
    ∧ final_df out = None ∧ used_historical out = false
    ∧ overall_success out = false ∧ files st' = files initial_state.
Proof.
  pose proof (main_spec quiet_world initial_state) as Hmain.
  assert (selected_data quiet_world initial_state = []) as Hsel
    by (vm_compute; reflexivity).
  rewrite Hsel in Hmain.
  destruct (main_trace _ _ _ _ Hmain) as (_ & _ & _ & Hnone).
  destruct (Hnone eq_refl) as (Hmode & Hfailed & Hfiles).
  eexists _, _. split; [exact Hmain|]. split; [reflexivity|].
  split; [exact Hmode|]. split; [exact Hfailed|exact Hfiles].
Defined.

(** X17: the data set a run returns has at least one record and no two
    records with the same latitude and longitude; it is a plain frame with
    the positional index; and the record count of the report is its number
    of records. *)
Theorem final_dataset_records
    (w : World) (st : State) (out : Outcome) (st' : State)
    (ds : DataFrame) (report : Report) :
  main w st = (Ok out, st') →
  final_df out = Some ds →
  final_report out = Some report →
  (0 < len ds)%nat
  ∧ distinct_keys ["lat"; "lon"] (rows ds) = true
  ∧ crs ds = None ∧ index_names ds = []
  ∧ total_records report = len ds.
Proof.
  intros Hmain Hds Hreport.
  destruct (main_outcome w st out st' ds Hmain Hds)
    as (d & rest & Hsel & -> & -> & ->).
  cbn [final_report] in Hreport.
  assert (report = completed_report w st) as -> by congruence.
  split; [by eapply dataset_not_empty|].
  split; [apply drop_duplicates_from_distinct|].
  split; [done|]. split; [done|].
  unfold completed_report, set_check_file, append_error. cbv zeta.
  destruct (file_saved w st); cbn [total_records];
    apply verify_data_total_records.
Qed.

Lemma final_dataset_records_witness :
  ∃ out st' ds report,
    main one_substation_world initial_state = (Ok out, st')
    ∧ final_df out = Some ds ∧ final_report out = Some report
    ∧ (0 < len ds)%nat
    ∧ distinct_keys ["lat"; "lon"] (rows ds) = true
    ∧ total_records report = len ds.
Proof.
  pose proof (main_spec one_substation_world initial_state) as Hmain.
  destruct (selected_data one_substation_world initial_state) as [|d rest]
    eqn:Hsel.
  { vm_compute in Hsel. discriminate Hsel. }
  eexists _, _, _, _.
  split; [exact Hmain|]. split; [reflexivity|]. split; [reflexivity|].
  destruct (final_dataset_records
              one_substation_world initial_state _ _ _ _ Hmain
              eq_refl eq_refl) as (Hlen & Hdistinct & _ & _ & Htotal).
  split; [exact Hlen|]. split; [exact Hdistinct|exact Htotal].
Defined.

(** X18: the data set a run returns has the columns [lat], [lon] and
    [city_source], and no column besides [element_type], [osmid] and the
    columns to keep; every record of it names Houston or Dallas as its
    source city and has no cell outside the columns. *)
Theorem final_dataset_schema
    (w : World) (st : State) (out : Outcome) (st' : State) (ds : DataFrame) :
  main w st = (Ok out, st') →
  final_df out = Some ds →
  "lat" ∈ columns ds ∧ "lon" ∈ columns ds ∧ "city_source" ∈ columns ds
  ∧ (∀ c, c ∈ columns ds → c ∈ "element_type" :: "osmid" :: KEEP_COLUMNS)
  ∧ ∀ r, r ∈ rows ds →
         (r !! "city_source" = Some (VStr "Houston")
          ∨ r !! "city_source" = Some (VStr "Dallas"))
         ∧ ∀ c, is_Some (r !! c) → c ∈ columns ds.
Proof.
  intros Hmain Hds.
  destruct (main_outcome w st out st' ds Hmain Hds)
    as (d & rest & Hsel & -> & _ & _).
  assert (d ∈ selected_data w st) as Hd by (rewrite Hsel; apply list_elem_of_here).
  assert (∀ d' c, d' ∈ selected_data w st → c ∈ columns d' →
                  c ∈ columns (dataset w st)) as Hcols.
  { intros d' c Hd' Hc. unfold dataset, drop_duplicates. cbn [columns].
    by eapply concat_columns_elem. }
  destruct (selected_data_frames w st d Hd) as (_ & Hlat & Hlon).
  destruct (selected_data_origin w st d Hd)
    as (l & gdf & g1 & _ & _ & Hclean).
  destruct (clean_and_filter_output _ _ _ Hclean) as (_ & _ & _ & Hcity & _).
  split; [by eapply Hcols|]. split; [by eapply Hcols|].
  split; [by eapply Hcols|]. split.
  - intros c (d' & Hd' & Hc)%dataset_columns_origin.
    destruct (selected_data_origin w st d' Hd')
      as (l' & gdf' & g1' & _ & _ & Hclean').
    destruct (clean_and_filter_output _ _ _ Hclean') as (_ & _ & Hsub & _).
    by eapply elem_of_sublist.
  - intros r (d' & Hd' & Hr)%dataset_rows_origin.
    destruct (selected_data_origin w st d' Hd')
      as (l' & gdf' & g1' & Hl' & _ & Hclean').
    destruct (clean_and_filter_output _ _ _ Hclean')
      as (Hsource & Hcells & _).
    split.
    + rewrite (Hsource r Hr). unfold LOCATIONS in Hl'.
      apply elem_of_cons in Hl' as [->|Hl']; [by left|].
      apply list_elem_of_singleton in Hl' as ->. by right.
    + intros c Hc. eapply Hcols; [exact Hd'|]. by eapply Hcells.
Qed.

Lemma final_dataset_schema_witness :
  ∃ out st' ds,
    main one_substation_world initial_state = (Ok out, st')
    ∧ final_df out = Some ds
    ∧ "lat" ∈ columns ds ∧ "lon" ∈ columns ds ∧ "city_source" ∈ columns ds.
Proof.
  pose proof (main_spec one_substation_world initial_state) as Hmain.
  destruct (selected_data one_substation_world initial_state) as [|d rest]
    eqn:Hsel.
  { vm_compute in Hsel. discriminate Hsel. }
  eexists _, _, _.
  split; [exact Hmain|]. split; [reflexivity|].
  destruct (final_dataset_schema
              one_substation_world initial_state _ _ _ Hmain eq_refl)
    as (Hlat & Hlon & Hcity & _).
  split; [exact Hlat|]. split; [exact Hlon|exact Hcity].
Defined.

(** ** The exit status of the script *)

(** X19: the script exits with status 0 or 1 and leaves the state [main]
    leaves.  The status is 0 exactly when the run has a data set and a
    report in which all four checks passed, and then the report holds no
    diagnostic; a run without data exits with status 1. *)
Theorem script_exit_status (w : World) (st : State) :
  ((script w st).1 = 0%Z ∨ (script w st).1 = 1%Z)
  ∧ (script w st).2 = (main w st).2
  ∧ ((script w st).1 = 0%Z
     ↔ ∃ out st' ds report,
         main w st = (Ok out, st')
         ∧ final_df out = Some ds ∧ final_report out = Some report
         ∧ check_volume report = true ∧ check_coordinates report = true
         ∧ check_location_sanity report = true ∧ check_file report = true)
  ∧ ((script w st).1 = 0%Z
     → ∃ out st' report,
         main w st = (Ok out, st') ∧ final_report out = Some report
         ∧ errors report = []).
Proof.
  unfold script. rewrite main_spec.
  destruct (completed_report_checks w st) as (Hv & Hc & Hl & Hf & He).
  pose proof (verify_data_success w (dataset w st)) as Hsuccess.
  pose proof (verify_data_success_no_error w (Some (dataset w st))) as Herrors.
  destruct (selected_data w st) as [|d rest].
  - cbn [fst snd overall_success]. split; [by right|]. split; [done|].
    split; [|done]. split; [done|].
    intros (out & st' & ds & report & Hmain & Hds & _).
    apply Ok_pair_inj in Hmain as [<- _]. discriminate Hds.
  - cbn [fst snd overall_success].
    destruct ((verify_data w (Some (dataset w st))).1) eqn:Hverify;
      destruct (file_saved w st) eqn:Hsaved; cbn [andb fst snd].
    + split; [by left|]. split; [done|].
      symmetry in Hsuccess. apply andb_true_iff in Hsuccess as [Hvc Hls].
      apply andb_true_iff in Hvc as [Hvol Hcoord].
      split.
      * split; [|done]. intros _. eexists _, _, _, _.
        split; [reflexivity|]. cbn [final_df final_report].
        split; [reflexivity|]. split; [reflexivity|].
        rewrite Hv, Hc, Hl, Hf. done.
      * intros _. eexists _, _, _. split; [reflexivity|].
        cbn [final_report]. split; [reflexivity|].
        rewrite He, (proj1 Herrors eq_refl). done.
    + split; [by right|]. split; [done|]. split; [|done]. split; [done|].
      intros (out & st' & ds & report & Hmain & _ & Hreport & _ & _ & _ & Hfile).
      apply Ok_pair_inj in Hmain as [<- _]. cbn [final_report] in Hreport.
      apply (inj Some) in Hreport. subst report. congruence.
    + split; [by right|]. split; [done|]. split; [|done]. split; [done|].
      intros (out & st' & ds & report & Hmain & _ & Hreport
              & Hvol & Hcoord & Hls & _).
      apply Ok_pair_inj in Hmain as [<- _]. cbn [final_report] in Hreport.
      apply (inj Some) in Hreport. subst report.
      rewrite Hv in Hvol. rewrite Hc in Hcoord. rewrite Hl in Hls.
      rewrite Hvol, Hcoord, Hls in Hsuccess. done.
    + split; [by right|]. split; [done|]. split; [|done]. split; [done|].
      intros (out & st' & ds & report & Hmain & _ & Hreport & _ & _ & _ & Hfile).
      apply Ok_pair_inj in Hmain as [<- _]. cbn [final_report] in Hreport.
      apply (inj Some) in Hreport. subst report. congruence.
Qed.

Lemma script_exit_status_witness :
  (script (working_writers (yields 101 0)) initial_state).1 = 0%Z
  ∧ ∃ out st' report,
      main (working_writers (yields 101 0)) initial_state = (Ok out, st')
      ∧ final_report out = Some report
      ∧ errors report = [].
Proof.
  assert ((script (working_writers (yields 101 0)) initial_state).1 = 0%Z)
    as Hexit by (vm_compute; reflexivity).
  split; [exact Hexit|].
  exact (proj2 (proj2 (proj2 (script_exit_status _ _))) Hexit).
Defined.

(** ** The city of a region *)

(** X20: the city name under which a region's records are stamped is the
    part of the region's name before its first comma: it holds no comma,
    and the name is the city name alone or the city name, a comma and a
    rest. *)
Theorem before_comma_prefix (location : string) :
  (∀ a b, before_comma location ≠ a ++ String ","%char b)
  ∧ ∃ rest,
      location = before_comma location ++ rest
      ∧ (rest = EmptyString ∨ ∃ rest', rest = String ","%char rest').
Proof.
  split.
  - induction location as [|c s IH]; intros a b; cbn [before_comma].
    + by destruct a.
    + destruct (Ascii.eqb c ","%char) eqn:Hc; [by destruct a|].
      destruct a as [|c' a]; simpl; intros Heq.
      * injection Heq as -> _. by rewrite Ascii.eqb_refl in Hc.
      * injection Heq as _ Heq. by apply IH in Heq.
  - induction location as [|c s (rest & Hs & Hrest)]; cbn [before_comma].
    + exists EmptyString. split; [done|by left].
    + destruct (Ascii.eqb c ","%char) eqn:Hc.
      * apply Ascii.eqb_eq in Hc as ->. exists (String ","%char s).
        split; [done|]. right. by exists s.
      * exists rest. split; [|exact Hrest].
        change (String c s = String c (before_comma s ++ rest)). congruence.
Qed.

(** ** The two temporal modes *)

(** X21: each of the two configuration functions sets all of the client
    settings, so the mode it leaves does not depend on the mode before, and
    neither touches the calls or the files.  The two modes have the same
    timeout and logging and differ in the Overpass header, where the
    HISTORICAL one adds the date filter to the CURRENT one. *)
Theorem configure_osmnx_modes (st : State) :
  (configure_osmnx_historical ≫= λ _, configure_osmnx_current) st
  = configure_osmnx_current st
  ∧ (configure_osmnx_current ≫= λ _, configure_osmnx_historical) st
    = configure_osmnx_historical st
  ∧ calls (configure_osmnx_historical st).2 = calls st
  ∧ files (configure_osmnx_historical st).2 = files st
  ∧ calls (configure_osmnx_current st).2 = calls st
  ∧ files (configure_osmnx_current st).2 = files st
  ∧ settings (configure_osmnx_historical st).2
    ≠ settings (configure_osmnx_current st).2
  ∧ overpass_settings (settings (configure_osmnx_historical st).2)
    = overpass_settings (settings (configure_osmnx_current st).2)
        ++ "[date:" ++ double_quote ++ HISTORICAL_DATE ++ double_quote ++ "]"
  ∧ timeout (settings (configure_osmnx_historical st).2)
    = timeout (settings (configure_osmnx_current st).2)
  ∧ log_console (settings (configure_osmnx_historical st).2)
    = log_console (settings (configure_osmnx_current st).2).
Proof.
  repeat split; try reflexivity.
  cbn. intros Heq. apply (f_equal overpass_settings) in Heq.
  vm_compute in Heq. discriminate Heq.
Qed.
